(** * ANGA air-quality backend: a shallow embedding of [app.py]

    The Flask application fuses one ground measurement (OpenAQ) with two
    derived column sensors, a forecast and health alerts.  This file embeds
    the functions of [app.py] that carry the decision logic

      - [generate_fallback_data]  (lines 17-31)
      - [get_openaq_data]         (lines 33-84)
      - [derive_column_data]      (lines 86-106)
      - [generate_alerts]         (lines 108-113)
      - [get_dashboard_data]      (lines 117-148)

    and states the properties of the specification over them.

    Modelling conventions.
      - Python values are the inductive [pyval]; a [dict] is an association
        list in insertion order with unique keys, as CPython keeps it.
      - A Python [float] is [float]: an exact rational within the range of
        a double, an infinity or NaN.  Arithmetic is exact (no rounding
        error, no signed zero) and overflows to an infinity; [int] is [Z],
        and its conversion to [float] raises [OverflowError] out of range.
        A double differs from the exact result of one operation by a
        relative error of at most [2^-53]; statements that relate the
        engine's index to its baseline leave room for it
        ([rounding_margin]), so that they hold of the doubles as well.
      - [random], [os.getenv] and [requests.get] read a [world]: a tape of
        raw random draws with a cursor, the configured credential, the
        provider's answers and the log of the requests sent so far.
      - A computation is a function from [world] to a [result] and a new
        world; [Raise] is a Python exception.
      - [print] only writes to the console and is left out. *)

From Stdlib Require Import ZArith NArith QArith Qround Qabs Qpower.
From Stdlib Require Import String Ascii List Bool Lia Lqa.
From Stdlib Require Import DecimalString.
From Stdlib Require DecimalFacts DecimalPos.
Import ListNotations.

Local Open Scope string_scope.
Local Open Scope Z_scope.

(** ** Floats *)

Inductive float : Type :=
| Finite (q : Q)
| Inf (negative : bool)
| NaN.

(** The largest double, [(2 - 2^-52) * 2^1023]. *)
Definition max_float : Q := inject_Z (2 ^ 1024 - 2 ^ 971).

(** Room for the rounding of doubles in a product of two factors: the
    conversion of an operand, the double next to a decimal bound such as
    [1.1] and the rounding of the product each stay within [2^-53] of the
    exact value, together well within [10^-15]. *)
Definition rounding_margin : Q := 1 # 1000000000000000.

(** The float an exact result becomes: itself within range, else an
    infinity of its sign. *)
Definition fl (q : Q) : float :=
  if Qle_bool (Qabs q) max_float then Finite q
  else Inf (negb (Qle_bool 0 q)).

(** The product, exact within range; the code's double is the exact
    product rounded. *)
Definition fmul (x y : float) : float :=
  match x, y with
  | NaN, _ | _, NaN => NaN
  | Finite a, Finite b => fl (a * b)
  | Inf s, Finite b | Finite b, Inf s =>
      if Qeq_bool b 0 then NaN else Inf (xorb s (negb (Qle_bool 0 b)))
  | Inf s, Inf s' => Inf (xorb s s')
  end.

Definition fadd (x y : float) : float :=
  match x, y with
  | NaN, _ | _, NaN => NaN
  | Finite a, Finite b => fl (a + b)
  | Inf s, Finite _ | Finite _, Inf s => Inf s
  | Inf s, Inf s' => if Bool.eqb s s' then Inf s else NaN
  end.

Definition fopp (x : float) : float :=
  match x with
  | Finite a => Finite (- a)
  | Inf s => Inf (negb s)
  | NaN => NaN
  end.

Definition fsub (x y : float) : float := fadd x (fopp y).

(** ** Python values *)

Set Warnings "-register-all".

Inductive pyval : Type :=
| PNone
| PBool (b : bool)
| PInt (z : Z)
| PFloat (x : float)
| PStr (s : string)
| PList (l : list pyval)
| PDict (d : list (string * pyval)).

(** A dictionary with string keys, as [json] decoding and the code build
    them. *)
Definition dict := list (string * pyval).

Module Dict.

Fixpoint lookup (k : string) (d : dict) : option pyval :=
  match d with
  | [] => None
  | (k', v) :: d' => if String.eqb k k' then Some v else lookup k d'
  end.

Definition mem (k : string) (d : dict) : bool :=
  match lookup k d with Some _ => true | None => false end.

(** [d[k] = v]: an existing key keeps its position, a new key goes last. *)
Fixpoint set (k : string) (v : pyval) (d : dict) : dict :=
  match d with
  | [] => [(k, v)]
  | (k', v') :: d' =>
      if String.eqb k k' then (k, v) :: d' else (k', v') :: set k v d'
  end.

Definition keys (d : dict) : list string := map fst d.

(** [d.get(k, default)] *)
Definition get_default (k : string) (default : pyval) (d : dict) : pyval :=
  match lookup k d with Some v => v | None => default end.

End Dict.

(** [v.get(k)] read through a value: [None] when [v] is not a dictionary or
    has no such key.  Used to read results back in statements. *)
Definition field (k : string) (v : pyval) : option pyval :=
  match v with
  | PDict d => Dict.lookup k d
  | _ => None
  end.

(** The keys of a dictionary value, in order. *)
Definition fields (v : pyval) : list string :=
  match v with
  | PDict d => Dict.keys d
  | _ => []
  end.

(** ** Exceptions and results *)

Inductive exn : Type :=
| RequestException   (* requests.get: connection error, timeout, ... *)
| HTTPError          (* Response.raise_for_status *)
| JSONDecodeError    (* Response.json on a body that is not JSON *)
| AttributeError
| TypeError
| KeyError
| IndexError
| ValueError
| OverflowError.

Inductive result (A : Type) : Type :=
| Ok (a : A)
| Raise (e : exn).
Arguments Ok {A} a.
Arguments Raise {A} e.

Definition rbind {A B} (r : result A) (k : A -> result B) : result B :=
  match r with
  | Ok a => k a
  | Raise e => Raise e
  end.

(** ** Numbers *)

(** Python's [round] to an integer: to nearest, ties to even. *)
Definition round_half_even (x : Q) : Z :=
  let f := Qfloor x in
  match ((x - inject_Z f) ?= (1 # 2))%Q with
  | Lt => f
  | Gt => f + 1
  | Eq => if Z.even f then f else f + 1
  end.

(** [round(x, 2)] on a finite float. *)
Definition round2 (x : Q) : Q := (round_half_even (x * 100)) # 100.

(** [round(x, 2)] on a float: infinities and NaN round to themselves. *)
Definition fround2 (x : float) : float :=
  match x with
  | Finite q => Finite (round2 q)
  | _ => x
  end.

(** [round(v, 2)]: an [int] (and a [bool], which is an [int]) is returned
    as an [int]; anything that is not a number raises [TypeError]. *)
Definition py_round2 (v : pyval) : result pyval :=
  match v with
  | PBool b => Ok (PInt (if b then 1 else 0))
  | PInt z => Ok (PInt z)
  | PFloat x => Ok (PFloat (fround2 x))
  | _ => Raise TypeError
  end.

(** [int(x)] on a finite float: truncation towards zero. *)
Definition trunc (x : Q) : Z := Z.quot (Qnum x) (Zpos (Qden x)).

(** [int(x)] on a float. *)
Definition int_of_float (x : float) : result Z :=
  match x with
  | Finite q => Ok (trunc q)
  | Inf _ => Raise OverflowError
  | NaN => Raise ValueError
  end.

(** [int(v)] on a number. *)
Definition py_int (v : pyval) : result Z :=
  match v with
  | PBool b => Ok (if b then 1 else 0)
  | PInt z => Ok z
  | PFloat x => int_of_float x
  | _ => Raise TypeError
  end.

(** The conversion of an [int] operand of [*] with a float. *)
Definition float_of_int (z : Z) : result float :=
  if Qle_bool (Qabs (inject_Z z)) max_float then Ok (Finite (inject_Z z))
  else Raise OverflowError.

(** The left operand of [v * 1.2e13] as a float. *)
Definition py_float (v : pyval) : result float :=
  match v with
  | PBool b => Ok (Finite (if b then 1 else 0))
  | PInt z => float_of_int z
  | PFloat x => Ok x
  | _ => Raise TypeError
  end.

(** Truth value of a Python object. *)
Definition truthy (v : pyval) : bool :=
  match v with
  | PNone => false
  | PBool b => b
  | PInt z => negb (z =? 0)
  | PFloat (Finite q) => negb (Qeq_bool q 0)
  | PFloat _ => true
  | PStr s => negb (String.eqb s "")
  | PList l => match l with [] => false | _ => true end
  | PDict d => match d with [] => false | _ => true end
  end.

(** ** Strings *)

(** [str.upper] on ASCII letters; other bytes are left as they are. *)
Definition upper_ascii (c : ascii) : ascii :=
  let n := nat_of_ascii c in
  if (Nat.leb 97 n && Nat.leb n 122)%bool then ascii_of_nat (n - 32) else c.

Fixpoint upper (s : string) : string :=
  match s with
  | EmptyString => EmptyString
  | String c s' => String (upper_ascii c) (upper s')
  end.

(** [f"{x:.2e}"]: scientific notation with two digits after the point,
    the mantissa rounded to nearest, ties to even, and an exponent of at
    least two digits. *)
Definition digit (d : Z) : string :=
  String (ascii_of_nat (48 + Z.to_nat d)) EmptyString.

Definition decimal (n : Z) : string :=
  NilZero.string_of_uint (N.to_uint (Z.to_N n)).

Definition ndigits (p : positive) : Z :=
  Z.of_nat (Decimal.nb_digits (Pos.to_uint p)).

(** For [a > 0], the [e] with [10^e <= a < 10^(e+1)]. *)
Definition exponent10 (a : Q) : Z :=
  match Qnum a with
  | Zpos n =>
      let e0 := ndigits n - ndigits (Qden a) in
      if Qle_bool (Qpower 10 e0) a then e0 else e0 - 1
  | _ => 0
  end.

Definition format_2e_finite (x : Q) : string :=
  if Qeq_bool x 0 then "0.00e+00"
  else
    let a := Qabs x in
    let e := exponent10 a in
    let m := round_half_even (a / Qpower 10 e * 100) in
    let '(m, e) := if m =? 1000 then (100, e + 1) else (m, e) in
    ((if Qle_bool 0 x then "" else "-")
       ++ digit (m / 100) ++ "." ++ digit ((m / 10) mod 10) ++ digit (m mod 10)
       ++ "e" ++ (if Z.ltb e 0 then "-" else "+")
       ++ (if Z.ltb (Z.abs e) 10 then "0" else "") ++ decimal (Z.abs e))%string.

Definition format_2e (x : float) : string :=
  match x with
  | Finite q => format_2e_finite q
  | Inf false => "inf"
  | Inf true => "-inf"
  | NaN => "nan"
  end.

(** ** The world: credential, random source, provider *)

(** What [requests.get] is called with. *)
Record request : Type := {
  url : string;
  headers : list (string * string);
  timeout : Z
}.

(** What [requests.get] gives back: an exception (no connection, timeout,
    too many redirects, ...) or a response with a status code and a body,
    [None] when the body does not decode as JSON. *)
Inductive http_outcome : Type :=
| NoResponse
| Response (status_code : Z) (json : option pyval).

Record world : Type := {
  OPENAQ_API_KEY : option string;            (* os.getenv("OPENAQ_API_KEY") *)
  tape : nat -> Z;                           (* raw random draws *)
  provider : nat -> request -> http_outcome; (* answer to the n-th request *)
  draws : nat;                               (* draws consumed so far *)
  sent : list request                        (* requests sent so far, oldest first *)
}.

Definition M (A : Type) : Type := world -> result A * world.

Definition ret {A} (a : A) : M A := fun w => (Ok a, w).

Definition bind {A B} (m : M A) (k : A -> M B) : M B :=
  fun w =>
    match m w with
    | (Ok a, w') => k a w'
    | (Raise e, w') => (Raise e, w')
    end.

Definition raise {A} (e : exn) : M A := fun w => (Raise e, w).

Definition lift {A} (r : result A) : M A := fun w => (r, w).

(** [try: body / except Exception: handler] *)
Definition try_except {A} (body : M A) (handler : exn -> M A) : M A :=
  fun w =>
    match body w with
    | (Ok a, w') => (Ok a, w')
    | (Raise e, w') => handler e w'
    end.

Declare Scope py_scope.
Delimit Scope py_scope with py.
Notation "x <- m ;; k" := (bind m (fun x => k))
  (at level 100, m at next level, right associativity) : py_scope.
Notation "x <~ r ;; k" := (rbind r (fun x => k))
  (at level 100, r at next level, right associativity) : py_scope.
Local Open Scope py_scope.

(** *** The [random] module *)

(** The world after one more draw. *)
Definition advance (w : world) : world :=
  {| OPENAQ_API_KEY := OPENAQ_API_KEY w; tape := tape w;
     provider := provider w; draws := S (draws w); sent := sent w |}.

Definition next_raw : M Z :=
  fun w => (Ok (tape w (draws w)), advance w).

(** [random.randint(a, b)]: an integer of [a .. b], both ends included. *)
Definition randint (a b : Z) : M Z :=
  r <- next_raw ;; ret (a + r mod (b - a + 1)).

(** [random.random()]: a multiple of [2^-53] in [0, 1). *)
Definition random : M Q :=
  r <- next_raw ;; ret (Qmake (r mod 2 ^ 53) (2 ^ 53)).

(** [random.uniform(a, b)] is [a + (b - a) * random()], here in exact
    arithmetic, which stays below [b]; in doubles the result can reach the
    double next to [b]. *)
Definition uniform (a b : Q) : M Q :=
  u <- random ;; ret (a + (b - a) * u)%Q.

(** *** The network *)

(** The world after one more request. *)
Definition log_request (rq : request) (w : world) : world :=
  {| OPENAQ_API_KEY := OPENAQ_API_KEY w; tape := tape w;
     provider := provider w; draws := draws w; sent := sent w ++ [rq] |}.

(** [requests.get(url, headers=headers, timeout=10)] *)
Definition requests_get (u : string) (h : list (string * string)) (t : Z)
  : M (Z * option pyval) :=
  fun w =>
    let rq := {| url := u; headers := h; timeout := t |} in
    match provider w (length (sent w)) rq with
    | NoResponse => (Raise RequestException, log_request rq w)
    | Response st body => (Ok (st, body), log_request rq w)
    end.

(** [response.raise_for_status()]: a 4xx or 5xx status raises. *)
Definition raise_for_status (status_code : Z) : result unit :=
  if (400 <=? status_code) && (status_code <? 600) then Raise HTTPError
  else Ok tt.

(** [response.json()] *)
Definition response_json (body : option pyval) : result pyval :=
  match body with
  | Some data => Ok data
  | None => Raise JSONDecodeError
  end.

(** ** Fallback Synthesizer: [generate_fallback_data] *)

(** [{'value': value, 'unit': unit}] *)
Definition entry (value unit : pyval) : pyval :=
  PDict [("value", value); ("unit", unit)].

Definition fallback_source : string := "OpenAQ (Dados Indisponíveis na Região)".

Definition generate_fallback_data (location_name : pyval) : M pyval :=
  pm25_value <- randint 25 80 ;;
  o3 <- uniform 40 150 ;;
  no2 <- uniform 15 60 ;;
  let pollutants :=
    PDict [("PM25", entry (PInt pm25_value) (PStr "µg/m³"));
           ("O3", entry (PFloat (fround2 (Finite o3))) (PStr "µg/m³"));
           ("NO2", entry (PFloat (fround2 (Finite no2))) (PStr "µg/m³"))] in
  ret (PDict [("iqa", PInt pm25_value);
              ("pollutants", pollutants);
              ("location", location_name);
              ("source", PStr fallback_source)]).

(** ** Operations on Python objects used by the parsing code *)

(** [v.get(k, default)]: only a dictionary has [get]. *)
Definition py_get (v : pyval) (k : string) (default : pyval) : result pyval :=
  match v with
  | PDict d => Ok (Dict.get_default k default d)
  | _ => Raise AttributeError
  end.

(** [v[k]] with a string key. *)
Definition py_item (v : pyval) (k : string) : result pyval :=
  match v with
  | PDict d => match Dict.lookup k d with Some x => Ok x | None => Raise KeyError end
  | _ => Raise TypeError
  end.

(** [v[0]] *)
Definition first_item (v : pyval) : result pyval :=
  match v with
  | PList (x :: _) => Ok x
  | PList [] => Raise IndexError
  | PStr (String c _) => Ok (PStr (String c EmptyString))
  | PStr EmptyString => Raise IndexError
  | PDict _ => Raise KeyError
  | _ => Raise TypeError
  end.

Fixpoint chars (s : string) : list pyval :=
  match s with
  | EmptyString => []
  | String c s' => PStr (String c EmptyString) :: chars s'
  end.

(** The items a [for] loop over [v] visits: the elements of a list, the
    keys of a dictionary, the characters of a string. *)
Definition py_iter (v : pyval) : result (list pyval) :=
  match v with
  | PList l => Ok l
  | PDict d => Ok (map (fun kv => PStr (fst kv)) d)
  | PStr s => Ok (chars s)
  | _ => Raise TypeError
  end.

(** [v in d] for a dictionary with string keys: lists and dictionaries are
    unhashable, other values that are not strings are no key of [d]. *)
Definition py_in (v : pyval) (d : dict) : result bool :=
  match v with
  | PStr s => Ok (Dict.mem s d)
  | PList _ | PDict _ => Raise TypeError
  | _ => Ok false
  end.

(** [v.upper()] *)
Definition py_upper (v : pyval) : result string :=
  match v with
  | PStr s => Ok (upper s)
  | _ => Raise AttributeError
  end.

(** [v == s] for a string literal [s]. *)
Definition py_eq_str (v : pyval) (s : string) : bool :=
  match v with
  | PStr s' => String.eqb s' s
  | _ => false
  end.

Definition is_none {A} (o : option A) : bool :=
  match o with None => true | Some _ => false end.

(** [not s] for a string that may be [None]: [os.getenv] and
    [request.args.get] give [None] for a missing name. *)
Definition falsy (s : option string) : bool :=
  match s with
  | None | Some EmptyString => true
  | Some _ => false
  end.

(** The string behind a value that passed the [falsy] test. *)
Definition text (s : option string) : string :=
  match s with
  | Some s => s
  | None => EmptyString
  end.

(** ** Primary Source Client: [get_openaq_data] *)

(** The loop state: [found_pollutants] and [main_iqa]. *)
Definition scan_state : Type := dict * option Z.

(** Lines 60-66, the body of the inner loop. *)
Definition scan_measurement (measurement : pyval) (st : scan_state)
  : result scan_state :=
  let '(found_pollutants, main_iqa) := st in
  param <~ py_get measurement "parameter" PNone ;;
  seen <~ py_in param found_pollutants ;;
  if seen then Ok st
  else
    unit <~ py_get measurement "unit" (PStr "unidade") ;;
    raw <~ py_get measurement "value" (PInt 0) ;;
    value <~ py_round2 raw ;;
    key <~ py_upper param ;;
    let found_pollutants := Dict.set key (entry value unit) found_pollutants in
    if py_eq_str param "pm25" && is_none main_iqa then
      iqa <~ py_int value ;;
      Ok (found_pollutants, Some iqa)
    else Ok (found_pollutants, main_iqa).

(** Line 59, the inner loop. *)
Fixpoint scan_measurements (ms : list pyval) (st : scan_state)
  : result scan_state :=
  match ms with
  | [] => Ok st
  | m :: ms' => st' <~ scan_measurement m st ;; scan_measurements ms' st'
  end.

(** Lines 58-59, one turn of the outer loop. *)
Definition scan_result (r : pyval) (st : scan_state) : result scan_state :=
  measurements <~ py_get r "measurements" (PList []) ;;
  ms <~ py_iter measurements ;;
  scan_measurements ms st.

(** Line 58, the outer loop. *)
Fixpoint scan_results (rs : list pyval) (st : scan_state) : result scan_state :=
  match rs with
  | [] => Ok st
  | r :: rs' => st' <~ scan_result r st ;; scan_results rs' st'
  end.

(** What lines 56-75 and 84 decide: the real reading, or a fallback with a
    location label. *)
Inductive parsed : Type :=
| Real (reading : pyval)
| Fallback (location_name : pyval).

Definition real_source : string := "OpenAQ (Real)".
Definition default_location : string := "Sua Localização".
Definition unknown_location : string := "Local Desconhecido".
Definition config_error_location : string := "Erro de Configuração".

(** Lines 68-70. *)
Definition resolve_main_iqa (st : scan_state) : result (option Z) :=
  let '(found_pollutants, main_iqa) := st in
  match main_iqa, found_pollutants with
  | None, (first_key, e) :: _ =>
      v <~ py_item e "value" ;;
      iqa <~ py_int v ;;
      Ok (Some iqa)
  | _, _ => Ok main_iqa
  end.

Definition iqa_value (main_iqa : option Z) : pyval :=
  match main_iqa with
  | Some z => PInt z
  | None => PNone
  end.

(** Lines 56-75 and the [return] of line 84, on the decoded body. *)
Definition parse_payload (data : pyval) : result parsed :=
  results <~ py_get data "results" PNone ;;
  if truthy results then
    first <~ first_item results ;;
    location_name <~ py_get first "location" (PStr unknown_location) ;;
    rs <~ py_iter results ;;
    st <~ scan_results rs ([], None) ;;
    main_iqa <~ resolve_main_iqa st ;;
    match fst st with
    | [] => Ok (Fallback location_name)
    | found_pollutants =>
        Ok (Real (PDict [("iqa", iqa_value main_iqa);
                         ("pollutants", PDict found_pollutants);
                         ("location", location_name);
                         ("source", PStr real_source)]))
    end
  else Ok (Fallback (PStr default_location)).

Definition getenv_OPENAQ_API_KEY : M (option string) :=
  fun w => (Ok (OPENAQ_API_KEY w), w).

Definition openaq_url (lat lon : string) : string :=
  ("https://api.openaq.org/v3/latest?coordinates=" ++ lat ++ "," ++ lon
     ++ "&radius=100000")%string.

(** The one request of line 52. *)
Definition openaq_request (api_key lat lon : string) : request :=
  {| url := openaq_url lat lon;
     headers := [("accept", "application/json"); ("X-API-Key", api_key)];
     timeout := 10 |}.

(** The [try] block, lines 51-75, with the [return] of line 84 (which
    cannot raise) taken into it. *)
Definition query_provider (api_key lat lon : string) : M pyval :=
  let headers := [("accept", "application/json"); ("X-API-Key", api_key)] in
  response <- requests_get (openaq_url lat lon) headers 10 ;;
  _ <- lift (raise_for_status (fst response)) ;;
  data <- lift (response_json (snd response)) ;;
  p <- lift (parse_payload data) ;;
  match p with
  | Real reading => ret reading
  | Fallback location_name => generate_fallback_data location_name
  end.

Definition get_openaq_data (lat lon : string) : M pyval :=
  api_key <- getenv_OPENAQ_API_KEY ;;
  if falsy api_key then generate_fallback_data (PStr config_error_location)
  else
    try_except (query_provider (text api_key) lat lon)
      (fun e =>
         match e with
         | HTTPError => generate_fallback_data (PStr default_location)
         | _ => generate_fallback_data (PStr default_location)
         end).

(** ** Column Derivation Engine: [derive_column_data] *)

Definition column (x : float) : pyval :=
  entry (PStr (format_2e x)) (PStr "molec/cm²").

(** Line 89, and the float [pm25_value] stands for in the products of
    lines 92-104; the first product is evaluated before the first draw. *)
Definition pm25_baseline (base_pollutants : pyval) : result float :=
  pm25_entry <~ py_get base_pollutants "PM25" (PDict []) ;;
  pm25_value <~ py_get pm25_entry "value" (PInt 40) ;;
  py_float pm25_value.

Definition derive_column_data (sensor_name : string) (base_pollutants : pyval)
  : M pyval :=
  pm25 <- lift (pm25_baseline base_pollutants) ;;
  noise_no2 <- uniform 0.8 1.2 ;;
  let no2_derived_column :=
    fadd (Finite 1.0e15) (fmul (fmul pm25 (Finite 1.2e13)) (Finite noise_no2)) in
  let derived_pollutants :=
    Dict.set "NO2 (Coluna Total)" (column no2_derived_column) [] in
  noise_o3 <- uniform 0.7 1.3 ;;
  let o3_derived_column :=
    fsub (Finite 7.0e16) (fmul (fmul pm25 (Finite 2.0e14)) (Finite noise_o3)) in
  let derived_pollutants :=
    Dict.set "O3 (Coluna Total)" (column o3_derived_column) derived_pollutants in
  derived_pollutants <-
    (if String.eqb sensor_name "TEMPO" then
       noise_hcho <- uniform 0.8 1.2 ;;
       let hcho_derived_column :=
         fadd (Finite 2.0e15)
           (fmul (fmul pm25 (Finite 1.5e14)) (Finite noise_hcho)) in
       ret (Dict.set "HCHO (Coluna Total)" (column hcho_derived_column)
              derived_pollutants)
     else ret derived_pollutants) ;;
  noise_iqa <- uniform 0.9 1.1 ;;
  derived_iqa <- lift (int_of_float (fmul pm25 (Finite noise_iqa))) ;;
  ret (PDict [("iqa", PInt derived_iqa);
              ("pollutants", PDict derived_pollutants);
              ("source", PStr (sensor_name ++ " (Derivado)"))]).

(** ** Alert Evaluator: [generate_alerts] *)

(** [v > k] for an integer literal [k]. *)
Definition py_gt (v : pyval) (k : Z) : result bool :=
  match v with
  | PBool b => Ok ((if b then 1 else 0) >? k)
  | PInt z => Ok (z >? k)
  | PFloat (Finite q) => Ok (negb (Qle_bool q (inject_Z k)))
  | PFloat (Inf negative) => Ok (negb negative)
  | PFloat NaN => Ok false
  | _ => Raise TypeError
  end.

Definition alert (level message : string) : pyval :=
  PDict [("level", PStr level); ("message", PStr message)].

Definition danger_alert : pyval :=
  alert "danger"
    "Qualidade do ar MUITO RUIM. Risco à saúde. Evite qualquer exposição ao ar livre.".

Definition warning_alert : pyval :=
  alert "warning"
    "Qualidade do ar RUIM. Grupos sensíveis podem sentir desconforto. Limite atividades externas.".

Definition generate_alerts (iqa : pyval) : result pyval :=
  match iqa with
  | PNone => Ok (PList [])
  | _ =>
      above150 <~ py_gt iqa 150 ;;
      if above150 then Ok (PList [danger_alert])
      else
        above100 <~ py_gt iqa 100 ;;
        if above100 then Ok (PList [warning_alert])
        else Ok (PList [])
  end.

(** ** Forecast Estimator and Dashboard Orchestrator: [get_dashboard_data] *)

(** [v + d] for an integer [d]. *)
Definition py_add_int (v : pyval) (d : Z) : result pyval :=
  match v with
  | PBool b => Ok (PInt ((if b then 1 else 0) + d))
  | PInt z => Ok (PInt (z + d))
  | PFloat x => Ok (PFloat (fadd x (Finite (inject_Z d))))
  | _ => Raise TypeError
  end.

(** [max(k, v)] for an integer literal [k]: [v] when it is larger, else [k]. *)
Definition py_max_int (k : Z) (v : pyval) : result pyval :=
  above <~ py_gt v k ;;
  Ok (if above then v else PInt k).

(** Line 131. *)
Definition predicted_iqa_24h (base_iqa : pyval) : M pyval :=
  match base_iqa with
  | PNone => r <- randint 30 90 ;; ret (PInt r)
  | _ =>
      delta <- randint (-20) 20 ;;
      lift (shifted <~ py_add_int base_iqa delta ;; py_max_int 10 shifted)
  end.

Definition stable_message : string :=
  "As condições devem permanecer estáveis nas próximas 24 horas.".

(** Line 143. *)
Definition forecast_message (predicted_iqa : pyval) : string :=
  match predicted_iqa with
  | PNone => "Não foi possível gerar a previsão."
  | _ => stable_message
  end.

(** A Flask reply: status code and JSON document. *)
Definition reply : Type := Z * pyval.

Definition get_dashboard_data (lat lon : option string) : M reply :=
  if falsy lat || falsy lon then
    ret (400, PDict [("error", PStr "Latitude e Longitude são obrigatórias")])
  else
    openaq_data <- get_openaq_data (text lat) (text lon) ;;
    base_pollutants <- lift (py_get openaq_data "pollutants" (PDict [])) ;;
    tempo_data <- derive_column_data "TEMPO" base_pollutants ;;
    pandora_data <- derive_column_data "PANDORA" base_pollutants ;;
    base_iqa <- lift (py_get openaq_data "iqa" PNone) ;;
    predicted_iqa <- predicted_iqa_24h base_iqa ;;
    location_name <- lift (py_get openaq_data "location" PNone) ;;
    alerts <- lift (generate_alerts base_iqa) ;;
    ret (200,
         PDict [("location_name", location_name);
                ("alerts", alerts);
                ("sensors", PDict [("openaq", openaq_data);
                                   ("tempo", tempo_data);
                                   ("pandora", pandora_data)]);
                ("forecast",
                 PDict [("predicted_iqa_24h", predicted_iqa);
                        ("message", PStr (forecast_message predicted_iqa))]);
                ("map_info", PDict [("search_radius_km", PInt 100)])]).

(** ** Predicates of the statements *)

(** An upstream failure: no response, a status [raise_for_status] rejects,
    a body that is not JSON, or a decoded body on which the parsing code
    of lines 56-70 raises. *)
Definition upstream_failure (o : http_outcome) : Prop :=
  match o with
  | NoResponse => True
  | Response status_code body =>
      400 <= status_code < 600
      \/ body = None
      \/ exists data e, body = Some data /\ parse_payload data = Raise e
  end.

(** The decoded body the parsing code of lines 56-70 gets to see, if any:
    a credential is configured and the provider answers the request with a
    status [raise_for_status] accepts and a body that decodes. *)
Definition parsed_body (lat lon : string) (w : world) : option pyval :=
  if falsy (OPENAQ_API_KEY w) then None
  else
    match provider w (length (sent w))
            (openaq_request (text (OPENAQ_API_KEY w)) lat lon) with
    | Response status_code (Some data) =>
        if (400 <=? status_code) && (status_code <? 600) then None
        else Some data
    | _ => None
    end.

(** A number as [round] returns it. *)
Definition number (v : pyval) : Prop :=
  match v with
  | PInt _ | PFloat _ => True
  | _ => False
  end.

(** The text of a number shows a negative one by a leading minus sign. *)
Definition negative_text (s : string) : bool :=
  match s with
  | String c _ => Ascii.eqb c "-"
  | EmptyString => false
  end.

(** [0 <= v] for a number, and for the text of a number (the engine
    stores its columns as text) that it shows no negative number and no
    NaN; other values are not numeric and pass. *)
Definition nonneg (v : pyval) : bool :=
  match v with
  | PInt z => 0 <=? z
  | PFloat (Finite q) => Qle_bool 0 q
  | PFloat (Inf negative) => negb negative
  | PFloat NaN => false
  | PStr s => negb (negative_text s) && negb (String.eqb s "nan")
  | _ => true
  end.

(** [0 <= v] for a measurement value of the provider that is a number; on
    any other value [round] raises, and the value reaches no reading. *)
Definition nonneg_number (v : pyval) : bool :=
  match v with
  | PInt _ | PFloat _ => nonneg v
  | _ => true
  end.

(** A number is moderate when it is finite and of magnitude at most
    [10^300]; other values are not numeric and pass. *)
Definition moderate_bound : Z := 10 ^ 300.

Definition moderate (v : pyval) : bool :=
  match v with
  | PInt z => Z.abs z <=? moderate_bound
  | PFloat (Finite q) => Qle_bool (Qabs q) (inject_Z moderate_bound)
  | PFloat _ => false
  | _ => true
  end.

(** A pollutant entry [{'value': v, 'unit': u}] with a number [v] that
    satisfies [ok_val]. *)
Definition entry_ok (ok_val : pyval -> Prop) (e : pyval) : Prop :=
  exists v u, e = entry v u /\ number v /\ ok_val v.

Definition pollutants_ok (ok_val : pyval -> Prop) (d : dict) : Prop :=
  Forall (fun kv => entry_ok ok_val (snd kv)) d.

Definition iqa_ok (ok_iqa : Z -> Prop) (main_iqa : option Z) : Prop :=
  forall z, main_iqa = Some z -> ok_iqa z.

Definition state_ok (ok_val : pyval -> Prop) (ok_iqa : Z -> Prop)
  (st : scan_state) : Prop :=
  pollutants_ok ok_val (fst st) /\ iqa_ok ok_iqa (snd st).

(** Every measurement value of a decoded body satisfies [ok_raw]; the
    traversal is the one of lines 58-63. *)
Definition measurement_ok (ok_raw : pyval -> bool) (m : pyval) : bool :=
  match py_get m "value" (PInt 0) with
  | Ok raw => ok_raw raw
  | Raise _ => true
  end.

Definition result_ok (ok_raw : pyval -> bool) (r : pyval) : bool :=
  match (measurements <~ py_get r "measurements" (PList []) ;;
         py_iter measurements) with
  | Ok ms => forallb (measurement_ok ok_raw) ms
  | Raise _ => true
  end.

Definition payload_ok (ok_raw : pyval -> bool) (data : pyval) : bool :=
  match (results <~ py_get data "results" PNone ;; py_iter results) with
  | Ok rs => forallb (result_ok ok_raw) rs
  | Raise _ => true
  end.

(** The reading of line 84. *)
Definition real_reading (ok_val : pyval -> Prop) (ok_iqa : Z -> Prop)
  (r : pyval) : Prop :=
  exists main_iqa found_pollutants location_name,
    r = PDict [("iqa", iqa_value main_iqa);
               ("pollutants", PDict found_pollutants);
               ("location", location_name);
               ("source", PStr real_source)]
    /\ found_pollutants <> []
    /\ pollutants_ok ok_val found_pollutants
    /\ iqa_ok ok_iqa main_iqa.

(** A reading of the synthesizer. *)
Definition fallback_reading (r : pyval) : Prop :=
  exists location_name pm25 o3 no2,
    r = PDict [("iqa", PInt pm25);
               ("pollutants",
                PDict [("PM25", entry (PInt pm25) (PStr "µg/m³"));
                       ("O3", entry (PFloat (Finite (round2 o3))) (PStr "µg/m³"));
                       ("NO2", entry (PFloat (Finite (round2 no2))) (PStr "µg/m³"))]);
               ("location", location_name);
               ("source", PStr fallback_source)]
    /\ 25 <= pm25 <= 80
    /\ (40 <= o3 /\ o3 <= 150)%Q
    /\ (15 <= no2 /\ no2 <= 60)%Q.

(** A reading of the Column Derivation Engine: three fields, every
    pollutant value a formatted string. *)
Definition derived_reading (sensor_name : string) (r : pyval) : Prop :=
  exists derived_iqa derived_pollutants,
    r = PDict [("iqa", PInt derived_iqa);
               ("pollutants", PDict derived_pollutants);
               ("source", PStr (sensor_name ++ " (Derivado)"))]
    /\ Forall (fun kv => exists s, snd kv = entry (PStr s) (PStr "molec/cm²"))
         derived_pollutants.

(** The data-model invariant: numeric pollutant values are non-negative,
    and [iqa], when present, is a non-negative integer. *)
Definition entry_nonneg (e : pyval) : bool :=
  match field "value" e with
  | Some v => nonneg v
  | None => true
  end.

Definition iqa_nonneg_int (v : pyval) : bool :=
  match v with
  | PNone => true
  | PInt z => 0 <=? z
  | _ => false
  end.

Definition reading_invariant (r : pyval) : bool :=
  match field "pollutants" r with
  | Some (PDict d) => forallb (fun kv => entry_nonneg (snd kv)) d
  | _ => true
  end
  && match field "iqa" r with
     | Some i => iqa_nonneg_int i
     | None => true
     end.

(** ** Sample worlds and payloads *)

Definition mk_world (key : option string) (t : nat -> Z)
  (p : nat -> request -> http_outcome) : world :=
  {| OPENAQ_API_KEY := key; tape := t; provider := p; draws := 0; sent := [] |}.

Definition zero_tape : nat -> Z := fun _ => 0.

Definition reading_json (parameter : string) (value : pyval) : pyval :=
  PDict [("parameter", PStr parameter); ("value", value); ("unit", PStr "µg/m³")].

(** [{"results": [{"location": location, "measurements": ms}]}] *)
Definition payload (location : string) (ms : list pyval) : pyval :=
  PDict [("results",
          PList [PDict [("location", PStr location); ("measurements", PList ms)]])].

Definition answers (o : http_outcome) : nat -> request -> http_outcome :=
  fun _ _ => o.

(** ** Peripheral endpoints: [get_community_data], [get_night_conditions],
    [analyze_image] (lines 150-175) *)

(** A list comprehension whose element expression draws from [random]. *)
Fixpoint for_each {A B} (f : A -> M B) (l : list A) : M (list B) :=
  match l with
  | [] => ret []
  | x :: l' => y <- f x ;; ys <- for_each f l' ;; ret (y :: ys)
  end.

(** One element of the comprehensions of lines 153-154. *)
Definition community_image (color : string) (lo hi i : Z) : M pyval :=
  estimated_iqa <- randint lo hi ;;
  ret (PDict [("url",
               PStr ("https://placehold.co/600x400/" ++ color
                       ++ "/FFFFFF?text=Imagem+Verificada+%23" ++ decimal i));
              ("estimated_iqa", PInt estimated_iqa)]).

Definition get_community_data : M reply :=
  images <- for_each (community_image "22c55e" 25 50) [1; 2; 3] ;;
  more <- for_each (community_image "f59e0b" 51 100) [4; 5; 6] ;;
  ret (200, PDict [("images", PList (images ++ more)%list)]).

(** [random.choice(seq)]: the element at a drawn index; an empty sequence
    raises [IndexError]. *)
Definition choice {A} (seq : list A) : M A :=
  match seq with
  | [] => raise IndexError
  | x :: _ =>
      r <- next_raw ;;
      ret (nth (Z.to_nat (r mod Z.of_nat (length seq))) seq x)
  end.

Definition ideal_message : string :=
  "Condições ideais! A lua está clara. Você pode fazer uma medição.".

Definition not_ideal_message : string :=
  "Condições não ideais (nublado ou lua nova). Tente outra noite.".

Definition get_night_conditions : M reply :=
  is_ideal <- choice [true; false] ;;
  let message := if is_ideal : bool then ideal_message else not_ideal_message in
  ret (200, PDict [("ideal", PBool is_ideal); ("message", PStr message)]).

(** [time.sleep(2)] only delays the answer and is left out. *)
Definition analyze_image : M reply :=
  estimated_iqa <- randint 30 200 ;;
  ret (200, PDict [("iqa", PInt estimated_iqa);
                   ("source", PStr "Sua Medição (Análise via IA)")]).

(** ** Predicates of the further statements *)

(** The measurements the two loops of lines 58-59 visit, in order: those
    of every result entry, one entry after the other. *)
Fixpoint all_measurements (rs : list pyval) : result (list pyval) :=
  match rs with
  | [] => Ok []
  | r :: rs' =>
      measurements <~ py_get r "measurements" (PList []) ;;
      ms <~ py_iter measurements ;;
      rest <~ all_measurements rs' ;;
      Ok (ms ++ rest)%list
  end.

(** A result entry that is a dictionary and yields no measurement. *)
Definition no_measurements (r : pyval) : bool :=
  match (measurements <~ py_get r "measurements" (PList []) ;;
         py_iter measurements) with
  | Ok [] => true
  | _ => false
  end.

(** The measurement's parameter is the string "pm25". *)
Definition is_pm25 (m : pyval) : bool :=
  match py_get m "parameter" PNone with
  | Ok param => py_eq_str param "pm25"
  | Raise _ => false
  end.

(** The measurement is a dictionary whose parameter is a string. *)
Definition named (m : pyval) : bool :=
  match py_get m "parameter" PNone with
  | Ok (PStr _) => true
  | _ => false
  end.

(** A float shown with at most two decimals: a multiple of [1/100], an
    infinity or NaN; integers pass. *)
Definition two_decimals (v : pyval) : Prop :=
  match v with
  | PFloat (Finite q) => exists k : Z, q = k # 100
  | _ => True
  end.

(** The shape every reading of the Primary Source Client has. *)
Definition primary_reading (r : pyval) : Prop :=
  exists (main_iqa : Z) (pollutants : dict) (location_name : pyval)
         (source : string),
    r = PDict [("iqa", PInt main_iqa);
               ("pollutants", PDict pollutants);
               ("location", location_name);
               ("source", PStr source)]
    /\ pollutants <> []
    /\ (source = fallback_source \/ source = real_source).

(** The keys of a pollutant mapping are pairwise distinct and upper-case. *)
Definition keys_ok (d : dict) : Prop :=
  NoDup (Dict.keys d) /\ Forall (fun k => upper k = k) (Dict.keys d).

(** The world after [n] more draws. *)
Fixpoint advance_by (n : nat) (w : world) : world :=
  match n with
  | O => w
  | S n' => advance_by n' (advance w)
  end.

(** * Properties *)

(** ** Sanity checks of the helpers *)

Example upper_pm25 : upper "pm25" = "PM25".
Proof. reflexivity. Qed.

Example round2_tie : round2 (1 # 8) = (12 # 100)%Q /\ round2 (3 # 8) = (38 # 100)%Q.
Proof. split; reflexivity. Qed.

Example py_int_truncates :
  py_int (PFloat (Finite (-5.7))) = Ok (-5)
  /\ py_int (PFloat (Finite 5.7)) = Ok 5
  /\ py_int (PFloat (Inf false)) = Raise OverflowError
  /\ py_int (PFloat NaN) = Raise ValueError.
Proof. repeat split. Qed.

Example float_range :
  fmul (Finite 1.0e308) (Finite 10) = Inf false
  /\ fmul (Finite (-1.0e308)) (Finite 10) = Inf true
  /\ fsub (Inf false) (Inf false) = NaN
  /\ py_float (PInt (10 ^ 400)) = Raise OverflowError
  /\ py_float (PInt (10 ^ 300)) = Ok (Finite (inject_Z moderate_bound)).
Proof. repeat split; vm_compute; reflexivity. Qed.

Example utf8_literal : String.length "Sua Localização" = 17%nat.
Proof. reflexivity. Qed.

Example format_2e_examples :
  format_2e (Finite 1.48e15) = "1.48e+15"
  /\ format_2e (Finite (-3.0e16)) = "-3.00e+16"
  /\ format_2e (Finite 9.996e15) = "1.00e+16"
  /\ format_2e (Finite 0.00123) = "1.23e-03"
  /\ format_2e (Finite 1) = "1.00e+00"
  /\ format_2e (Finite 1.2345e122) = "1.23e+122"
  /\ format_2e (Inf true) = "-inf"
  /\ format_2e NaN = "nan".
Proof. repeat split; vm_compute; reflexivity. Qed.

(** ** Arithmetic of the helpers *)

Lemma fl_finite (q : Q) : (Qabs q <= max_float)%Q -> fl q = Finite q.
Proof.
  intros H. unfold fl. apply Qle_bool_iff in H. now rewrite H.
Qed.

(** A moderate number times a noise of at most 1.3 stays in range. *)
Lemma moderate_product_in_range (q noise : Q) :
  (Qabs q <= inject_Z moderate_bound)%Q ->
  (0 <= noise)%Q -> (noise <= 1.3)%Q ->
  (Qabs (q * noise) <= max_float)%Q.
Proof.
  intros Hq Hlo Hhi.
  rewrite Qabs_Qmult, (Qabs_pos noise Hlo).
  assert (H : (inject_Z moderate_bound * 1.3 <= max_float)%Q).
  { apply Qle_bool_iff. vm_compute. reflexivity. }
  pose proof (Qabs_nonneg q) as Hq0.
  set (a := Qabs q) in *. set (B := inject_Z moderate_bound) in *.
  set (M := max_float) in *. clearbody a B M.
  nra.
Qed.

Lemma round_half_even_floor (x : Q) :
  round_half_even x = Qfloor x \/
  (round_half_even x = Qfloor x + 1 /\ (inject_Z (Qfloor x) + (1 # 2) <= x)%Q).
Proof.
  unfold round_half_even.
  destruct (Qcompare_spec (x - inject_Z (Qfloor x)) (1 # 2)) as [E | L | G].
  - destruct (Z.even (Qfloor x)); [now left | right; split; [reflexivity | lra]].
  - now left.
  - right; split; [reflexivity | lra].
Qed.

(** Rounding stays within integer bounds of its argument. *)
Lemma round_half_even_bounds (x : Q) (lo hi : Z) :
  (inject_Z lo <= x)%Q -> (x <= inject_Z hi)%Q ->
  lo <= round_half_even x <= hi.
Proof.
  intros Hlo Hhi.
  assert (Hf : lo <= Qfloor x).
  { rewrite <- (Qfloor_Z lo). now apply Qfloor_resp_le. }
  assert (Hc : Qfloor x <= hi).
  { rewrite <- (Qfloor_Z hi). now apply Qfloor_resp_le. }
  destruct (round_half_even_floor x) as [-> | [-> Hhalf]]; [lia |].
  split; [lia |].
  assert (Hlt : (inject_Z (Qfloor x) < inject_Z hi)%Q) by lra.
  rewrite <- Zlt_Qlt in Hlt. lia.
Qed.

(** The rounded value is within one half of the argument. *)
Lemma round_half_even_near (x : Q) :
  (inject_Z (round_half_even x) - (1 # 2) <= x
   /\ x <= inject_Z (round_half_even x) + (1 # 2))%Q.
Proof.
  pose proof (Qfloor_le x) as Hl. pose proof (Qlt_floor x) as Hu.
  rewrite inject_Z_plus in Hu. change (inject_Z 1) with 1%Q in Hu.
  unfold round_half_even.
  destruct (Qcompare_spec (x - inject_Z (Qfloor x)) (1 # 2)) as [E | L | G].
  - destruct (Z.even (Qfloor x));
      [| rewrite inject_Z_plus; change (inject_Z 1) with 1%Q]; split; lra.
  - split; lra.
  - rewrite inject_Z_plus. change (inject_Z 1) with 1%Q. split; lra.
Qed.

Lemma round2_bounds (x : Q) (lo hi : Z) :
  (inject_Z lo <= x)%Q -> (x <= inject_Z hi)%Q ->
  (inject_Z lo <= round2 x /\ round2 x <= inject_Z hi)%Q.
Proof.
  intros Hlo Hhi.
  assert (H : lo * 100 <= round_half_even (x * 100) <= hi * 100).
  { apply round_half_even_bounds; rewrite inject_Z_mult;
      change (inject_Z 100) with 100%Q; lra. }
  unfold round2, Qle; simpl. lia.
Qed.

Lemma trunc_nonneg (x : Q) : (0 <= x)%Q -> 0 <= trunc x.
Proof.
  unfold Qle, trunc; simpl. intros H.
  apply Z.quot_pos; lia.
Qed.

(** ** The random source *)

Lemma randint_spec (a b : Z) (w : world) :
  a <= b ->
  exists r, randint a b w = (Ok r, advance w) /\ a <= r <= b.
Proof.
  intros Hab. exists (a + tape w (draws w) mod (b - a + 1)).
  split; [reflexivity |].
  pose proof (Z.mod_pos_bound (tape w (draws w)) (b - a + 1)). lia.
Qed.

Lemma random_spec (w : world) :
  exists u, random w = (Ok u, advance w) /\ (0 <= u)%Q /\ (u < 1)%Q.
Proof.
  exists (Qmake (tape w (draws w) mod 2 ^ 53) (2 ^ 53)).
  split; [reflexivity |].
  pose proof (Z.mod_pos_bound (tape w (draws w)) (2 ^ 53) eq_refl) as H.
  unfold Qle, Qlt; simpl Qnum; simpl Qden.
  change (Z.pos (2 ^ 53)) with (2 ^ 53). lia.
Qed.

Lemma uniform_spec (a b : Q) (w : world) :
  (a <= b)%Q ->
  exists x, uniform a b w = (Ok x, advance w) /\ (a <= x)%Q /\ (x <= b)%Q.
Proof.
  intros Hab. destruct (random_spec w) as (u & Hu & H0 & H1).
  exists (a + (b - a) * u)%Q. split.
  - unfold uniform, bind. rewrite Hu. reflexivity.
  - split; nra.
Qed.

(** Runs one bound draw in the goal and names the value and its bounds. *)
Ltac draw_randint a b w r :=
  let E := fresh "E" r in
  let B := fresh "B" r in
  destruct (randint_spec a b w ltac:(lia)) as (r & E & B);
  rewrite E; cbv beta iota.

Ltac draw_uniform a b w x :=
  let E := fresh "E" x in
  let L := fresh "L" x in
  let U := fresh "U" x in
  destruct (uniform_spec a b w ltac:(unfold Qle; simpl; lia)) as (x & E & L & U);
  rewrite E; cbv beta iota.

(** ** Fallback Synthesizer *)

(** The synthesizer always returns: three draws, one reading. *)
Lemma generate_fallback_data_run (location_name : pyval) (w : world) :
  exists (pm25 : Z) (o3 no2 : Q),
    generate_fallback_data location_name w =
      (Ok (PDict [("iqa", PInt pm25);
                  ("pollutants",
                   PDict [("PM25", entry (PInt pm25) (PStr "µg/m³"));
                          ("O3", entry (PFloat (Finite (round2 o3))) (PStr "µg/m³"));
                          ("NO2", entry (PFloat (Finite (round2 no2))) (PStr "µg/m³"))]);
                  ("location", location_name);
                  ("source", PStr fallback_source)]),
       advance (advance (advance w)))
    /\ 25 <= pm25 <= 80
    /\ (40 <= o3 /\ o3 <= 150)%Q
    /\ (15 <= no2 /\ no2 <= 60)%Q.
Proof.
  unfold generate_fallback_data, bind.
  draw_randint 25 80 w pm25.
  draw_uniform 40%Q 150%Q (advance w) o3.
  draw_uniform 15%Q 60%Q (advance (advance w)) no2.
  exists pm25, o3, no2. unfold ret. repeat split; assumption || lia.
Qed.

(** C6. For every location label the Fallback Synthesizer returns a reading
    (it never raises) whose PM2.5 value is an integer of [25, 80], whose O3
    value is a draw of [40, 150] rounded to two decimals and still within
    [40, 150], whose NO2 value is a draw of [15, 60] rounded to two decimals
    and still within [15, 60], and whose [iqa] is the PM2.5 integer. *)
Theorem generate_fallback_data_bounds (location_name : pyval) (w : world) :
  exists (r : pyval) (w' : world) (pm25 : Z) (o3 no2 : Q),
    generate_fallback_data location_name w = (Ok r, w')
    /\ field "iqa" r = Some (PInt pm25)
    /\ field "pollutants" r =
         Some (PDict [("PM25", entry (PInt pm25) (PStr "µg/m³"));
                      ("O3", entry (PFloat (Finite (round2 o3))) (PStr "µg/m³"));
                      ("NO2", entry (PFloat (Finite (round2 no2))) (PStr "µg/m³"))])
    /\ field "location" r = Some location_name
    /\ 25 <= pm25 <= 80
    /\ (40 <= o3 /\ o3 <= 150 /\ 40 <= round2 o3 /\ round2 o3 <= 150)%Q
    /\ (15 <= no2 /\ no2 <= 60 /\ 15 <= round2 no2 /\ round2 no2 <= 60)%Q.
Proof.
  destruct (generate_fallback_data_run location_name w)
    as (pm25 & o3 & no2 & E & Bpm & [Lo3 Uo3] & [Lno2 Uno2]).
  pose proof (round2_bounds o3 40 150 Lo3 Uo3) as [? ?].
  pose proof (round2_bounds no2 15 60 Lno2 Uno2) as [? ?].
  eexists _, _, pm25, o3, no2. split; [exact E |].
  repeat split; try reflexivity; assumption || lia.
Qed.

(** ** Alert Evaluator *)

(** C2. The alert evaluator is a threshold map with strict comparisons: no
    index gives no alert; an index above 150 gives exactly the danger
    alert; an index above 100 and at most 150 gives exactly the warning
    alert; an index of at most 100 gives no alert.  So 100 gives none and
    150 gives the warning. *)
Theorem generate_alerts_thresholds (iqa : Z) :
  generate_alerts PNone = Ok (PList [])
  /\ (150 < iqa -> generate_alerts (PInt iqa) = Ok (PList [danger_alert]))
  /\ (100 < iqa <= 150 -> generate_alerts (PInt iqa) = Ok (PList [warning_alert]))
  /\ (iqa <= 100 -> generate_alerts (PInt iqa) = Ok (PList []))
  /\ generate_alerts (PInt 100) = Ok (PList [])
  /\ generate_alerts (PInt 150) = Ok (PList [warning_alert])
  /\ field "level" danger_alert = Some (PStr "danger")
  /\ field "level" warning_alert = Some (PStr "warning").
Proof.
  repeat split; try reflexivity; intros H; unfold generate_alerts, py_gt, rbind.
  - destruct (Z.gtb_spec iqa 150); [reflexivity | lia].
  - destruct (Z.gtb_spec iqa 150); [lia |].
    destruct (Z.gtb_spec iqa 100); [reflexivity | lia].
  - destruct (Z.gtb_spec iqa 150); [lia |].
    destruct (Z.gtb_spec iqa 100); [lia | reflexivity].
Qed.

Lemma generate_alerts_thresholds_witness :
  generate_alerts (PInt 151) = Ok (PList [danger_alert])
  /\ generate_alerts (PInt 101) = Ok (PList [warning_alert])
  /\ generate_alerts (PInt 42) = Ok (PList []).
Proof.
  split; [| split].
  - apply (generate_alerts_thresholds 151); lia.
  - apply (generate_alerts_thresholds 101); lia.
  - apply (generate_alerts_thresholds 42); lia.
Defined.

(** ** Forecast Estimator *)

Lemma py_max_int_PInt (k z : Z) : py_max_int k (PInt z) = Ok (PInt (Z.max k z)).
Proof.
  unfold py_max_int, py_gt, rbind.
  destruct (Z.gtb_spec z k); f_equal; f_equal; lia.
Qed.

(** C3. With a primary index [base] the predicted index is
    [max(10, base + delta)] for a [delta] of [-20 .. 20]; so it is within
    [30, 70] for [base = 50] and at least 10 for every [base].  Without a
    primary index it is an integer of [30 .. 90]. *)
Theorem predicted_iqa_24h_spec (base : Z) (w : world) :
  (exists delta,
      predicted_iqa_24h (PInt base) w
        = (Ok (PInt (Z.max 10 (base + delta))), advance w)
      /\ -20 <= delta <= 20
      /\ 10 <= Z.max 10 (base + delta))
  /\ (exists p,
         predicted_iqa_24h (PInt 50) w = (Ok (PInt p), advance w)
         /\ 30 <= p <= 70)
  /\ (exists p,
         predicted_iqa_24h PNone w = (Ok (PInt p), advance w)
         /\ 30 <= p <= 90).
Proof.
  assert (H : forall b, exists delta,
             predicted_iqa_24h (PInt b) w
               = (Ok (PInt (Z.max 10 (b + delta))), advance w)
             /\ -20 <= delta <= 20).
  { intros b. unfold predicted_iqa_24h, bind.
    draw_randint (-20) 20 w delta.
    exists delta. split; [| assumption].
    unfold lift, py_add_int, rbind. rewrite py_max_int_PInt. reflexivity. }
  split; [| split].
  - destruct (H base) as (delta & E & B). exists delta. repeat split; lia || assumption.
  - destruct (H 50) as (delta & E & B). exists (Z.max 10 (50 + delta)).
    split; [assumption | lia].
  - unfold predicted_iqa_24h, bind.
    draw_randint 30 90 w p. exists p. split; [reflexivity | assumption].
Qed.

(** ** Primary Source Client: the paths that end in the synthesizer *)

Lemma sent_advance (w : world) : sent (advance w) = sent w.
Proof. reflexivity. Qed.

Lemma generate_fallback_data_tags (location_name : pyval) (w : world) :
  exists r w',
    generate_fallback_data location_name w = (Ok r, w')
    /\ field "location" r = Some location_name
    /\ field "source" r = Some (PStr fallback_source)
    /\ sent w' = sent w
    /\ OPENAQ_API_KEY w' = OPENAQ_API_KEY w.
Proof.
  destruct (generate_fallback_data_run location_name w)
    as (pm25 & o3 & no2 & E & _).
  eexists _, _. split; [exact E |]. repeat split.
Qed.

Lemma get_openaq_data_no_credential (lat lon : string) (w : world) :
  falsy (OPENAQ_API_KEY w) = true ->
  get_openaq_data lat lon w
    = generate_fallback_data (PStr config_error_location) w.
Proof.
  intros Hkey. unfold get_openaq_data, bind, getenv_OPENAQ_API_KEY.
  now rewrite Hkey.
Qed.

(** Bodies on which the parsing code raises, whatever it raises. *)
Example parse_payload_raises :
  parse_payload (PList []) = Raise AttributeError
  /\ parse_payload (PDict [("results", PInt 1)]) = Raise TypeError
  /\ parse_payload (PDict [("results", PList [PInt 1])]) = Raise AttributeError
  /\ parse_payload (payload "Centro" [reading_json "pm25" (PStr "high")])
     = Raise TypeError
  /\ parse_payload (payload "Centro" [PDict [("value", PInt 1)]])
     = Raise AttributeError
  /\ parse_payload (payload "Centro" [reading_json "pm25" (PFloat NaN)])
     = Raise ValueError.
Proof. repeat split. Qed.

(** Bodies without results or without measurements raise nothing: they
    end in the synthesizer through lines 73 and 75. *)
Example parse_payload_fallbacks :
  parse_payload (PDict []) = Ok (Fallback (PStr "Sua Localização"))
  /\ parse_payload (PDict [("results", PList [])])
     = Ok (Fallback (PStr "Sua Localização"))
  /\ parse_payload (payload "Centro" []) = Ok (Fallback (PStr "Centro"))
  /\ parse_payload (PDict [("results", PList [PDict []])])
     = Ok (Fallback (PStr "Local Desconhecido")).
Proof. repeat split. Qed.

(** C5. Without a configured credential ([None] or the empty string) the
    client returns the synthesizer's reading for the configuration-error
    label and sends no request; the credential is still missing
    afterwards, so this holds for every later request as well. *)
Theorem get_openaq_data_without_credential (lat lon : string) (w : world) :
  falsy (OPENAQ_API_KEY w) = true ->
  get_openaq_data lat lon w
    = generate_fallback_data (PStr config_error_location) w
  /\ exists r w',
       get_openaq_data lat lon w = (Ok r, w')
       /\ field "location" r = Some (PStr "Erro de Configuração")
       /\ field "source" r = Some (PStr fallback_source)
       /\ sent w' = sent w
       /\ falsy (OPENAQ_API_KEY w') = true.
Proof.
  intros Hkey.
  pose proof (get_openaq_data_no_credential lat lon w Hkey) as E.
  split; [exact E |]. rewrite E.
  destruct (generate_fallback_data_tags (PStr config_error_location) w)
    as (r & w' & Er & Hloc & Hsrc & Hsent & Hk).
  exists r, w'. rewrite Hk. repeat split; assumption.
Qed.

Lemma get_openaq_data_without_credential_witness :
  let w := mk_world None zero_tape (answers NoResponse) in
  falsy (OPENAQ_API_KEY w) = true
  /\ get_openaq_data "-23.55" "-46.63" w
     = generate_fallback_data (PStr config_error_location) w.
Proof.
  split; [reflexivity |].
  apply (get_openaq_data_without_credential "-23.55" "-46.63"
           (mk_world None zero_tape (answers NoResponse))).
  reflexivity.
Defined.

(** Both handlers of lines 77-82 do the same. *)
Lemma get_openaq_data_with_credential (lat lon : string) (w : world) :
  falsy (OPENAQ_API_KEY w) = false ->
  get_openaq_data lat lon w =
    match query_provider (text (OPENAQ_API_KEY w)) lat lon w with
    | (Ok r, w') => (Ok r, w')
    | (Raise _, w') => generate_fallback_data (PStr default_location) w'
    end.
Proof.
  intros Hkey.
  unfold get_openaq_data, bind, getenv_OPENAQ_API_KEY, try_except.
  rewrite Hkey.
  destruct (query_provider _ lat lon w) as [[r | e] w']; [reflexivity |].
  now destruct e.
Qed.

(** The [try] block sends its request first, whatever comes back. *)
Lemma query_provider_failure (api_key lat lon : string) (w : world) :
  upstream_failure
    (provider w (length (sent w)) (openaq_request api_key lat lon)) ->
  exists e,
    query_provider api_key lat lon w
      = (Raise e, log_request (openaq_request api_key lat lon) w).
Proof.
  unfold query_provider, bind, requests_get.
  fold (openaq_request api_key lat lon).
  destruct (provider w _ _) as [| st body]; cbn -[parse_payload].
  - intros _. eexists; reflexivity.
  - unfold lift, raise_for_status.
    intros [Hst | [Hbody | (data & e & Hbody & Hparse)]].
    + replace ((400 <=? st) && (st <? 600)) with true by (symmetry; apply andb_true_iff; lia).
      eexists; reflexivity.
    + subst body. destruct ((400 <=? st) && (st <? 600)); eexists; reflexivity.
    + subst body. destruct ((400 <=? st) && (st <? 600)); [eexists; reflexivity |].
      cbn -[parse_payload]. rewrite Hparse. eexists; reflexivity.
Qed.

(** C4, as the code has it.  With a credential configured, on a transport
    error, a 4xx or 5xx status, a body that is not JSON or a decoded body
    on which the parsing code raises, the client returns normally the
    synthesizer's reading tagged with the default location label
    "Sua Localização", after exactly one request. *)
Theorem get_openaq_data_failure_fallback (lat lon : string) (w : world) :
  falsy (OPENAQ_API_KEY w) = false ->
  upstream_failure
    (provider w (length (sent w))
       (openaq_request (text (OPENAQ_API_KEY w)) lat lon)) ->
  get_openaq_data lat lon w
    = generate_fallback_data (PStr default_location)
        (log_request (openaq_request (text (OPENAQ_API_KEY w)) lat lon) w)
  /\ exists r w',
       get_openaq_data lat lon w = (Ok r, w')
       /\ field "location" r = Some (PStr "Sua Localização")
       /\ field "source" r = Some (PStr fallback_source)
       /\ sent w' = (sent w ++ [openaq_request (text (OPENAQ_API_KEY w)) lat lon])%list.
Proof.
  intros Hkey Hfail.
  destruct (query_provider_failure _ lat lon w Hfail) as (e & Eq).
  assert (E : get_openaq_data lat lon w
              = generate_fallback_data (PStr default_location)
                  (log_request (openaq_request (text (OPENAQ_API_KEY w)) lat lon) w)).
  { rewrite (get_openaq_data_with_credential lat lon w Hkey), Eq. reflexivity. }
  split; [exact E |]. rewrite E.
  destruct (generate_fallback_data_tags (PStr default_location)
              (log_request (openaq_request (text (OPENAQ_API_KEY w)) lat lon) w))
    as (r & w' & Er & Hloc & Hsrc & Hsent & _).
  exists r, w'. repeat split; assumption.
Qed.

Lemma get_openaq_data_failure_fallback_witness :
  let w := mk_world (Some "key") zero_tape (answers (Response 503 None)) in
  exists r w',
    get_openaq_data "-23.55" "-46.63" w = (Ok r, w')
    /\ field "location" r = Some (PStr "Sua Localização")
    /\ length (sent w') = 1%nat.
Proof.
  destruct (get_openaq_data_failure_fallback "-23.55" "-46.63"
              (mk_world (Some "key") zero_tape (answers (Response 503 None))))
    as (_ & r & w' & E & Hloc & _ & Hsent).
  - reflexivity.
  - left. cbn. lia.
  - exists r, w'. repeat split; try assumption. now rewrite Hsent.
Defined.

(** C4 as the specification words it fails twice: after a transport error
    the location tag is the default label, not "unknown" and not the label
    the code uses for an unknown location; and a status outside 2xx that
    [raise_for_status] accepts (here 300) with a well-formed body gives the
    real reading, not a fallback. *)
Lemma failure_location_is_not_unknown :
  (let w := mk_world (Some "key") zero_tape (answers NoResponse) in
   exists r w',
     get_openaq_data "-23.55" "-46.63" w = (Ok r, w')
     /\ field "location" r = Some (PStr "Sua Localização")
     /\ field "location" r <> Some (PStr "unknown")
     /\ field "location" r <> Some (PStr unknown_location))
  /\ (let body := payload "Centro" [reading_json "pm25" (PInt 12)] in
      let w := mk_world (Some "key") zero_tape (answers (Response 300 (Some body))) in
      exists r w',
        get_openaq_data "-23.55" "-46.63" w = (Ok r, w')
        /\ field "source" r = Some (PStr "OpenAQ (Real)")
        /\ field "iqa" r = Some (PInt 12)).
Proof.
  split.
  - eexists _, _. split; [vm_compute; reflexivity |].
    repeat split; cbn; intros H; discriminate H.
  - eexists _, _. split; [vm_compute; reflexivity |].
    split; reflexivity.
Qed.


(** ** Primary Source Client: what the parsing loop preserves *)

Lemma py_round2_number (raw v : pyval) : py_round2 raw = Ok v -> number v.
Proof. destruct raw; simpl; intros H; inversion H; exact I. Qed.


Section ScanInvariant.

Variable ok_raw : pyval -> bool.
Variable ok_val : pyval -> Prop.
Variable ok_iqa : Z -> Prop.
Hypothesis round_ok :
  forall raw v, ok_raw raw = true -> py_round2 raw = Ok v -> ok_val v.
Hypothesis int_ok :
  forall v z, ok_val v -> py_int v = Ok z -> ok_iqa z.

Lemma pollutants_ok_set (k : string) (e : pyval) (d : dict) :
  entry_ok ok_val e -> pollutants_ok ok_val d ->
  pollutants_ok ok_val (Dict.set k e d).
Proof.
  intros He. unfold pollutants_ok.
  induction d as [| [k' v'] d IH]; simpl; intros Hd.
  - constructor; [exact He | constructor].
  - inversion Hd; subst.
    destruct (String.eqb k k'); constructor; auto.
Qed.

Lemma scan_measurement_ok (m : pyval) (st st' : scan_state) :
  measurement_ok ok_raw m = true ->
  state_ok ok_val ok_iqa st ->
  scan_measurement m st = Ok st' ->
  state_ok ok_val ok_iqa st'.
Proof.
  destruct st as [found main_iqa]. intros Hm [Hfound Hiqa].
  unfold scan_measurement, measurement_ok in *.
  destruct m as [| | | | | | d]; simpl; try discriminate.
  simpl in Hm.
  destruct (py_in (Dict.get_default "parameter" PNone d) found)
    as [[|] |]; simpl; try discriminate.
  { intros H; inversion H; subst. split; assumption. }
  destruct (py_round2 (Dict.get_default "value" (PInt 0) d))
    as [value |] eqn:Eround; simpl; try discriminate.
  destruct (py_upper (Dict.get_default "parameter" PNone d))
    as [key |]; simpl; try discriminate.
  assert (Hvalue : ok_val value) by (eapply round_ok; eassumption).
  assert (Hentry : entry_ok ok_val
                     (entry value (Dict.get_default "unit" (PStr "unidade") d))).
  { eexists _, _. split; [reflexivity |].
    split; [eapply py_round2_number; eassumption | assumption]. }
  destruct (py_eq_str _ "pm25" && is_none main_iqa).
  - destruct (py_int value) as [z |] eqn:Eint; simpl; try discriminate.
    intros H; inversion H; subst. split; simpl.
    + now apply pollutants_ok_set.
    + intros z' Hz'. inversion Hz'; subst. eapply int_ok; eassumption.
  - intros H; inversion H; subst. split; simpl.
    + now apply pollutants_ok_set.
    + assumption.
Qed.

Lemma scan_measurements_ok (ms : list pyval) :
  forall st st',
    forallb (measurement_ok ok_raw) ms = true ->
    state_ok ok_val ok_iqa st ->
    scan_measurements ms st = Ok st' ->
    state_ok ok_val ok_iqa st'.
Proof.
  induction ms as [| m ms IH]; simpl; intros st st' Hms Hst.
  - intros H; inversion H; subst; assumption.
  - apply andb_true_iff in Hms as [Hm Hms].
    destruct (scan_measurement m st) as [st1 |] eqn:E1; simpl; try discriminate.
    apply IH; [assumption |]. eapply scan_measurement_ok; eassumption.
Qed.

Lemma scan_result_ok (r : pyval) (st st' : scan_state) :
  result_ok ok_raw r = true ->
  state_ok ok_val ok_iqa st ->
  scan_result r st = Ok st' ->
  state_ok ok_val ok_iqa st'.
Proof.
  unfold result_ok, scan_result. intros Hr Hst.
  destruct (py_get r "measurements" (PList [])) as [measurements |];
    simpl in *; try discriminate.
  destruct (py_iter measurements) as [ms |]; simpl; try discriminate.
  now apply scan_measurements_ok.
Qed.

Lemma scan_results_ok (rs : list pyval) :
  forall st st',
    forallb (result_ok ok_raw) rs = true ->
    state_ok ok_val ok_iqa st ->
    scan_results rs st = Ok st' ->
    state_ok ok_val ok_iqa st'.
Proof.
  induction rs as [| r rs IH]; simpl; intros st st' Hrs Hst.
  - intros H; inversion H; subst; assumption.
  - apply andb_true_iff in Hrs as [Hr Hrs].
    destruct (scan_result r st) as [st1 |] eqn:E1; simpl; try discriminate.
    apply IH; [assumption |]. eapply scan_result_ok; eassumption.
Qed.

(** Lines 68-70 keep the invariant of the index. *)
Lemma resolve_main_iqa_ok (st : scan_state) (main_iqa : option Z) :
  state_ok ok_val ok_iqa st ->
  resolve_main_iqa st = Ok main_iqa ->
  iqa_ok ok_iqa main_iqa.
Proof.
  destruct st as [found main]. intros [Hfound Hiqa]. simpl in *.
  destruct main as [z |].
  { intros H; inversion H; subst. assumption. }
  destruct found as [| [first_key e] found].
  { intros H; inversion H; subst. assumption. }
  inversion Hfound as [| ? ? (v & u & Ee & Hnum & Hv) _]; subst.
  simpl in Ee; subst e. simpl.
  destruct (py_int v) as [z |] eqn:Ez; simpl; [| discriminate].
  intros H; inversion H; subst.
  intros z' Hz'. inversion Hz'; subst. eapply int_ok; eassumption.
Qed.

(** A decoded body gives a fallback label, a real reading that keeps the
    invariant, or an exception. *)
Lemma parse_payload_ok (data : pyval) (r : pyval) :
  payload_ok ok_raw data = true ->
  parse_payload data = Ok (Real r) ->
  real_reading ok_val ok_iqa r.
Proof.
  unfold payload_ok, parse_payload. intros Hdata.
  destruct (py_get data "results" PNone) as [results |];
    simpl in *; try discriminate.
  destruct (truthy results); [| discriminate].
  destruct (first_item results) as [first |]; simpl; try discriminate.
  destruct (py_get first "location" (PStr unknown_location))
    as [location_name |]; simpl; try discriminate.
  destruct (py_iter results) as [rs |]; simpl; try discriminate.
  destruct (scan_results rs ([], None)) as [st |] eqn:Escan;
    simpl; try discriminate.
  assert (Hst : state_ok ok_val ok_iqa st).
  { eapply scan_results_ok; [exact Hdata | | exact Escan].
    split; [constructor | intros z Hz; discriminate Hz]. }
  destruct (resolve_main_iqa st) as [main_iqa |] eqn:Eres;
    simpl; try discriminate.
  pose proof (resolve_main_iqa_ok st main_iqa Hst Eres) as Hiqa.
  destruct st as [[| kv found] main]; simpl; [discriminate |].
  intros H; inversion H; subst.
  exists main_iqa, (kv :: found), location_name.
  split; [reflexivity |]. split; [discriminate |].
  split; [apply Hst | assumption].
Qed.

Lemma generate_fallback_data_reading (location_name : pyval) (w : world) :
  exists r,
    generate_fallback_data location_name w
      = (Ok r, advance (advance (advance w)))
    /\ fallback_reading r.
Proof.
  destruct (generate_fallback_data_run location_name w)
    as (pm25 & o3 & no2 & E & B).
  eexists. split; [exact E |].
  exists location_name, pm25, o3, no2. split; [reflexivity | exact B].
Qed.

(** The client always returns a reading: the synthesizer's or a real one
    that keeps the invariant of the loop.  It sends at most one
    request. *)
Lemma get_openaq_data_returns (lat lon : string) (w : world) :
  (forall data,
      parsed_body lat lon w = Some data -> payload_ok ok_raw data = true) ->
  exists r w',
    get_openaq_data lat lon w = (Ok r, w')
    /\ (fallback_reading r \/ real_reading ok_val ok_iqa r)
    /\ (length (sent w') <= S (length (sent w)))%nat.
Proof.
  intros Hpayload.
  assert (Hfb : forall loc w0, (length (sent w0) <= S (length (sent w)))%nat ->
            exists r w',
              generate_fallback_data loc w0 = (Ok r, w')
              /\ (fallback_reading r \/ real_reading ok_val ok_iqa r)
              /\ (length (sent w') <= S (length (sent w)))%nat).
  { intros loc w0 Hw0.
    destruct (generate_fallback_data_reading loc w0) as (r & E & Hr).
    exists r, (advance (advance (advance w0))). auto. }
  assert (Hlog : forall rq, (length (sent (log_request rq w))
                             <= S (length (sent w)))%nat).
  { intros rq. simpl. rewrite length_app. simpl. lia. }
  unfold parsed_body in Hpayload.
  destruct (falsy (OPENAQ_API_KEY w)) eqn:Hkey.
  { rewrite (get_openaq_data_no_credential lat lon w Hkey).
    apply Hfb. lia. }
  rewrite (get_openaq_data_with_credential lat lon w Hkey).
  unfold query_provider, bind, requests_get.
  fold (openaq_request (text (OPENAQ_API_KEY w)) lat lon).
  specialize (Hlog (openaq_request (text (OPENAQ_API_KEY w)) lat lon)).
  destruct (provider w _ _) as [| st body] eqn:Eprov; cbv beta iota.
  { apply Hfb, Hlog. }
  unfold lift, raise_for_status, fst, snd.
  destruct ((400 <=? st) && (st <? 600)); cbv beta iota.
  { apply Hfb, Hlog. }
  destruct body as [data |]; unfold response_json; cbv beta iota;
    [| apply Hfb, Hlog].
  destruct (parse_payload data) as [[r | loc] | e] eqn:Eparse; cbv beta iota.
  - exists r, (log_request (openaq_request (text (OPENAQ_API_KEY w)) lat lon) w).
    split; [reflexivity |]. split; [| assumption].
    right. eapply parse_payload_ok; [| exact Eparse].
    apply Hpayload. reflexivity.
  - apply Hfb, Hlog.
  - apply Hfb, Hlog.
Qed.

End ScanInvariant.

(** With no condition on the values, every decoded body qualifies. *)
Lemma payload_ok_any (data : pyval) : payload_ok (fun _ => true) data = true.
Proof.
  assert (Hm : forall m, measurement_ok (fun _ => true) m = true).
  { intros m. unfold measurement_ok. now destruct (py_get m "value" (PInt 0)). }
  assert (Hr : forall r, result_ok (fun _ => true) r = true).
  { intros r. unfold result_ok.
    destruct (rbind _ _) as [ms |]; [| reflexivity].
    apply forallb_forall. intros m _. apply Hm. }
  unfold payload_ok.
  destruct (rbind _ _) as [rs |]; [| reflexivity].
  apply forallb_forall. intros r _. apply Hr.
Qed.

(** The Primary Source Client is total: it returns a reading on every
    world, after at most one request. *)
Lemma get_openaq_data_total (lat lon : string) (w : world) :
  exists r w',
    get_openaq_data lat lon w = (Ok r, w')
    /\ (fallback_reading r \/ real_reading (fun _ => True) (fun _ => True) r)
    /\ (length (sent w') <= S (length (sent w)))%nat.
Proof.
  apply (get_openaq_data_returns (fun _ => true) (fun _ => True) (fun _ => True)).
  - intros; exact I.
  - intros; exact I.
  - intros data _. apply payload_ok_any.
Qed.

Lemma Qabs_le_bounds (q : Q) (b : Z) :
  (Qabs q <= inject_Z b)%Q <-> (inject_Z (- b) <= q /\ q <= inject_Z b)%Q.
Proof.
  rewrite inject_Z_opp. apply Qabs_Qle_condition.
Qed.

(** Rounding to two decimals keeps a number moderate. *)
Lemma moderate_round (raw v : pyval) :
  moderate raw = true -> py_round2 raw = Ok v -> moderate v = true.
Proof.
  destruct raw as [| [|] | z | [q | s |] | | |]; intros Hraw H;
    cbn [py_round2 fround2] in H; inversion H; subst;
    try reflexivity; try assumption.
  cbn [moderate] in *.
  apply Qle_bool_iff. apply Qle_bool_iff in Hraw.
  apply Qabs_le_bounds. apply Qabs_le_bounds in Hraw as [Hlo Hhi].
  now apply round2_bounds.
Qed.

Lemma fallback_pollutants_moderate (pm25 : Z) (o3 no2 : Q) :
  25 <= pm25 <= 80 ->
  (40 <= o3 /\ o3 <= 150)%Q ->
  (15 <= no2 /\ no2 <= 60)%Q ->
  pollutants_ok (fun v => moderate v = true)
    [("PM25", entry (PInt pm25) (PStr "µg/m³"));
     ("O3", entry (PFloat (Finite (round2 o3))) (PStr "µg/m³"));
     ("NO2", entry (PFloat (Finite (round2 no2))) (PStr "µg/m³"))].
Proof.
  intros Hpm [Lo3 Uo3] [Lno2 Uno2].
  assert (Hq : forall q, (0 <= q)%Q -> (q <= 150)%Q ->
                 moderate (PFloat (Finite (round2 q))) = true).
  { intros q H0 H150. cbn [moderate]. apply Qle_bool_iff, Qabs_le_bounds.
    destruct (round2_bounds q 0 150 H0 H150) as [Hl Hu].
    assert (Hneg : (inject_Z (- moderate_bound) <= 0)%Q) by discriminate.
    assert (Hbig : (150 <= inject_Z moderate_bound)%Q).
    { apply Qle_bool_iff. vm_compute. reflexivity. }
    change (inject_Z 0) with 0%Q in Hl. change (inject_Z 150) with 150%Q in Hu.
    split; eapply Qle_trans; eassumption. }
  repeat constructor; eexists _, _; (split; [reflexivity |]); split;
    try exact I.
  - cbn [moderate]. apply Z.leb_le.
    assert (80 <= moderate_bound) by (apply Z.leb_le; vm_compute; reflexivity). lia.
  - apply Hq; lra.
  - apply Hq; lra.
Qed.

(** What the orchestrator reads back from a primary reading. *)
Lemma primary_reading_fields (ok_val : pyval -> Prop) (ok_iqa : Z -> Prop)
  (r : pyval) :
  (forall pm25 o3 no2,
      25 <= pm25 <= 80 -> (40 <= o3 /\ o3 <= 150)%Q -> (15 <= no2 /\ no2 <= 60)%Q ->
      pollutants_ok ok_val
        [("PM25", entry (PInt pm25) (PStr "µg/m³"));
         ("O3", entry (PFloat (Finite (round2 o3))) (PStr "µg/m³"));
         ("NO2", entry (PFloat (Finite (round2 no2))) (PStr "µg/m³"))]) ->
  fallback_reading r \/ real_reading ok_val ok_iqa r ->
  exists d main_iqa location_name,
    py_get r "pollutants" (PDict []) = Ok (PDict d)
    /\ pollutants_ok ok_val d
    /\ py_get r "iqa" PNone = Ok (iqa_value main_iqa)
    /\ py_get r "location" PNone = Ok location_name
    /\ field "location" r = Some location_name
    /\ fields r = ["iqa"; "pollutants"; "location"; "source"].
Proof.
  intros Hfb
    [(loc & pm25 & o3 & no2 & -> & Hpm & Ho3 & Hno2)
    | (main & found & loc & -> & _ & Hfound & _)].
  - eexists _, (Some pm25), loc. repeat split. now apply Hfb.
  - exists found, main, loc. repeat split. exact Hfound.
Qed.

Lemma fallback_pollutants_any (pm25 : Z) (o3 no2 : Q) :
  pollutants_ok (fun _ => True)
    [("PM25", entry (PInt pm25) (PStr "µg/m³"));
     ("O3", entry (PFloat (Finite (round2 o3))) (PStr "µg/m³"));
     ("NO2", entry (PFloat (Finite (round2 no2))) (PStr "µg/m³"))].
Proof.
  repeat constructor; eexists _, _; repeat split.
Qed.

(** ** Column Derivation Engine *)

Lemma lookup_In (k : string) (v : pyval) (d : dict) :
  Dict.lookup k d = Some v -> In (k, v) d.
Proof.
  induction d as [| [k' v'] d IH]; simpl; [discriminate |].
  destruct (String.eqb_spec k k') as [-> | _].
  - intros H; inversion H; subst. now left.
  - intros H. right. now apply IH.
Qed.

Lemma moderate_py_float (v : pyval) :
  number v -> moderate v = true ->
  exists q, py_float v = Ok (Finite q) /\ (Qabs q <= inject_Z moderate_bound)%Q.
Proof.
  destruct v as [| | z | [q | s |] | | |]; cbn [number moderate py_float];
    intros Hnum Hv; try contradiction; try discriminate.
  - apply Z.leb_le in Hv.
    assert (Hq : (Qabs (inject_Z z) <= inject_Z moderate_bound)%Q).
    { change (Qabs (inject_Z z)) with (inject_Z (Z.abs z)).
      now rewrite <- Zle_Qle. }
    exists (inject_Z z). split; [| exact Hq].
    unfold float_of_int.
    assert (Hm : (Qabs (inject_Z z) <= max_float)%Q).
    { eapply Qle_trans; [exact Hq |]. apply Qle_bool_iff. vm_compute. reflexivity. }
    apply Qle_bool_iff in Hm. now rewrite Hm.
  - exists q. split; [reflexivity |]. now apply Qle_bool_iff.
Qed.

(** Line 89 on a mapping with moderate values: the PM2.5 value, or 40. *)
Lemma pm25_baseline_ok (d : dict) :
  pollutants_ok (fun v => moderate v = true) d ->
  exists pm25,
    pm25_baseline (PDict d) = Ok (Finite pm25)
    /\ (Qabs pm25 <= inject_Z moderate_bound)%Q
    /\ match Dict.lookup "PM25" d with
       | Some e =>
           exists v, field "value" e = Some v /\ py_float v = Ok (Finite pm25)
       | None => pm25 = 40%Q
       end.
Proof.
  intros Hd. unfold pm25_baseline, py_get at 1, rbind at 1, Dict.get_default.
  destruct (Dict.lookup "PM25" d) as [e |] eqn:El.
  - apply lookup_In in El.
    unfold pollutants_ok in Hd. rewrite Forall_forall in Hd.
    destruct (Hd _ El) as (v & u & Ee & Hnum & Hv). simpl in Ee. subst e.
    destruct (moderate_py_float v Hnum Hv) as (q & Eq & Hq).
    exists q. split; [exact Eq |]. split; [exact Hq |].
    exists v. split; [reflexivity | exact Eq].
  - exists 40%Q. split; [reflexivity |]. split; [| reflexivity].
    apply Qle_bool_iff. vm_compute. reflexivity.
Qed.

(** On a moderate baseline the engine returns; its index is the
    truncation of [pm25 * noise]. *)
Lemma derive_column_data_run (sensor_name : string) (base : pyval) (pm25 : Q)
  (w : world) :
  pm25_baseline base = Ok (Finite pm25) ->
  (Qabs pm25 <= inject_Z moderate_bound)%Q ->
  exists noise derived_pollutants w',
    derive_column_data sensor_name base w
      = (Ok (PDict [("iqa", PInt (trunc (pm25 * noise)));
                    ("pollutants", PDict derived_pollutants);
                    ("source", PStr (sensor_name ++ " (Derivado)"))]), w')
    /\ (0.9 <= noise /\ noise <= 1.1)%Q
    /\ Forall (fun kv => exists s, snd kv = entry (PStr s) (PStr "molec/cm²"))
         derived_pollutants
    /\ sent w' = sent w.
Proof.
  intros Hpm Hmod.
  assert (Hiqa : forall noise, (0.9 <= noise)%Q -> (noise <= 1.1)%Q ->
            int_of_float (fmul (Finite pm25) (Finite noise))
            = Ok (trunc (pm25 * noise))).
  { intros noise Hlo Hhi. cbn [fmul].
    rewrite fl_finite; [reflexivity |].
    apply moderate_product_in_range; [assumption | lra | lra]. }
  unfold derive_column_data, bind, lift. rewrite Hpm. cbv beta iota.
  draw_uniform 0.8%Q 1.2%Q w n_no2.
  draw_uniform 0.7%Q 1.3%Q (advance w) n_o3.
  destruct (String.eqb sensor_name "TEMPO").
  - draw_uniform 0.8%Q 1.2%Q (advance (advance w)) n_hcho. unfold ret at 1.
    cbv beta iota.
    draw_uniform 0.9%Q 1.1%Q (advance (advance (advance w))) noise.
    rewrite (Hiqa noise Lnoise Unoise). cbv beta iota.
    eexists noise, _, _. split; [reflexivity |]. split; [now split |].
    split; [| reflexivity].
    repeat constructor; eexists; reflexivity.
  - unfold ret at 1. cbv beta iota.
    draw_uniform 0.9%Q 1.1%Q (advance (advance w)) noise.
    rewrite (Hiqa noise Lnoise Unoise). cbv beta iota.
    eexists noise, _, _. split; [reflexivity |]. split; [now split |].
    split; [| reflexivity].
    repeat constructor; eexists; reflexivity.
Qed.

(** Whatever the engine returns has the three fields of line 106. *)
Lemma derive_column_data_shape (sensor_name : string) (base : pyval)
  (w w' : world) (r : pyval) :
  derive_column_data sensor_name base w = (Ok r, w') ->
  derived_reading sensor_name r.
Proof.
  unfold derive_column_data, bind, lift.
  destruct (pm25_baseline base) as [pm25 | e]; cbv beta iota; [| discriminate].
  draw_uniform 0.8%Q 1.2%Q w n_no2.
  draw_uniform 0.7%Q 1.3%Q (advance w) n_o3.
  destruct (String.eqb sensor_name "TEMPO").
  - draw_uniform 0.8%Q 1.2%Q (advance (advance w)) n_hcho. unfold ret at 1.
    cbv beta iota.
    draw_uniform 0.9%Q 1.1%Q (advance (advance (advance w))) noise.
    destruct (int_of_float _) as [z | e]; cbv beta iota; [| discriminate].
    intros H; inversion H; subst.
    eexists _, _. split; [reflexivity |].
    repeat constructor; eexists; reflexivity.
  - unfold ret at 1. cbv beta iota.
    draw_uniform 0.9%Q 1.1%Q (advance (advance w)) noise.
    destruct (int_of_float _) as [z | e]; cbv beta iota; [| discriminate].
    intros H; inversion H; subst.
    eexists _, _. split; [reflexivity |].
    repeat constructor; eexists; reflexivity.
Qed.

(** C7, as the code has it.  For every pollutant mapping whose PM2.5
    baseline (the primary PM2.5 value, or 40 when the mapping has none) is
    a finite number of magnitude at most 10^300, the engine returns, and
    its index is [int(pm25 * noise)], the product truncated towards zero
    (not rounded), for a noise of [0.9, 1.1].  The other entries of the
    mapping play no part.  The interval is stated with [rounding_margin]
    on both sides: the doubles the code multiplies are the ones next to
    [0.9] and [1.1], and their product is rounded. *)
Theorem derive_column_data_index (sensor_name : string) (d : dict) (pm25 : Q)
  (w : world) :
  pm25_baseline (PDict d) = Ok (Finite pm25) ->
  (Qabs pm25 <= inject_Z moderate_bound)%Q ->
  exists noise r w',
    derive_column_data sensor_name (PDict d) w = (Ok r, w')
    /\ field "iqa" r = Some (PInt (trunc (pm25 * noise)))
    /\ (0.9 - rounding_margin <= noise /\ noise <= 1.1 + rounding_margin)%Q
    /\ (Dict.lookup "PM25" d = None -> pm25 = 40%Q)
    /\ (forall v u,
           Dict.lookup "PM25" d = Some (entry v u) ->
           py_float v = Ok (Finite pm25)).
Proof.
  intros Hb Hmod.
  destruct (derive_column_data_run sensor_name (PDict d) pm25 w Hb Hmod)
    as (noise & dp & w' & E & [Hlo Hhi] & _).
  exists noise. eexists _, w'. split; [exact E |].
  split; [reflexivity |].
  split; [unfold rounding_margin; split; lra |].
  unfold pm25_baseline in Hb. cbn [py_get rbind] in Hb.
  unfold Dict.get_default in Hb. split.
  - intros Hnone. rewrite Hnone in Hb. vm_compute in Hb. now inversion Hb.
  - intros v u Hsome. rewrite Hsome in Hb. exact Hb.
Qed.

Lemma derive_column_data_index_witness :
  let d := [("PM25", entry (PFloat (Finite 12.5)) (PStr "µg/m³"));
            ("O3", entry (PFloat NaN) (PStr "µg/m³"))] in
  let w := mk_world None zero_tape (answers NoResponse) in
  exists noise r w',
    derive_column_data "TEMPO" (PDict d) w = (Ok r, w')
    /\ field "iqa" r = Some (PInt (trunc (12.5 * noise)))
    /\ (0.9 - rounding_margin <= noise /\ noise <= 1.1 + rounding_margin)%Q.
Proof.
  intros d w.
  destruct (derive_column_data_index "TEMPO" d 12.5 w eq_refl)
    as (noise & r & w' & E & Hiqa & Hnoise & _).
  - apply Qle_bool_iff. vm_compute. reflexivity.
  - exists noise, r, w'. repeat split; assumption || apply Hnoise.
Defined.

(** C7 as the specification words it fails: for a primary PM2.5 of 32 and
    the lowest noise the engine's index is 28 (the truncation of 28.8),
    and no noise of [0.9, 1.1], the margin for rounding included, rounds
    [32 * noise] to 28. *)
Lemma derived_index_is_not_rounded :
  let base := PDict [("PM25", entry (PInt 32) (PStr "µg/m³"))] in
  let w := mk_world None zero_tape (answers NoResponse) in
  exists r w',
    derive_column_data "PANDORA" base w = (Ok r, w')
    /\ field "iqa" r = Some (PInt 28)
    /\ forall noise,
         (0.9 - rounding_margin <= noise)%Q ->
         (noise <= 1.1 + rounding_margin)%Q ->
         round_half_even (32 * noise) <> 28.
Proof.
  eexists _, _. split; [vm_compute; reflexivity |].
  split; [reflexivity |].
  intros noise Hlo Hhi Hround.
  pose proof (round_half_even_near (32 * noise)) as [_ Hup].
  rewrite Hround in Hup. change (inject_Z 28) with 28%Q in Hup.
  unfold rounding_margin in Hlo. lra.
Qed.

(** ** Forecast and alerts on a primary index *)

Lemma predicted_iqa_24h_ok (main_iqa : option Z) (w : world) :
  exists p,
    predicted_iqa_24h (iqa_value main_iqa) w = (Ok (PInt p), advance w)
    /\ 10 <= p.
Proof.
  destruct main_iqa as [z |]; unfold iqa_value, predicted_iqa_24h, bind.
  - draw_randint (-20) 20 w delta.
    exists (Z.max 10 (z + delta)). split; [| lia].
    unfold lift, py_add_int, rbind. rewrite py_max_int_PInt. reflexivity.
  - draw_randint 30 90 w p. exists p. split; [reflexivity | lia].
Qed.

Lemma generate_alerts_ok (main_iqa : option Z) :
  exists alerts, generate_alerts (iqa_value main_iqa) = Ok (PList alerts).
Proof.
  destruct main_iqa as [z |]; unfold iqa_value, generate_alerts, py_gt, rbind.
  - destruct (z >? 150); [eexists; reflexivity |].
    destruct (z >? 100); eexists; reflexivity.
  - eexists; reflexivity.
Qed.

(** ** Dashboard Orchestrator *)

(** Whatever the orchestrator returns for given coordinates is the
    document of lines 133-148 with status 200. *)
Lemma get_dashboard_data_shape (lat lon : option string) (w w' : world)
  (answer : reply) :
  falsy lat = false -> falsy lon = false ->
  get_dashboard_data lat lon w = (Ok answer, w') ->
  exists openaq tempo pandora location_name alerts predicted,
    answer =
      (200,
       PDict [("location_name", location_name);
              ("alerts", PList alerts);
              ("sensors", PDict [("openaq", openaq);
                                 ("tempo", tempo);
                                 ("pandora", pandora)]);
              ("forecast",
               PDict [("predicted_iqa_24h", PInt predicted);
                      ("message", PStr stable_message)]);
              ("map_info", PDict [("search_radius_km", PInt 100)])])
    /\ (fallback_reading openaq
        \/ real_reading (fun _ => True) (fun _ => True) openaq)
    /\ field "location" openaq = Some location_name
    /\ fields openaq = ["iqa"; "pollutants"; "location"; "source"]
    /\ derived_reading "TEMPO" tempo
    /\ derived_reading "PANDORA" pandora
    /\ 10 <= predicted.
Proof.
  intros Hlat Hlon. unfold get_dashboard_data. rewrite Hlat, Hlon.
  cbv beta iota delta [orb].
  destruct (get_openaq_data_total (text lat) (text lon) w)
    as (openaq & w1 & E & Hr & _).
  destruct (primary_reading_fields _ _ openaq
              (fun pm25 o3 no2 _ _ _ => fallback_pollutants_any pm25 o3 no2) Hr)
    as (d & main_iqa & loc & Ep & Hd & Ei & El & Hloc & Hfields).
  unfold bind, lift.
  rewrite E; cbv beta iota. rewrite Ep; cbv beta iota.
  destruct (derive_column_data "TEMPO" (PDict d) w1)
    as [[tempo | e1] w2] eqn:E1; cbv beta iota; [| discriminate].
  destruct (derive_column_data "PANDORA" (PDict d) w2)
    as [[pandora | e2] w3] eqn:E2; cbv beta iota; [| discriminate].
  destruct (predicted_iqa_24h_ok main_iqa w3) as (p & Epred & Hp).
  destruct (generate_alerts_ok main_iqa) as (alerts & Ealerts).
  rewrite Ei; cbv beta iota. rewrite Epred; cbv beta iota.
  rewrite El; cbv beta iota. rewrite Ealerts; cbv beta iota.
  unfold ret. intros H; inversion H; subst.
  exists openaq, tempo, pandora, loc, alerts, p.
  split; [reflexivity |].
  split; [exact Hr |]. split; [exact Hloc |]. split; [exact Hfields |].
  split; [eapply derive_column_data_shape; exact E1 |].
  split; [eapply derive_column_data_shape; exact E2 | exact Hp].
Qed.

(** With moderate measurement values in the parsed body, if there is one,
    the orchestrator returns, after at most one request. *)
Lemma get_dashboard_data_returns (lat lon : option string) (w : world) :
  falsy lat = false -> falsy lon = false ->
  (forall data,
      parsed_body (text lat) (text lon) w = Some data ->
      payload_ok moderate data = true) ->
  exists answer w',
    get_dashboard_data lat lon w = (Ok answer, w')
    /\ (length (sent w') <= S (length (sent w)))%nat.
Proof.
  intros Hlat Hlon Hbody. unfold get_dashboard_data. rewrite Hlat, Hlon.
  cbv beta iota delta [orb].
  destruct (get_openaq_data_returns moderate (fun v => moderate v = true)
              (fun _ => True) moderate_round (fun _ _ _ _ => I)
              (text lat) (text lon) w Hbody)
    as (openaq & w1 & E & Hr & Hsent).
  destruct (primary_reading_fields _ _ openaq fallback_pollutants_moderate Hr)
    as (d & main_iqa & loc & Ep & Hd & Ei & El & _).
  destruct (pm25_baseline_ok d Hd) as (pm25 & Hb & Hmod & _).
  destruct (derive_column_data_run "TEMPO" (PDict d) pm25 w1 Hb Hmod)
    as (n1 & dp1 & w2 & E1 & _ & _ & Hs1).
  destruct (derive_column_data_run "PANDORA" (PDict d) pm25 w2 Hb Hmod)
    as (n2 & dp2 & w3 & E2 & _ & _ & Hs2).
  destruct (predicted_iqa_24h_ok main_iqa w3) as (p & Epred & Hp).
  destruct (generate_alerts_ok main_iqa) as (alerts & Ealerts).
  unfold bind, lift.
  rewrite E; cbv beta iota. rewrite Ep; cbv beta iota.
  rewrite E1; cbv beta iota. rewrite E2; cbv beta iota.
  rewrite Ei; cbv beta iota. rewrite Epred; cbv beta iota.
  rewrite El; cbv beta iota. rewrite Ealerts; cbv beta iota.
  eexists _, _. split; [reflexivity |].
  simpl. rewrite Hs2, Hs1. exact Hsent.
Qed.

(** With both coordinates given, and moderate measurement values (finite,
    of magnitude at most 10^300) in the body the parsing code gets to see,
    if any, the dashboard endpoint answers 200 with a document whose
    sensor mapping has exactly the three entries openaq, tempo and
    pandora, and whose forecast carries an integer [predicted_iqa_24h] of
    at least 10.  The condition holds on every path without a parsed body:
    no credential, no response, a 4xx or 5xx status, a body that is not
    JSON. *)
Theorem get_dashboard_data_three_sensors (lat lon : option string) (w : world) :
  falsy lat = false -> falsy lon = false ->
  (forall data,
      parsed_body (text lat) (text lon) w = Some data ->
      payload_ok moderate data = true) ->
  exists body w' sensors forecast predicted,
    get_dashboard_data lat lon w = (Ok (200, body), w')
    /\ field "sensors" body = Some sensors
    /\ fields sensors = ["openaq"; "tempo"; "pandora"]
    /\ length (fields sensors) = 3%nat
    /\ field "forecast" body = Some forecast
    /\ field "predicted_iqa_24h" forecast = Some (PInt predicted)
    /\ 10 <= predicted.
Proof.
  intros Hlat Hlon Hbody.
  destruct (get_dashboard_data_returns lat lon w Hlat Hlon Hbody)
    as (answer & w' & E & _).
  destruct (get_dashboard_data_shape lat lon w w' answer Hlat Hlon E)
    as (openaq & tempo & pandora & loc & alerts & p & -> & _ & _ & _ & _ & _ & Hp).
  eexists _, w', _, _, p. split; [exact E |].
  repeat split; try reflexivity. exact Hp.
Qed.

Lemma get_dashboard_data_three_sensors_witness :
  let body := payload "Centro" [reading_json "pm25" (PFloat (Finite 12.345))] in
  let w := mk_world (Some "key") zero_tape (answers (Response 200 (Some body))) in
  payload_ok moderate body = true
  /\ exists body' w' sensors,
       get_dashboard_data (Some "-23.55") (Some "-46.63") w = (Ok (200, body'), w')
       /\ field "sensors" body' = Some sensors
       /\ length (fields sensors) = 3%nat.
Proof.
  split; [vm_compute; reflexivity |].
  destruct (get_dashboard_data_three_sensors (Some "-23.55") (Some "-46.63")
              (mk_world (Some "key") zero_tape
                 (answers (Response 200
                    (Some (payload "Centro"
                             [reading_json "pm25" (PFloat (Finite 12.345))])))))
              eq_refl eq_refl)
    as (body & w' & sensors & forecast & p & E & Hs & _ & Hlen & _).
  - intros data H. vm_compute in H. inversion H; subst.
    vm_compute. reflexivity.
  - exists body, w', sensors. repeat split; assumption.
Defined.

(** C9.  The endpoint does not return on every path: with a credential
    and a 200 answer of the provider, an integer measurement above the
    range of a double makes line 92 raise [OverflowError], and a NaN
    stored under "PM25" makes line 104 raise [ValueError], both outside
    the [try] block of lines 51-82, so no document is returned.  The
    sibling path is caught: a NaN under "pm25" raises at line 66, inside
    the [try] block, and the endpoint answers 200 on the synthesized
    reading. *)
Lemma extreme_measurement_breaks_dashboard :
  (let body := payload "Centro" [reading_json "pm25" (PInt (10 ^ 400))] in
   let w := mk_world (Some "key") zero_tape (answers (Response 200 (Some body))) in
   exists w',
     get_dashboard_data (Some "-23.55") (Some "-46.63") w
     = (Raise OverflowError, w'))
  /\ (let body :=
        payload "Centro"
          [reading_json "o3" (PInt 5); reading_json "PM25" (PFloat NaN)] in
      let w := mk_world (Some "key") zero_tape (answers (Response 200 (Some body))) in
      exists w',
        get_dashboard_data (Some "-23.55") (Some "-46.63") w
        = (Raise ValueError, w'))
  /\ (let body := payload "Centro" [reading_json "pm25" (PFloat NaN)] in
      let w := mk_world (Some "key") zero_tape (answers (Response 200 (Some body))) in
      exists document w' sensors openaq,
        get_dashboard_data (Some "-23.55") (Some "-46.63") w
        = (Ok (200, document), w')
        /\ field "sensors" document = Some sensors
        /\ fields sensors = ["openaq"; "tempo"; "pandora"]
        /\ field "openaq" sensors = Some openaq
        /\ field "source" openaq
           = Some (PStr "OpenAQ (Dados Indisponíveis na Região)")).
Proof.
  split; [| split].
  - eexists; vm_compute; reflexivity.
  - eexists; vm_compute; reflexivity.
  - eexists _, _, _, _. split; [vm_compute; reflexivity |].
    repeat split.
Qed.

(** C10. Whatever the engine returns has exactly the fields iqa,
    pollutants and source, so no location, and it does return on a
    moderate baseline; in every document the dashboard returns for given
    coordinates the tempo and pandora entries lack the location field that
    the openaq entry carries, and it does return one when the parsed
    measurement values, if any, are moderate. *)
Theorem derived_readings_have_no_location
  (sensor_name : string) (base : pyval) (pm25 : Q) (lat lon : option string)
  (w : world) :
  (forall r w',
      derive_column_data sensor_name base w = (Ok r, w') ->
      fields r = ["iqa"; "pollutants"; "source"] /\ field "location" r = None)
  /\ (pm25_baseline base = Ok (Finite pm25) ->
      (Qabs pm25 <= inject_Z moderate_bound)%Q ->
      exists r w', derive_column_data sensor_name base w = (Ok r, w'))
  /\ (falsy lat = false -> falsy lon = false ->
      forall answer w',
        get_dashboard_data lat lon w = (Ok answer, w') ->
        exists openaq tempo pandora location_name,
          fst answer = 200
          /\ field "sensors" (snd answer)
             = Some (PDict [("openaq", openaq); ("tempo", tempo);
                            ("pandora", pandora)])
          /\ fields tempo = ["iqa"; "pollutants"; "source"]
          /\ fields pandora = ["iqa"; "pollutants"; "source"]
          /\ field "location" tempo = None
          /\ field "location" pandora = None
          /\ field "location" openaq = Some location_name)
  /\ (falsy lat = false -> falsy lon = false ->
      (forall data,
          parsed_body (text lat) (text lon) w = Some data ->
          payload_ok moderate data = true) ->
      exists answer w', get_dashboard_data lat lon w = (Ok answer, w')).
Proof.
  split; [| split; [| split]].
  - intros r w' E.
    destruct (derive_column_data_shape sensor_name base w w' r E)
      as (i & dp & -> & _).
    split; reflexivity.
  - intros Hb Hmod.
    destruct (derive_column_data_run sensor_name base pm25 w Hb Hmod)
      as (noise & dp & w' & E & _).
    eexists _, w'. exact E.
  - intros Hlat Hlon answer w' E.
    destruct (get_dashboard_data_shape lat lon w w' answer Hlat Hlon E)
      as (openaq & tempo & pandora & loc & alerts & p & -> & _ & Hloc & _
          & (i1 & dp1 & -> & _) & (i2 & dp2 & -> & _) & _).
    exists openaq. eexists _, _, loc.
    repeat split; try reflexivity. exact Hloc.
  - intros Hlat Hlon Hbody.
    destruct (get_dashboard_data_returns lat lon w Hlat Hlon Hbody)
      as (answer & w' & E & _).
    exists answer, w'. exact E.
Qed.

Lemma derived_readings_have_no_location_witness :
  let w := mk_world None zero_tape (answers NoResponse) in
  (exists r w',
      derive_column_data "TEMPO" (PDict []) w = (Ok r, w')
      /\ fields r = ["iqa"; "pollutants"; "source"]
      /\ field "location" r = None)
  /\ (exists answer w' openaq tempo pandora location_name,
         get_dashboard_data (Some "-23.55") (Some "-46.63") w = (Ok answer, w')
         /\ field "sensors" (snd answer)
            = Some (PDict [("openaq", openaq); ("tempo", tempo);
                           ("pandora", pandora)])
         /\ field "location" tempo = None
         /\ field "location" pandora = None
         /\ field "location" openaq = Some location_name).
Proof.
  intros w.
  destruct (derived_readings_have_no_location "TEMPO" (PDict []) 40
              (Some "-23.55") (Some "-46.63") w)
    as (Hshape & Hengine & Hdoc & Hdash).
  split.
  - destruct Hengine as (r & w' & E).
    + reflexivity.
    + apply Qle_bool_iff. vm_compute. reflexivity.
    + exists r, w'. split; [exact E |]. exact (Hshape r w' E).
  - destruct Hdash as (answer & w' & E).
    + reflexivity.
    + reflexivity.
    + intros data H. vm_compute in H. discriminate H.
    + destruct (Hdoc eq_refl eq_refl answer w' E)
        as (openaq & tempo & pandora & loc & _ & Hs & _ & _ & Ht & Hp & Ho).
      exists answer, w', openaq, tempo, pandora, loc.
      repeat split; assumption.
Defined.

(** ** The data-model invariant *)

Lemma round2_nonneg (q : Q) : (0 <= q)%Q -> (0 <= round2 q)%Q.
Proof.
  intros Hq.
  destruct (round2_bounds q 0 (Qceiling q) Hq (Qle_ceiling q)) as [H _].
  exact H.
Qed.

Lemma nonneg_round (raw v : pyval) :
  nonneg_number raw = true -> py_round2 raw = Ok v -> nonneg v = true.
Proof.
  destruct raw as [| [|] | z | [q | s |] | | |]; intros Hraw H;
    cbn [py_round2 fround2] in H; inversion H; subst;
    try reflexivity; try assumption.
  cbn [nonneg_number nonneg] in *.
  apply Qle_bool_iff. apply round2_nonneg. now apply Qle_bool_iff.
Qed.

Lemma nonneg_int (v : pyval) (z : Z) :
  nonneg v = true -> py_int v = Ok z -> 0 <= z.
Proof.
  destruct v as [| [|] | z' | [q | s |] | | |]; cbn [nonneg py_int int_of_float];
    intros Hv H; inversion H; subst; try lia.
  apply trunc_nonneg. now apply Qle_bool_iff.
Qed.

Lemma fallback_reading_invariant (r : pyval) :
  fallback_reading r -> reading_invariant r = true.
Proof.
  intros (loc & pm25 & o3 & no2 & -> & Hpm & [Lo3 Uo3] & [Lno2 Uno2]).
  unfold reading_invariant; cbn -[Qle_bool round2 Z.leb].
  assert (H1 : Qle_bool 0 (round2 o3) = true).
  { apply Qle_bool_iff, round2_nonneg. lra. }
  assert (H2 : Qle_bool 0 (round2 no2) = true).
  { apply Qle_bool_iff, round2_nonneg. lra. }
  rewrite H1, H2.
  replace (0 <=? pm25) with true by (symmetry; apply Z.leb_le; lia).
  reflexivity.
Qed.

Lemma real_reading_invariant (r : pyval) :
  real_reading (fun v => nonneg v = true) (fun z => 0 <= z) r ->
  reading_invariant r = true.
Proof.
  intros (main_iqa & found & loc & -> & _ & Hfound & Hiqa).
  unfold reading_invariant; simpl. apply andb_true_iff. split.
  - apply forallb_forall. intros kv Hin.
    unfold pollutants_ok in Hfound. rewrite Forall_forall in Hfound.
    destruct (Hfound kv Hin) as (v & u & -> & _ & Hv). exact Hv.
  - destruct main_iqa as [z |]; simpl; [| reflexivity].
    apply Z.leb_le. now apply Hiqa.
Qed.

(** ** First-seen-wins *)

(** The membership test of line 61 looks up the raw parameter name while
    line 64 stores under the upper-cased name: for "pm25" the test never
    finds the key "PM25", so a second measurement replaces the value of the
    first; only [main_iqa] keeps the first. *)
Lemma second_measurement_overwrites (q1 q2 : Q) :
  scan_measurements
    [reading_json "pm25" (PFloat (Finite q1));
     reading_json "pm25" (PFloat (Finite q2))]
    ([], None)
  = Ok ([("PM25", entry (PFloat (Finite (round2 q2))) (PStr "µg/m³"))],
        Some (trunc (round2 q1))).
Proof. reflexivity. Qed.

(** A name that is already upper-case is found by the test, and the first
    value stays. *)
Lemma upper_case_name_keeps_first (q1 q2 : Q) :
  scan_measurements
    [reading_json "PM25" (PFloat (Finite q1));
     reading_json "PM25" (PFloat (Finite q2))]
    ([], None)
  = Ok ([("PM25", entry (PFloat (Finite (round2 q1))) (PStr "µg/m³"))], None).
Proof. reflexivity. Qed.

(** C1 (the code departs from it).  On a successful body with the two
    measurements pm25 = 10.0 and pm25 = 20.0 the real reading stores 20.0,
    the last value, under "PM25", while the index comes from the first. *)
Theorem later_measurement_replaces_first :
  let body :=
    payload "Centro"
      [reading_json "pm25" (PFloat (Finite 10));
       reading_json "pm25" (PFloat (Finite 20))] in
  let w := mk_world (Some "key") zero_tape (answers (Response 200 (Some body))) in
  exists r w',
    get_openaq_data "-23.55" "-46.63" w = (Ok r, w')
    /\ field "source" r = Some (PStr "OpenAQ (Real)")
    /\ field "pollutants" r
       = Some (PDict [("PM25", entry (PFloat (Finite (round2 20))) (PStr "µg/m³"))])
    /\ field "iqa" r = Some (PInt 10)
    /\ Qeq_bool (round2 20) (round2 10) = false.
Proof.
  eexists _, _. split; [vm_compute; reflexivity |].
  repeat split.
Qed.

(** * Further properties of the code *)

(** ** What [get_openaq_data] does, path by path *)

(** Without a parsed body the client ends in the synthesizer: with the
    configuration-error label and no request when the credential is
    missing, with the default label after its one request otherwise. *)
Lemma get_openaq_data_unparsed (lat lon : string) (w : world) :
  parsed_body lat lon w = None ->
  get_openaq_data lat lon w =
    if falsy (OPENAQ_API_KEY w)
    then generate_fallback_data (PStr config_error_location) w
    else generate_fallback_data (PStr default_location)
           (log_request (openaq_request (text (OPENAQ_API_KEY w)) lat lon) w).
Proof.
  unfold parsed_body.
  destruct (falsy (OPENAQ_API_KEY w)) eqn:Hkey; intros Hbody.
  { now apply get_openaq_data_no_credential. }
  rewrite (get_openaq_data_with_credential lat lon w Hkey).
  unfold query_provider, bind, requests_get.
  fold (openaq_request (text (OPENAQ_API_KEY w)) lat lon).
  destruct (provider w _ _) as [| st body]; cbv beta iota; [reflexivity |].
  unfold lift, raise_for_status, fst, snd.
  destruct body as [data |].
  - destruct ((400 <=? st) && (st <? 600)); [reflexivity | discriminate].
  - destruct ((400 <=? st) && (st <? 600)); reflexivity.
Qed.

(** With a parsed body the client sends its one request and returns what
    lines 56-84 decide. *)
Lemma get_openaq_data_parsed (lat lon : string) (w : world) (data : pyval) :
  parsed_body lat lon w = Some data ->
  get_openaq_data lat lon w =
    match parse_payload data with
    | Ok (Real r) =>
        (Ok r, log_request (openaq_request (text (OPENAQ_API_KEY w)) lat lon) w)
    | Ok (Fallback location_name) =>
        generate_fallback_data location_name
          (log_request (openaq_request (text (OPENAQ_API_KEY w)) lat lon) w)
    | Raise _ =>
        generate_fallback_data (PStr default_location)
          (log_request (openaq_request (text (OPENAQ_API_KEY w)) lat lon) w)
    end.
Proof.
  unfold parsed_body.
  destruct (falsy (OPENAQ_API_KEY w)) eqn:Hkey; [discriminate |].
  rewrite (get_openaq_data_with_credential lat lon w Hkey).
  unfold query_provider, bind, requests_get.
  fold (openaq_request (text (OPENAQ_API_KEY w)) lat lon).
  destruct (provider w _ _) as [| st body]; [discriminate |].
  destruct body as [body |]; [| discriminate].
  cbv beta iota. unfold lift, raise_for_status, fst, snd.
  destruct ((400 <=? st) && (st <? 600)); [discriminate |].
  intros H; inversion H; subst. cbn [response_json].
  destruct (parse_payload data) as [[r | loc] | e]; reflexivity.
Qed.

(** What a real reading is made of. *)
Lemma parse_payload_real (data r : pyval) :
  parse_payload data = Ok (Real r) ->
  exists first rest found main z,
    py_get data "results" PNone = Ok (PList (PDict first :: rest))
    /\ scan_results (PDict first :: rest) ([], None) = Ok (found, main)
    /\ found <> []
    /\ resolve_main_iqa (found, main) = Ok (Some z)
    /\ r = PDict [("iqa", PInt z);
                  ("pollutants", PDict found);
                  ("location",
                   Dict.get_default "location" (PStr unknown_location) first);
                  ("source", PStr real_source)].
Proof.
  unfold parse_payload.
  destruct (py_get data "results" PNone) as [results |]; [| discriminate].
  cbn [rbind]. destruct (truthy results); [| discriminate].
  destruct results as [| | | | s | [| x rest] | d]; try discriminate.
  { destruct s; discriminate. }
  cbn [first_item rbind].
  destruct x as [| | | | | | first]; try discriminate.
  cbn [py_get py_iter rbind].
  destruct (scan_results (PDict first :: rest) ([], None)) as [[found main] |]
    eqn:Escan; [| discriminate].
  cbn [rbind].
  destruct (resolve_main_iqa (found, main)) as [main_iqa |] eqn:Eres;
    [| discriminate].
  cbn [rbind fst].
  destruct found as [| kv found]; [discriminate |].
  assert (Hsome : exists z, main_iqa = Some z).
  { destruct main as [z |]; cbn in Eres.
    - inversion Eres; subst. now exists z.
    - destruct kv as [k e].
      destruct (py_item e "value") as [v |]; [| discriminate].
      cbn in Eres. destruct (py_int v) as [z |]; [| discriminate].
      inversion Eres; subst. now exists z. }
  destruct Hsome as (z & ->).
  intros H; inversion H; subst.
  exists first, rest, (kv :: found), main, z.
  repeat split; try reflexivity; try assumption. discriminate.
Qed.

Lemma fallback_is_primary (r : pyval) : fallback_reading r -> primary_reading r.
Proof.
  intros (loc & pm25 & o3 & no2 & -> & _).
  eexists pm25, _, loc, fallback_source.
  split; [reflexivity |]. split; [discriminate | now left].
Qed.


(** Every path of the client, with what it leaves in the request log. *)
Lemma get_openaq_data_primary (lat lon : string) (w : world) :
  exists r w',
    get_openaq_data lat lon w = (Ok r, w')
    /\ primary_reading r
    /\ sent w' =
         (if falsy (OPENAQ_API_KEY w) then sent w
          else sent w ++ [openaq_request (text (OPENAQ_API_KEY w)) lat lon])%list
    /\ OPENAQ_API_KEY w' = OPENAQ_API_KEY w.
Proof.
  assert (Hfb : forall loc w0,
            exists r w',
              generate_fallback_data loc w0 = (Ok r, w')
              /\ primary_reading r
              /\ sent w' = sent w0
              /\ OPENAQ_API_KEY w' = OPENAQ_API_KEY w0).
  { intros loc w0.
    destruct (generate_fallback_data_reading loc w0) as (r & E & Hr).
    exists r, (advance (advance (advance w0))).
    split; [exact E |]. split; [now apply fallback_is_primary |].
    split; reflexivity. }
  destruct (parsed_body lat lon w) as [data |] eqn:Hbody.
  - assert (Hkey : falsy (OPENAQ_API_KEY w) = false).
    { unfold parsed_body in Hbody.
      destruct (falsy (OPENAQ_API_KEY w)); [discriminate | reflexivity]. }
    rewrite (get_openaq_data_parsed lat lon w data Hbody), Hkey.
    destruct (parse_payload data) as [[r | loc] | e] eqn:Eparse.
    + destruct (parse_payload_real data r Eparse)
        as (first & rest & found & main & z & _ & _ & Hne & _ & ->).
      eexists _, _. split; [reflexivity |]. split.
      * eexists z, found, _, real_source.
        split; [reflexivity |]. split; [exact Hne | now right].
      * split; reflexivity.
    + destruct (Hfb loc (log_request
                           (openaq_request (text (OPENAQ_API_KEY w)) lat lon) w))
        as (r & w' & E & Hr & Hs & Hk).
      exists r, w'. repeat split; assumption.
    + destruct (Hfb (PStr default_location)
                  (log_request
                     (openaq_request (text (OPENAQ_API_KEY w)) lat lon) w))
        as (r & w' & E & Hr & Hs & Hk).
      exists r, w'. repeat split; assumption.
  - rewrite (get_openaq_data_unparsed lat lon w Hbody).
    destruct (falsy (OPENAQ_API_KEY w)).
    + destruct (Hfb (PStr config_error_location) w)
        as (r & w' & E & Hr & Hs & Hk).
      exists r, w'. repeat split; assumption.
    + destruct (Hfb (PStr default_location)
                  (log_request
                     (openaq_request (text (OPENAQ_API_KEY w)) lat lon) w))
        as (r & w' & E & Hr & Hs & Hk).
      exists r, w'. repeat split; assumption.
Qed.

(** X1. On every world the Primary Source Client returns a reading with the
    four fields iqa, pollutants, location and source, whose index is an
    integer (never [None]), whose pollutant mapping is not empty and whose
    source is one of the two tags of lines 30 and 84. *)
Theorem get_openaq_data_index_present (lat lon : string) (w : world) :
  exists r w' (z : Z) (d : dict) (source : string),
    get_openaq_data lat lon w = (Ok r, w')
    /\ fields r = ["iqa"; "pollutants"; "location"; "source"]
    /\ field "iqa" r = Some (PInt z)
    /\ field "pollutants" r = Some (PDict d)
    /\ d <> []
    /\ field "source" r = Some (PStr source)
    /\ (source = "OpenAQ (Dados Indisponíveis na Região)"
        \/ source = "OpenAQ (Real)").
Proof.
  destruct (get_openaq_data_primary lat lon w)
    as (r & w' & E & (z & d & loc & src & -> & Hne & Hsrc) & _).
  eexists _, w', z, d, src. split; [exact E |].
  repeat split; try reflexivity; assumption.
Qed.

(** X2. The client sends no request without a credential and exactly one
    request with one, on every path, success included: the request of line
    52 for the given coordinates, with the key in its header and a timeout
    of 10. *)
Theorem get_openaq_data_one_request (lat lon : string) (w : world) :
  exists r w',
    get_openaq_data lat lon w = (Ok r, w')
    /\ (falsy (OPENAQ_API_KEY w) = true -> sent w' = sent w)
    /\ (falsy (OPENAQ_API_KEY w) = false ->
        sent w' =
          (sent w ++
           [{| url := "https://api.openaq.org/v3/latest?coordinates="
                        ++ lat ++ "," ++ lon ++ "&radius=100000";
               headers := [("accept", "application/json");
                           ("X-API-Key", text (OPENAQ_API_KEY w))];
               timeout := 10 |}])%list).
Proof.
  destruct (get_openaq_data_primary lat lon w) as (r & w' & E & _ & Hs & _).
  exists r, w'. split; [exact E |].
  split; intros Hkey; rewrite Hkey in Hs; exact Hs.
Qed.

Lemma get_openaq_data_one_request_witness :
  exists r w',
    get_openaq_data "-23.55" "-46.63"
      (mk_world (Some "key") zero_tape
         (answers (Response 200
            (Some (payload "Centro" [reading_json "pm25" (PInt 12)])))))
    = (Ok r, w')
    /\ length (sent w') = 1%nat.
Proof.
  destruct (get_openaq_data_one_request "-23.55" "-46.63"
              (mk_world (Some "key") zero_tape
                 (answers (Response 200
                    (Some (payload "Centro" [reading_json "pm25" (PInt 12)]))))))
    as (r & w' & E & _ & Hs).
  exists r, w'. split; [exact E |].
  rewrite (Hs eq_refl). reflexivity.
Defined.

(** ** Labels of the primary reading *)

(** X3. A real reading carries the location of the first result entry of
    the parsed body, or "Local Desconhecido" when that entry has no
    location field. *)
Theorem real_reading_location (lat lon : string) (w w' : world) (r : pyval) :
  get_openaq_data lat lon w = (Ok r, w') ->
  field "source" r = Some (PStr "OpenAQ (Real)") ->
  exists data first rest,
    parsed_body lat lon w = Some data
    /\ py_get data "results" PNone = Ok (PList (PDict first :: rest))
    /\ field "location" r
       = Some (Dict.get_default "location" (PStr "Local Desconhecido") first).
Proof.
  assert (Hfb : forall loc w0,
            generate_fallback_data loc w0 = (Ok r, w') ->
            field "source" r = Some (PStr real_source) -> False).
  { intros loc w0 E Hsrc.
    destruct (generate_fallback_data_tags loc w0)
      as (r0 & w0' & E0 & _ & Hs0 & _).
    rewrite E in E0. inversion E0; subst.
    rewrite Hs0 in Hsrc. discriminate Hsrc. }
  intros E Hsrc.
  destruct (parsed_body lat lon w) as [data |] eqn:Hbody.
  - rewrite (get_openaq_data_parsed lat lon w data Hbody) in E.
    destruct (parse_payload data) as [[r0 | loc] | e] eqn:Eparse.
    + inversion E; subst.
      destruct (parse_payload_real data r Eparse)
        as (first & rest & found & main & z & Hres & _ & _ & _ & ->).
      exists data, first, rest. repeat split. exact Hres.
    + exfalso. eapply Hfb; eassumption.
    + exfalso. eapply Hfb; eassumption.
  - rewrite (get_openaq_data_unparsed lat lon w Hbody) in E.
    exfalso. destruct (falsy (OPENAQ_API_KEY w)); eapply Hfb; eassumption.
Qed.

Lemma real_reading_location_witness :
  exists r w',
    get_openaq_data "-23.55" "-46.63"
      (mk_world (Some "key") zero_tape
         (answers (Response 200
            (Some (PDict [("results",
                           PList [PDict [("measurements",
                                          PList [reading_json "o3" (PInt 7)])]])])))))
    = (Ok r, w')
    /\ field "location" r = Some (PStr "Local Desconhecido").
Proof.
  pose (w := mk_world (Some "key") zero_tape
               (answers (Response 200
                  (Some (PDict [("results",
                                 PList [PDict [("measurements",
                                                PList [reading_json "o3" (PInt 7)])]])]))))).
  destruct (get_openaq_data "-23.55" "-46.63" w) as [[r | e] w'] eqn:E;
    [| vm_compute in E; discriminate E].
  exists r, w'. split; [exact E |].
  destruct (real_reading_location "-23.55" "-46.63" w w' r E)
    as (data & first & rest & Hbody & Hres & Hloc).
  - vm_compute in E. inversion E; subst. reflexivity.
  - vm_compute in Hbody. inversion Hbody; subst.
    vm_compute in Hres. inversion Hres; subst. exact Hloc.
Defined.

Lemma scan_results_no_measurements (rs : list pyval) (st : scan_state) :
  forallb no_measurements rs = true -> scan_results rs st = Ok st.
Proof.
  induction rs as [| r rs IH]; cbn [forallb scan_results]; [reflexivity |].
  intros H. apply andb_true_iff in H as [Hr Hrs].
  unfold no_measurements in Hr. unfold scan_result.
  destruct (py_get r "measurements" (PList [])) as [m |]; [| discriminate].
  cbn [rbind] in *. destruct (py_iter m) as [[| x l] |]; try discriminate.
  cbn [rbind scan_measurements]. now apply IH.
Qed.

(** X4. When the parsed body has result entries but none of them yields a
    measurement, the client returns the synthesizer's reading tagged with
    the location of the first entry ("Local Desconhecido" when it has
    none); when the body has no result entry at all, the tag is the default
    label "Sua Localização".  In both cases the one request was sent. *)
Theorem get_openaq_data_empty_results
  (lat lon : string) (w : world) (data results : pyval) :
  parsed_body lat lon w = Some data ->
  py_get data "results" PNone = Ok results ->
  (truthy results = false ->
   get_openaq_data lat lon w
   = generate_fallback_data (PStr "Sua Localização")
       (log_request (openaq_request (text (OPENAQ_API_KEY w)) lat lon) w))
  /\ (forall first rest,
         results = PList (PDict first :: rest) ->
         forallb no_measurements (PDict first :: rest) = true ->
         get_openaq_data lat lon w
         = generate_fallback_data
             (Dict.get_default "location" (PStr "Local Desconhecido") first)
             (log_request (openaq_request (text (OPENAQ_API_KEY w)) lat lon) w)).
Proof.
  intros Hbody Hres.
  rewrite (get_openaq_data_parsed lat lon w data Hbody).
  split.
  - intros Hfalse. unfold parse_payload. rewrite Hres. cbn [rbind].
    rewrite Hfalse. reflexivity.
  - intros first rest -> Hnone. unfold parse_payload. rewrite Hres.
    cbn [rbind truthy first_item py_get py_iter].
    rewrite (scan_results_no_measurements _ _ Hnone). reflexivity.
Qed.

Lemma get_openaq_data_empty_results_witness :
  let data := PDict [("results", PList [PDict [("location", PStr "Centro")]])] in
  let w := mk_world (Some "key") zero_tape (answers (Response 200 (Some data))) in
  get_openaq_data "-23.55" "-46.63" w
  = generate_fallback_data (PStr "Centro")
      (log_request (openaq_request "key" "-23.55" "-46.63") w).
Proof.
  intros data w.
  destruct (get_openaq_data_empty_results "-23.55" "-46.63" w data
              (PList [PDict [("location", PStr "Centro")]]) eq_refl eq_refl)
    as [_ H].
  exact (H [("location", PStr "Centro")] [] eq_refl eq_refl).
Defined.

(** ** The pollutant mapping of the primary reading *)

Lemma upper_ascii_idem (c : ascii) : upper_ascii (upper_ascii c) = upper_ascii c.
Proof. destruct c as [[] [] [] [] [] [] [] []]; reflexivity. Qed.

Lemma upper_idem (s : string) : upper (upper s) = upper s.
Proof.
  induction s as [| c s IH]; cbn [upper]; [reflexivity |].
  now rewrite upper_ascii_idem, IH.
Qed.

Lemma mem_In (k : string) (d : dict) :
  Dict.mem k d = true <-> In k (Dict.keys d).
Proof.
  unfold Dict.mem, Dict.keys.
  induction d as [| [k' v] d IH]; cbn [Dict.lookup map fst In].
  - split; [discriminate | contradiction].
  - destruct (String.eqb_spec k k') as [-> | Hne].
    + split; [now left | reflexivity].
    + rewrite IH. split; [now right | intros [H | H]; [congruence | exact H]].
Qed.

Lemma keys_set (k : string) (v : pyval) (d : dict) :
  Dict.keys (Dict.set k v d)
  = if Dict.mem k d then Dict.keys d else (Dict.keys d ++ [k])%list.
Proof.
  unfold Dict.mem, Dict.keys.
  induction d as [| [k' v'] d IH]; cbn [Dict.set Dict.lookup map fst app];
    [reflexivity |].
  destruct (String.eqb_spec k k') as [-> | Hne]; cbn [map fst]; [reflexivity |].
  rewrite IH. now destruct (Dict.lookup k d).
Qed.

Lemma keys_ok_set (k : string) (v : pyval) (d : dict) :
  keys_ok d -> upper k = k -> keys_ok (Dict.set k v d).
Proof.
  intros [Hnd Hup] Hk. unfold keys_ok. rewrite keys_set.
  destruct (Dict.mem k d) eqn:Hmem; [now split |].
  split.
  - apply NoDup_app; [exact Hnd | repeat constructor; intros [] | ].
    intros x Hx [<- | []].
    apply mem_In in Hx. congruence.
  - apply Forall_app. split; [exact Hup | now repeat constructor].
Qed.

Lemma scan_measurement_keys (m : pyval) (st st' : scan_state) :
  keys_ok (fst st) -> scan_measurement m st = Ok st' -> keys_ok (fst st').
Proof.
  destruct st as [found main_iqa]. cbn [fst]. intros Hk.
  unfold scan_measurement.
  destruct m as [| | | | | | d]; cbn [py_get rbind]; try discriminate.
  destruct (py_in (Dict.get_default "parameter" PNone d) found)
    as [[|] |]; cbn [rbind]; try discriminate.
  { intros H; inversion H; subst. exact Hk. }
  destruct (py_round2 _) as [value |]; cbn [rbind]; try discriminate.
  destruct (Dict.get_default "parameter" PNone d) as [| | | | p | |];
    cbn [py_upper rbind]; try discriminate.
  assert (Hset : forall e, keys_ok (Dict.set (upper p) e found)).
  { intros e. apply keys_ok_set; [exact Hk | apply upper_idem]. }
  destruct (py_eq_str (PStr p) "pm25" && is_none main_iqa).
  - destruct (py_int value); cbn [rbind]; try discriminate.
    intros H; inversion H; subst. apply Hset.
  - intros H; inversion H; subst. apply Hset.
Qed.

Lemma scan_measurements_keys (ms : list pyval) :
  forall st st',
    keys_ok (fst st) -> scan_measurements ms st = Ok st' -> keys_ok (fst st').
Proof.
  induction ms as [| m ms IH]; cbn [scan_measurements]; intros st st' Hk.
  - intros H; inversion H; subst; exact Hk.
  - destruct (scan_measurement m st) as [st1 |] eqn:E1; cbn [rbind];
      [| discriminate].
    apply IH. eapply scan_measurement_keys; eassumption.
Qed.

(** The two nested loops are one loop over the measurements of all result
    entries in order. *)
Lemma scan_measurements_app (a b : list pyval) (st : scan_state) :
  scan_measurements (a ++ b) st
  = rbind (scan_measurements a st) (scan_measurements b).
Proof.
  revert st. induction a as [| m a IH]; intros st; cbn [app scan_measurements];
    [reflexivity |].
  destruct (scan_measurement m st) as [st1 |]; cbn [rbind]; [apply IH | reflexivity].
Qed.

Lemma scan_results_flat (rs : list pyval) :
  forall st st',
    scan_results rs st = Ok st' ->
    exists ms, all_measurements rs = Ok ms /\ scan_measurements ms st = Ok st'.
Proof.
  induction rs as [| r rs IH]; cbn [scan_results all_measurements]; intros st st'.
  - intros H; inversion H; subst. now exists [].
  - unfold scan_result.
    destruct (py_get r "measurements" (PList [])) as [m |]; cbn [rbind];
      [| discriminate].
    destruct (py_iter m) as [ms1 |]; cbn [rbind]; [| discriminate].
    destruct (scan_measurements ms1 st) as [st1 |] eqn:E1; cbn [rbind];
      [| discriminate].
    intros H. destruct (IH st1 st' H) as (ms2 & -> & E2). cbn [rbind].
    exists (ms1 ++ ms2)%list. split; [reflexivity |].
    rewrite scan_measurements_app, E1. exact E2.
Qed.

Lemma scan_results_keys (rs : list pyval) (st st' : scan_state) :
  keys_ok (fst st) -> scan_results rs st = Ok st' -> keys_ok (fst st').
Proof.
  intros Hk H. destruct (scan_results_flat rs st st' H) as (ms & _ & E).
  eapply scan_measurements_keys; eassumption.
Qed.

(** X5. The keys of the pollutant mapping of every reading the client
    returns are pairwise distinct and upper-case. *)
Theorem get_openaq_data_keys (lat lon : string) (w : world) :
  exists r w' d,
    get_openaq_data lat lon w = (Ok r, w')
    /\ field "pollutants" r = Some (PDict d)
    /\ NoDup (Dict.keys d)
    /\ Forall (fun k => upper k = k) (Dict.keys d).
Proof.
  assert (Hfb : forall loc w0,
            exists r w' d,
              generate_fallback_data loc w0 = (Ok r, w')
              /\ field "pollutants" r = Some (PDict d)
              /\ NoDup (Dict.keys d)
              /\ Forall (fun k => upper k = k) (Dict.keys d)).
  { intros loc w0.
    destruct (generate_fallback_data_run loc w0) as (pm25 & o3 & no2 & E & _).
    eexists _, _, _. split; [exact E |]. split; [reflexivity |].
    split.
    - repeat constructor; cbn; intuition discriminate.
    - repeat constructor. }
  destruct (parsed_body lat lon w) as [data |] eqn:Hbody.
  - rewrite (get_openaq_data_parsed lat lon w data Hbody).
    destruct (parse_payload data) as [[r | loc] | e] eqn:Eparse;
      [| apply Hfb | apply Hfb].
    destruct (parse_payload_real data r Eparse)
      as (first & rest & found & main & z & _ & Escan & _ & _ & ->).
    assert (Hk : keys_ok found).
    { apply (scan_results_keys (PDict first :: rest) ([], None) (found, main));
        [| exact Escan].
      split; constructor. }
    eexists _, _, found. split; [reflexivity |]. split; [reflexivity |].
    exact Hk.
  - rewrite (get_openaq_data_unparsed lat lon w Hbody).
    destruct (falsy (OPENAQ_API_KEY w)); apply Hfb.
Qed.

Lemma two_decimals_round (raw v : pyval) :
  py_round2 raw = Ok v -> two_decimals v.
Proof.
  destruct raw as [| [|] | z | [q | s |] | | |]; cbn [py_round2 fround2];
    intros H; inversion H; subst; cbn [two_decimals]; try exact I.
  now exists (round_half_even (q * 100)).
Qed.

(** X6. Every entry of the pollutant mapping of a reading the client
    returns is a dictionary with the two fields value and unit, where the
    value is a number: an integer, or a float that is a multiple of 0.01
    (rounded to two decimals), an infinity or NaN. *)
Theorem get_openaq_data_entries (lat lon : string) (w : world) :
  exists r w' d,
    get_openaq_data lat lon w = (Ok r, w')
    /\ field "pollutants" r = Some (PDict d)
    /\ Forall (fun kv =>
                 exists v u,
                   snd kv = PDict [("value", v); ("unit", u)]
                   /\ number v /\ two_decimals v) d.
Proof.
  destruct (get_openaq_data_returns (fun _ => true) two_decimals (fun _ => True)
              (fun raw v _ H => two_decimals_round raw v H)
              (fun _ _ _ _ => I) lat lon w
              (fun data _ => payload_ok_any data))
    as (r & w' & E & [Hr | Hr] & _).
  - destruct Hr as (loc & pm25 & o3 & no2 & -> & _).
    eexists _, w', _. split; [exact E |]. split; [reflexivity |].
    repeat constructor; eexists _, _; (split; [reflexivity |]); split;
      cbn [number two_decimals]; try exact I; eexists; reflexivity.
  - destruct Hr as (main & found & loc & -> & _ & Hfound & _).
    eexists _, w', found. split; [exact E |]. split; [reflexivity |].
    exact Hfound.
Qed.

(** ** The main index of a real reading *)

(** Once set, [main_iqa] is never changed by the loop. *)
Lemma scan_measurement_keeps_index (m : pyval) (found found' : dict)
  (z : Z) (main' : option Z) :
  scan_measurement m (found, Some z) = Ok (found', main') -> main' = Some z.
Proof.
  unfold scan_measurement.
  destruct (py_get m "parameter" PNone) as [param |]; cbn [rbind];
    [| discriminate].
  destruct (py_in param found) as [[|] |]; cbn [rbind]; try discriminate.
  { intros H; inversion H; subst; reflexivity. }
  destruct (py_get m "unit" (PStr "unidade")); cbn [rbind]; [| discriminate].
  destruct (py_get m "value" (PInt 0)); cbn [rbind]; [| discriminate].
  destruct (py_round2 _); cbn [rbind]; [| discriminate].
  destruct (py_upper param); cbn [rbind]; [| discriminate].
  cbn [is_none]. rewrite andb_false_r.
  intros H; inversion H; subst; reflexivity.
Qed.

Lemma scan_measurements_keeps_index (ms : list pyval) :
  forall found found' z main',
    scan_measurements ms (found, Some z) = Ok (found', main') -> main' = Some z.
Proof.
  induction ms as [| m ms IH]; cbn [scan_measurements]; intros found found' z main'.
  - intros H; inversion H; subst; reflexivity.
  - destruct (scan_measurement m (found, Some z)) as [[f1 m1] |] eqn:E1;
      cbn [rbind]; [| discriminate].
    rewrite (scan_measurement_keeps_index m found f1 z m1 E1). apply IH.
Qed.

(** A measurement of another parameter leaves [main_iqa] unset. *)
Lemma scan_measurement_not_pm25 (m : pyval) (found found' : dict)
  (main' : option Z) :
  is_pm25 m = false ->
  scan_measurement m (found, None) = Ok (found', main') -> main' = None.
Proof.
  unfold is_pm25, scan_measurement.
  destruct (py_get m "parameter" PNone) as [param |]; cbn [rbind];
    [| discriminate].
  intros Hp.
  destruct (py_in param found) as [[|] |]; cbn [rbind]; try discriminate.
  { intros H; inversion H; subst; reflexivity. }
  destruct (py_get m "unit" (PStr "unidade")); cbn [rbind]; [| discriminate].
  destruct (py_get m "value" (PInt 0)); cbn [rbind]; [| discriminate].
  destruct (py_round2 _); cbn [rbind]; [| discriminate].
  destruct (py_upper param); cbn [rbind]; [| discriminate].
  rewrite Hp. cbn [andb].
  intros H; inversion H; subst; reflexivity.
Qed.

Lemma scan_measurements_not_pm25 (ms : list pyval) :
  forall found found' main',
    forallb (fun x => negb (is_pm25 x)) ms = true ->
    scan_measurements ms (found, None) = Ok (found', main') -> main' = None.
Proof.
  induction ms as [| m ms IH]; cbn [scan_measurements forallb];
    intros found found' main' Hms.
  - intros H; inversion H; subst; reflexivity.
  - apply andb_true_iff in Hms as [Hm Hms]. apply negb_true_iff in Hm.
    destruct (scan_measurement m (found, None)) as [[f1 m1] |] eqn:E1;
      cbn [rbind]; [| discriminate].
    rewrite (scan_measurement_not_pm25 m found f1 m1 Hm E1). now apply IH.
Qed.

(** The first "pm25" measurement is never skipped (no key is lower-case)
    and sets [main_iqa]. *)
Lemma scan_measurement_pm25 (m : pyval) (found found' : dict)
  (main' : option Z) :
  keys_ok found -> is_pm25 m = true ->
  scan_measurement m (found, None) = Ok (found', main') ->
  exists raw v z,
    py_get m "value" (PInt 0) = Ok raw
    /\ py_round2 raw = Ok v
    /\ py_int v = Ok z
    /\ main' = Some z.
Proof.
  intros [_ Hup]. unfold is_pm25, scan_measurement.
  destruct (py_get m "parameter" PNone) as [param |]; cbn [rbind];
    [| discriminate].
  intros Hp.
  destruct param as [| | | | p | |]; cbn [py_eq_str] in Hp; try discriminate.
  apply String.eqb_eq in Hp. subst p.
  cbn [py_in rbind].
  assert (Hmem : Dict.mem "pm25" found = false).
  { destruct (Dict.mem "pm25" found) eqn:Hmem; [| reflexivity].
    apply mem_In in Hmem. rewrite Forall_forall in Hup.
    specialize (Hup _ Hmem). discriminate Hup. }
  rewrite Hmem.
  destruct (py_get m "unit" (PStr "unidade")); cbn [rbind]; [| discriminate].
  destruct (py_get m "value" (PInt 0)) as [raw |]; cbn [rbind]; [| discriminate].
  destruct (py_round2 raw) as [v |] eqn:Hv; cbn [rbind]; [| discriminate].
  cbn [py_upper rbind py_eq_str is_none].
  replace ("pm25" =? "pm25")%string with true by reflexivity. cbn [andb].
  destruct (py_int v) as [z |] eqn:Hz; cbn [rbind]; [| discriminate].
  intros H; inversion H; subst.
  exists raw, v, z. repeat split; assumption.
Qed.

(** The scan of a real reading, as one loop over all measurements. *)
Lemma real_reading_scan (lat lon : string) (w w' : world) (r data : pyval)
  (rs : list pyval) :
  get_openaq_data lat lon w = (Ok r, w') ->
  field "source" r = Some (PStr "OpenAQ (Real)") ->
  parsed_body lat lon w = Some data ->
  py_get data "results" PNone = Ok (PList rs) ->
  exists ms found main z,
    all_measurements rs = Ok ms
    /\ scan_measurements ms ([], None) = Ok (found, main)
    /\ resolve_main_iqa (found, main) = Ok (Some z)
    /\ field "iqa" r = Some (PInt z)
    /\ field "pollutants" r = Some (PDict found).
Proof.
  intros E Hsrc Hbody Hres.
  assert (Hfb : forall loc w0,
            generate_fallback_data loc w0 = (Ok r, w') -> False).
  { intros loc w0 E0.
    destruct (generate_fallback_data_tags loc w0)
      as (r0 & w0' & E1 & _ & Hs0 & _).
    rewrite E0 in E1. inversion E1; subst.
    rewrite Hs0 in Hsrc. discriminate Hsrc. }
  rewrite (get_openaq_data_parsed lat lon w data Hbody) in E.
  destruct (parse_payload data) as [[r0 | loc] | e] eqn:Eparse;
    [| exfalso; eapply Hfb; eassumption | exfalso; eapply Hfb; eassumption].
  inversion E; subst.
  destruct (parse_payload_real data r Eparse)
    as (first & rest & found & main & z & Hres' & Escan & _ & Eres & ->).
  rewrite Hres in Hres'. inversion Hres'; subst.
  destruct (scan_results_flat _ _ _ Escan) as (ms & Hms & Hscan).
  exists ms, found, main, z. repeat split; assumption.
Qed.

(** X7. In a real reading the index is [int(round(value, 2))] of the first
    measurement whose parameter is "pm25", counting the measurements of
    all result entries in order. *)
Theorem main_index_from_first_pm25
  (lat lon : string) (w w' : world) (r data : pyval) (rs pre post : list pyval)
  (m : pyval) :
  get_openaq_data lat lon w = (Ok r, w') ->
  field "source" r = Some (PStr "OpenAQ (Real)") ->
  parsed_body lat lon w = Some data ->
  py_get data "results" PNone = Ok (PList rs) ->
  all_measurements rs = Ok (pre ++ m :: post)%list ->
  forallb (fun x => negb (is_pm25 x)) pre = true ->
  is_pm25 m = true ->
  exists raw v z,
    py_get m "value" (PInt 0) = Ok raw
    /\ py_round2 raw = Ok v
    /\ py_int v = Ok z
    /\ field "iqa" r = Some (PInt z).
Proof.
  intros E Hsrc Hbody Hres Hms Hpre Hm.
  destruct (real_reading_scan lat lon w w' r data rs E Hsrc Hbody Hres)
    as (ms & found & main & z & Hms' & Hscan & Eres & Hiqa & _).
  rewrite Hms in Hms'. inversion Hms'; subst ms.
  rewrite scan_measurements_app in Hscan.
  destruct (scan_measurements pre ([], None)) as [[f1 m1] |] eqn:Epre;
    cbn [rbind] in Hscan; [| discriminate].
  assert (Hk1 : keys_ok f1).
  { apply (scan_measurements_keys pre ([], None) (f1, m1)); [| exact Epre].
    split; constructor. }
  rewrite (scan_measurements_not_pm25 pre [] f1 m1 Hpre Epre) in *.
  cbn [scan_measurements] in Hscan.
  destruct (scan_measurement m (f1, None)) as [[f2 m2] |] eqn:Em;
    cbn [rbind] in Hscan; [| discriminate].
  destruct (scan_measurement_pm25 m f1 f2 m2 Hk1 Hm Em)
    as (raw & v & z0 & Hraw & Hv & Hz & ->).
  rewrite (scan_measurements_keeps_index post f2 found z0 main Hscan) in Eres.
  cbn in Eres. inversion Eres; subst.
  exists raw, v, z. repeat split; assumption.
Qed.

Lemma main_index_from_first_pm25_witness :
  exists r w',
    get_openaq_data "-23.55" "-46.63"
      (mk_world (Some "key") zero_tape
         (answers (Response 200
            (Some (payload "Centro"
                     [reading_json "o3" (PInt 70);
                      reading_json "pm25" (PFloat (Finite 12.999));
                      reading_json "pm25" (PFloat (Finite 55))])))))
    = (Ok r, w')
    /\ field "iqa" r = Some (PInt 13).
Proof.
  pose (ms := [reading_json "o3" (PInt 70);
               reading_json "pm25" (PFloat (Finite 12.999));
               reading_json "pm25" (PFloat (Finite 55))]).
  pose (w := mk_world (Some "key") zero_tape
               (answers (Response 200 (Some (payload "Centro" ms))))).
  destruct (get_openaq_data "-23.55" "-46.63" w) as [[r | e] w'] eqn:E;
    [| vm_compute in E; discriminate E].
  exists r, w'. split; [exact E |].
  destruct (main_index_from_first_pm25 "-23.55" "-46.63" w w' r
              (payload "Centro" ms)
              [PDict [("location", PStr "Centro"); ("measurements", PList ms)]]
              [reading_json "o3" (PInt 70)]
              [reading_json "pm25" (PFloat (Finite 55))]
              (reading_json "pm25" (PFloat (Finite 12.999))) E)
    as (raw & v & z & Hraw & Hv & Hz & Hiqa); try reflexivity.
  - vm_compute in E. inversion E; subst. reflexivity.
  - vm_compute in Hraw. inversion Hraw; subst.
    vm_compute in Hv. inversion Hv; subst.
    vm_compute in Hz. inversion Hz; subst. exact Hiqa.
Defined.

(** X8. When no measurement has the parameter "pm25", the index of a real
    reading is [int] of the value of the entry that was inserted first
    into the pollutant mapping. *)
Theorem main_index_from_first_entry
  (lat lon : string) (w w' : world) (r data : pyval) (rs ms : list pyval) :
  get_openaq_data lat lon w = (Ok r, w') ->
  field "source" r = Some (PStr "OpenAQ (Real)") ->
  parsed_body lat lon w = Some data ->
  py_get data "results" PNone = Ok (PList rs) ->
  all_measurements rs = Ok ms ->
  forallb (fun x => negb (is_pm25 x)) ms = true ->
  exists first_key e rest v z,
    field "pollutants" r = Some (PDict ((first_key, e) :: rest))
    /\ field "value" e = Some v
    /\ py_int v = Ok z
    /\ field "iqa" r = Some (PInt z).
Proof.
  intros E Hsrc Hbody Hres Hms Hnone.
  destruct (real_reading_scan lat lon w w' r data rs E Hsrc Hbody Hres)
    as (ms' & found & main & z & Hms' & Hscan & Eres & Hiqa & Hpol).
  rewrite Hms in Hms'. inversion Hms'; subst ms'.
  rewrite (scan_measurements_not_pm25 ms [] found main Hnone Hscan) in Eres.
  destruct found as [| [k e] rest]; cbn [resolve_main_iqa] in Eres;
    [discriminate |].
  destruct e as [| | | | | | d]; cbn [py_item rbind] in Eres; try discriminate.
  destruct (Dict.lookup "value" d) as [v |] eqn:Hv; cbn [rbind] in Eres;
    [| discriminate].
  destruct (py_int v) as [z0 |] eqn:Hz; cbn [rbind] in Eres; [| discriminate].
  inversion Eres; subst.
  exists k, (PDict d), rest, v, z. repeat split; assumption.
Qed.

Lemma main_index_from_first_entry_witness :
  exists r w',
    get_openaq_data "-23.55" "-46.63"
      (mk_world (Some "key") zero_tape
         (answers (Response 200
            (Some (payload "Centro"
                     [reading_json "o3" (PFloat (Finite 70.5));
                      reading_json "no2" (PInt 9)])))))
    = (Ok r, w')
    /\ field "iqa" r = Some (PInt 70).
Proof.
  pose (ms := [reading_json "o3" (PFloat (Finite 70.5));
               reading_json "no2" (PInt 9)]).
  pose (w := mk_world (Some "key") zero_tape
               (answers (Response 200 (Some (payload "Centro" ms))))).
  destruct (get_openaq_data "-23.55" "-46.63" w) as [[r | e] w'] eqn:E;
    [| vm_compute in E; discriminate E].
  exists r, w'. split; [exact E |].
  destruct (main_index_from_first_entry "-23.55" "-46.63" w w' r
              (payload "Centro" ms)
              [PDict [("location", PStr "Centro"); ("measurements", PList ms)]]
              ms E)
    as (k & e & rest & v & z & Hpol & Hv & Hz & Hiqa); try reflexivity.
  - vm_compute in E. inversion E; subst. reflexivity.
  - vm_compute in E. inversion E; subst.
    vm_compute in Hpol. inversion Hpol; subst.
    vm_compute in Hv. inversion Hv; subst.
    vm_compute in Hz. inversion Hz; subst. exact Hiqa.
Defined.

(** ** The dashboard document, call by call *)

Lemma predicted_iqa_24h_int (z : Z) (w : world) :
  exists delta,
    predicted_iqa_24h (PInt z) w
    = (Ok (PInt (Z.max 10 (z + delta))), advance w)
    /\ -20 <= delta <= 20.
Proof.
  unfold predicted_iqa_24h, bind.
  draw_randint (-20) 20 w delta.
  exists delta. split; [| assumption].
  unfold lift, py_add_int, rbind. rewrite py_max_int_PInt. reflexivity.
Qed.

Lemma generate_alerts_int (z : Z) :
  generate_alerts (PInt z)
  = Ok (PList (if z >? 150 then [danger_alert]
               else if z >? 100 then [warning_alert] else [])).
Proof.
  unfold generate_alerts, py_gt, rbind.
  destruct (z >? 150); [reflexivity |]. now destruct (z >? 100).
Qed.

(** Every document the orchestrator returns for given coordinates is
    assembled from one call of the client, two calls of the engine on the
    client's pollutant mapping, one draw for the forecast and the alerts of
    the client's index. *)
Lemma get_dashboard_data_document (lat lon : option string) (w w' : world)
  (answer : reply) :
  falsy lat = false -> falsy lon = false ->
  get_dashboard_data lat lon w = (Ok answer, w') ->
  exists z pollutants location_name source tempo pandora delta w1 w2 w3,
    get_openaq_data (text lat) (text lon) w
    = (Ok (PDict [("iqa", PInt z);
                  ("pollutants", PDict pollutants);
                  ("location", location_name);
                  ("source", PStr source)]), w1)
    /\ derive_column_data "TEMPO" (PDict pollutants) w1 = (Ok tempo, w2)
    /\ derive_column_data "PANDORA" (PDict pollutants) w2 = (Ok pandora, w3)
    /\ w' = advance w3
    /\ -20 <= delta <= 20
    /\ answer =
         (200,
          PDict [("location_name", location_name);
                 ("alerts",
                  PList (if z >? 150 then [danger_alert]
                         else if z >? 100 then [warning_alert] else []));
                 ("sensors",
                  PDict [("openaq",
                          PDict [("iqa", PInt z);
                                 ("pollutants", PDict pollutants);
                                 ("location", location_name);
                                 ("source", PStr source)]);
                         ("tempo", tempo);
                         ("pandora", pandora)]);
                 ("forecast",
                  PDict [("predicted_iqa_24h", PInt (Z.max 10 (z + delta)));
                         ("message", PStr stable_message)]);
                 ("map_info", PDict [("search_radius_km", PInt 100)])]).
Proof.
  intros Hlat Hlon. unfold get_dashboard_data. rewrite Hlat, Hlon.
  cbv beta iota delta [orb].
  destruct (get_openaq_data_primary (text lat) (text lon) w)
    as (openaq & w1 & E & (z & d & loc & src & -> & _) & _).
  unfold bind, lift.
  rewrite E; cbv beta iota.
  change (py_get (PDict [("iqa", PInt z); ("pollutants", PDict d);
                         ("location", loc); ("source", PStr src)])
            "pollutants" (PDict []))
    with (@Ok pyval (PDict d)).
  cbv beta iota.
  destruct (derive_column_data "TEMPO" (PDict d) w1)
    as [[tempo | e1] w2] eqn:E1; cbv beta iota; [| discriminate].
  destruct (derive_column_data "PANDORA" (PDict d) w2)
    as [[pandora | e2] w3] eqn:E2; cbv beta iota; [| discriminate].
  change (py_get (PDict [("iqa", PInt z); ("pollutants", PDict d);
                         ("location", loc); ("source", PStr src)])
            "iqa" PNone)
    with (@Ok pyval (PInt z)).
  cbv beta iota.
  destruct (predicted_iqa_24h_int z w3) as (delta & Epred & Hdelta).
  rewrite Epred; cbv beta iota.
  change (py_get (PDict [("iqa", PInt z); ("pollutants", PDict d);
                         ("location", loc); ("source", PStr src)])
            "location" PNone)
    with (@Ok pyval loc).
  cbv beta iota. rewrite generate_alerts_int. cbv beta iota.
  unfold ret. intros H; inversion H; subst.
  exists z, d, loc, src, tempo, pandora, delta, w1, w2, w3.
  repeat split; try reflexivity; try assumption; lia.
Qed.

(** X9. In every document the dashboard returns for given coordinates the
    forecast is [max(10, iqa + delta)] for the index [iqa] of the openaq
    entry and a [delta] of [-20 .. 20], with the stable-conditions message:
    the index is never absent, so the [randint(30, 90)] branch of line 131
    and the other message of line 143 are never used. *)
Theorem forecast_follows_primary_index (lat lon : option string) (w w' : world)
  (answer : reply) :
  falsy lat = false -> falsy lon = false ->
  get_dashboard_data lat lon w = (Ok answer, w') ->
  exists sensors openaq iqa delta,
    field "sensors" (snd answer) = Some sensors
    /\ field "openaq" sensors = Some openaq
    /\ field "iqa" openaq = Some (PInt iqa)
    /\ -20 <= delta <= 20
    /\ field "forecast" (snd answer)
       = Some (PDict [("predicted_iqa_24h", PInt (Z.max 10 (iqa + delta)));
                      ("message",
                       PStr "As condições devem permanecer estáveis nas próximas 24 horas.")]).
Proof.
  intros Hlat Hlon E.
  destruct (get_dashboard_data_document lat lon w w' answer Hlat Hlon E)
    as (z & d & loc & src & tempo & pandora & delta & w1 & w2 & w3
        & _ & _ & _ & _ & Hdelta & ->).
  eexists _, _, z, delta. repeat split; try reflexivity; lia.
Qed.

Lemma forecast_follows_primary_index_witness :
  exists answer w' sensors openaq iqa,
    get_dashboard_data (Some "-23.55") (Some "-46.63")
      (mk_world None zero_tape (answers NoResponse)) = (Ok answer, w')
    /\ field "sensors" (snd answer) = Some sensors
    /\ field "openaq" sensors = Some openaq
    /\ field "iqa" openaq = Some (PInt iqa).
Proof.
  pose (w := mk_world None zero_tape (answers NoResponse)).
  destruct (get_dashboard_data (Some "-23.55") (Some "-46.63") w)
    as [[answer | e] w'] eqn:E; [| vm_compute in E; discriminate E].
  destruct (forecast_follows_primary_index (Some "-23.55") (Some "-46.63")
              w w' answer eq_refl eq_refl E)
    as (sensors & openaq & iqa & delta & Hs & Ho & Hi & _).
  exists answer, w', sensors, openaq, iqa. repeat split; assumption.
Defined.

(** X10. In every document the dashboard returns for given coordinates the
    alert list is decided by the index of the openaq entry (none up to 100,
    the warning up to 150, the danger above), so it has at most one alert;
    and the document's location name is the openaq entry's location. *)
Theorem alerts_follow_primary_index (lat lon : option string) (w w' : world)
  (answer : reply) :
  falsy lat = false -> falsy lon = false ->
  get_dashboard_data lat lon w = (Ok answer, w') ->
  exists sensors openaq iqa alerts,
    field "sensors" (snd answer) = Some sensors
    /\ field "openaq" sensors = Some openaq
    /\ field "iqa" openaq = Some (PInt iqa)
    /\ field "alerts" (snd answer) = Some (PList alerts)
    /\ (iqa <= 100 -> alerts = [])
    /\ (100 < iqa <= 150 -> alerts = [warning_alert])
    /\ (150 < iqa -> alerts = [danger_alert])
    /\ (length alerts <= 1)%nat
    /\ field "location_name" (snd answer) = field "location" openaq.
Proof.
  intros Hlat Hlon E.
  destruct (get_dashboard_data_document lat lon w w' answer Hlat Hlon E)
    as (z & d & loc & src & tempo & pandora & delta & w1 & w2 & w3
        & _ & _ & _ & _ & _ & ->).
  eexists _, _, z, _. split; [reflexivity |]. split; [reflexivity |].
  split; [reflexivity |]. split; [reflexivity |].
  destruct (Z.gtb_spec z 150); [| destruct (Z.gtb_spec z 100)];
    repeat split; intros; try reflexivity; try lia; cbn [length]; lia.
Qed.

Lemma alerts_follow_primary_index_witness :
  exists answer w',
    get_dashboard_data (Some "-23.55") (Some "-46.63")
      (mk_world (Some "key") zero_tape
         (answers (Response 200
            (Some (payload "Centro" [reading_json "pm25" (PInt 120)])))))
    = (Ok answer, w')
    /\ field "alerts" (snd answer) = Some (PList [warning_alert]).
Proof.
  pose (w := mk_world (Some "key") zero_tape
               (answers (Response 200
                  (Some (payload "Centro" [reading_json "pm25" (PInt 120)]))))).
  destruct (get_dashboard_data (Some "-23.55") (Some "-46.63") w)
    as [[answer | e] w'] eqn:E; [| vm_compute in E; discriminate E].
  destruct (alerts_follow_primary_index (Some "-23.55") (Some "-46.63")
              w w' answer eq_refl eq_refl E)
    as (sensors & openaq & iqa & alerts & Hs & Ho & Hi & Ha & _ & Hw & _).
  exists answer, w'. split; [exact E |].
  rewrite Ha. f_equal. f_equal. apply Hw.
  vm_compute in E. inversion E; subst.
  vm_compute in Hs. inversion Hs; subst.
  vm_compute in Ho. inversion Ho; subst.
  vm_compute in Hi. inversion Hi; subst. lia.
Defined.

(** ** The Column Derivation Engine, draw by draw *)

(** Whatever the engine returns, spelled out: the baseline of line 89, the
    draws of lines 92, 96, 101 and 104 in this order, and the reading of
    line 106. *)
Lemma derive_column_data_inv (sensor_name : string) (base : pyval)
  (w w' : world) (r : pyval) :
  derive_column_data sensor_name base w = (Ok r, w') ->
  exists pm25 n_no2 n_o3 n_hcho noise derived_iqa,
    pm25_baseline base = Ok pm25
    /\ (0.8 <= n_no2 /\ n_no2 <= 1.2)%Q
    /\ (0.7 <= n_o3 /\ n_o3 <= 1.3)%Q
    /\ (0.8 <= n_hcho /\ n_hcho <= 1.2)%Q
    /\ (0.9 <= noise /\ noise <= 1.1)%Q
    /\ int_of_float (fmul pm25 (Finite noise)) = Ok derived_iqa
    /\ w' = advance_by (if String.eqb sensor_name "TEMPO" then 4 else 3) w
    /\ r = PDict
             [("iqa", PInt derived_iqa);
              ("pollutants",
               PDict
                 ([("NO2 (Coluna Total)",
                    column (fadd (Finite 1.0e15)
                              (fmul (fmul pm25 (Finite 1.2e13)) (Finite n_no2))));
                   ("O3 (Coluna Total)",
                    column (fsub (Finite 7.0e16)
                              (fmul (fmul pm25 (Finite 2.0e14)) (Finite n_o3))))]
                  ++ (if String.eqb sensor_name "TEMPO"
                      then [("HCHO (Coluna Total)",
                             column (fadd (Finite 2.0e15)
                                       (fmul (fmul pm25 (Finite 1.5e14))
                                          (Finite n_hcho))))]
                      else []))%list);
              ("source", PStr (sensor_name ++ " (Derivado)"))].
Proof.
  unfold derive_column_data, bind, lift.
  destruct (pm25_baseline base) as [pm25 | e]; cbv beta iota; [| discriminate].
  draw_uniform 0.8%Q 1.2%Q w n_no2.
  draw_uniform 0.7%Q 1.3%Q (advance w) n_o3.
  destruct (String.eqb sensor_name "TEMPO").
  - draw_uniform 0.8%Q 1.2%Q (advance (advance w)) n_hcho. unfold ret at 1.
    cbv beta iota.
    draw_uniform 0.9%Q 1.1%Q (advance (advance (advance w))) noise.
    destruct (int_of_float _) as [z | e] eqn:Ez; cbv beta iota; [| discriminate].
    intros H; inversion H; subst.
    exists pm25, n_no2, n_o3, n_hcho, noise, z.
    repeat split; try assumption; reflexivity.
  - unfold ret at 1. cbv beta iota.
    draw_uniform 0.9%Q 1.1%Q (advance (advance w)) noise.
    destruct (int_of_float _) as [z | e] eqn:Ez; cbv beta iota; [| discriminate].
    intros H; inversion H; subst.
    exists pm25, n_no2, n_o3, 1%Q, noise, z.
    repeat split; try assumption; try reflexivity; lra.
Qed.

(** X11. Whatever the engine returns has the pollutant keys "NO2 (Coluna
    Total)" and "O3 (Coluna Total)" in this order, followed by "HCHO
    (Coluna Total)" exactly when the sensor name is "TEMPO"; every entry
    has the unit molec/cm²; the source is the sensor name followed by
    " (Derivado)"; the engine sends no request and takes four random draws
    for "TEMPO" and three for any other name. *)
Theorem derive_column_data_keys (sensor_name : string) (base : pyval)
  (w w' : world) (r : pyval) :
  derive_column_data sensor_name base w = (Ok r, w') ->
  exists derived_pollutants,
    field "pollutants" r = Some (PDict derived_pollutants)
    /\ Dict.keys derived_pollutants
       = (["NO2 (Coluna Total)"; "O3 (Coluna Total)"]
            ++ (if String.eqb sensor_name "TEMPO"
                then ["HCHO (Coluna Total)"] else []))%list
    /\ Forall (fun kv => field "unit" (snd kv) = Some (PStr "molec/cm²"))
         derived_pollutants
    /\ field "source" r = Some (PStr (sensor_name ++ " (Derivado)"))
    /\ sent w' = sent w
    /\ draws w'
       = (draws w + (if String.eqb sensor_name "TEMPO" then 4 else 3))%nat.
Proof.
  intros E.
  destruct (derive_column_data_inv sensor_name base w w' r E)
    as (pm25 & n1 & n2 & n3 & n4 & z & _ & _ & _ & _ & _ & _ & -> & ->).
  eexists. split; [reflexivity |].
  destruct (String.eqb sensor_name "TEMPO"); repeat split;
    try reflexivity; repeat constructor; cbn; lia.
Qed.

Lemma derive_column_data_keys_witness :
  exists r w' derived_pollutants,
    derive_column_data "PANDORA" (PDict [])
      (mk_world None zero_tape (answers NoResponse)) = (Ok r, w')
    /\ field "pollutants" r = Some (PDict derived_pollutants)
    /\ Dict.keys derived_pollutants
       = ["NO2 (Coluna Total)"; "O3 (Coluna Total)"].
Proof.
  pose (w := mk_world None zero_tape (answers NoResponse)).
  destruct (derive_column_data "PANDORA" (PDict []) w) as [[r | e] w'] eqn:E;
    [| vm_compute in E; discriminate E].
  destruct (derive_column_data_keys "PANDORA" (PDict []) w w' r E)
    as (dp & Hp & Hk & _).
  exists r, w', dp. repeat split; assumption.
Defined.

Lemma trunc_bounds (x : Q) :
  (0 <= x)%Q -> (inject_Z (trunc x) <= x /\ x < inject_Z (trunc x) + 1)%Q.
Proof.
  intros Hx.
  assert (Ht : trunc x = Qfloor x).
  { unfold trunc, Qfloor. destruct x as [n d]. cbn [Qnum Qden].
    apply Z.quot_div_nonneg; [| reflexivity].
    unfold Qle in Hx. cbn in Hx. lia. }
  rewrite Ht. split; [apply Qfloor_le |].
  pose proof (Qlt_floor x) as H. rewrite inject_Z_plus in H. exact H.
Qed.

(** X12. On a baseline that is non-negative and moderate the engine's
    index is within ten percent of it, up to the truncation and the
    rounding of doubles:
    [(0.9 - margin) * pm25 - 1 < iqa <= (1.1 + margin) * pm25] for the
    [rounding_margin] of [10^-15]; without a PM2.5 entry in the mapping
    the baseline is 40 and the index lies in [36, 44]. *)
Theorem derive_column_data_index_range (sensor_name : string) (base : pyval)
  (pm25 : Q) (w : world) :
  pm25_baseline base = Ok (Finite pm25) ->
  (0 <= pm25)%Q -> (pm25 <= inject_Z moderate_bound)%Q ->
  exists r w' derived_iqa,
    derive_column_data sensor_name base w = (Ok r, w')
    /\ field "iqa" r = Some (PInt derived_iqa)
    /\ ((0.9 - rounding_margin) * pm25 - 1 < inject_Z derived_iqa)%Q
    /\ (inject_Z derived_iqa <= (1.1 + rounding_margin) * pm25)%Q
    /\ (field "PM25" base = None -> 36 <= derived_iqa <= 44).
Proof.
  intros Hb Hpm Hmod.
  assert (Habs : (Qabs pm25 <= inject_Z moderate_bound)%Q).
  { now rewrite (Qabs_pos pm25 Hpm). }
  destruct (derive_column_data_run sensor_name base pm25 w Hb Habs)
    as (noise & dp & w' & E & [Hlo Hhi] & _).
  assert (Hprod : (0 <= pm25 * noise)%Q) by nra.
  destruct (trunc_bounds (pm25 * noise) Hprod) as [Hl Hu].
  assert (Hwithin : (0.9 * pm25 <= pm25 * noise /\ pm25 * noise <= 1.1 * pm25)%Q)
    by (split; nra).
  assert (Hroom : (0 <= rounding_margin * pm25)%Q)
    by (unfold rounding_margin; nra).
  eexists _, w', _. split; [exact E |]. split; [reflexivity |].
  split; [lra |]. split; [lra |].
  intros Hnone.
  assert (H40 : pm25 = 40%Q).
  { unfold pm25_baseline in Hb.
    destruct base as [| | | | | | d]; cbn [py_get rbind] in Hb; try discriminate.
    cbn [field] in Hnone. unfold Dict.get_default in Hb.
    rewrite Hnone in Hb. vm_compute in Hb. inversion Hb. reflexivity. }
  subst pm25.
  assert (H1 : (35 < inject_Z (trunc (40 * noise)))%Q) by lra.
  assert (H2 : (inject_Z (trunc (40 * noise)) <= 44)%Q) by lra.
  change 35%Q with (inject_Z 35) in H1. change 44%Q with (inject_Z 44) in H2.
  rewrite <- Zlt_Qlt in H1. rewrite <- Zle_Qle in H2. lia.
Qed.

Lemma derive_column_data_index_range_witness :
  exists r w' derived_iqa,
    derive_column_data "TEMPO" (PDict [])
      (mk_world None zero_tape (answers NoResponse)) = (Ok r, w')
    /\ field "iqa" r = Some (PInt derived_iqa)
    /\ 36 <= derived_iqa <= 44.
Proof.
  destruct (derive_column_data_index_range "TEMPO" (PDict []) 40
              (mk_world None zero_tape (answers NoResponse)) eq_refl)
    as (r & w' & z & E & Hi & _ & _ & Hd).
  - unfold Qle; simpl; lia.
  - apply Qle_bool_iff. vm_compute. reflexivity.
  - exists r, w', z. repeat split; try assumption; apply Hd; reflexivity.
Defined.

Lemma fl_nonneg (q : Q) : (0 <= q)%Q -> (q <= max_float)%Q -> fl q = Finite q.
Proof.
  intros H0 Hm. apply fl_finite. now rewrite (Qabs_pos q H0).
Qed.

(** A column [k + pm25 * c * n] of lines 92 and 101 stays finite and
    within the bounds its constants give. *)
Lemma column_plus (pm25 c n k P N lo hi : Q) :
  (0 <= pm25)%Q -> (pm25 <= P)%Q -> (0 <= c)%Q ->
  (0 <= n)%Q -> (n <= N)%Q -> (0 <= k)%Q ->
  (P * c <= max_float)%Q -> (k + P * c * N <= max_float)%Q ->
  (lo <= k)%Q -> (k + P * c * N <= hi)%Q ->
  exists x,
    fadd (Finite k) (fmul (fmul (Finite pm25) (Finite c)) (Finite n)) = Finite x
    /\ (lo <= x)%Q /\ (x <= hi)%Q.
Proof.
  intros Hp0 HpP Hc Hn0 HnN Hk HM1 HM2 Hlo Hhi.
  set (M := max_float) in *.
  assert (B1 : (0 <= pm25 * c /\ pm25 * c <= P * c)%Q) by (split; nra).
  assert (B2 : (0 <= pm25 * c * n /\ pm25 * c * n <= P * c * N)%Q).
  { destruct B1 as [B1l B1u]. set (y := (pm25 * c)%Q) in *.
    assert (0 <= P * c)%Q by lra. split; nra. }
  exists (k + pm25 * c * n)%Q. split; [| split; lra].
  cbn [fmul]. rewrite (fl_nonneg (pm25 * c)); [| lra | subst M; lra].
  cbn [fmul]. rewrite (fl_nonneg (pm25 * c * n)); [| lra | subst M; lra].
  cbn [fadd]. apply fl_nonneg; [lra | subst M; lra].
Qed.

(** A column [k - pm25 * c * n] of line 96, likewise. *)
Lemma column_minus (pm25 c n k P N lo : Q) :
  (0 <= pm25)%Q -> (pm25 <= P)%Q -> (0 <= c)%Q ->
  (0 <= n)%Q -> (n <= N)%Q ->
  (P * c <= max_float)%Q -> (k <= max_float)%Q ->
  (P * c * N <= k)%Q -> (lo <= k - P * c * N)%Q ->
  exists x,
    fsub (Finite k) (fmul (fmul (Finite pm25) (Finite c)) (Finite n)) = Finite x
    /\ (lo <= x)%Q /\ (x <= k)%Q.
Proof.
  intros Hp0 HpP Hc Hn0 HnN HM1 HM2 Hk Hlo.
  set (M := max_float) in *.
  assert (B1 : (0 <= pm25 * c /\ pm25 * c <= P * c)%Q) by (split; nra).
  assert (B2 : (0 <= pm25 * c * n /\ pm25 * c * n <= P * c * N)%Q).
  { destruct B1 as [B1l B1u]. set (y := (pm25 * c)%Q) in *.
    assert (0 <= P * c)%Q by lra. split; nra. }
  exists (k + - (pm25 * c * n))%Q. split; [| split; lra].
  unfold fsub. cbn [fmul].
  rewrite (fl_nonneg (pm25 * c)); [| lra | subst M; lra].
  cbn [fmul]. rewrite (fl_nonneg (pm25 * c * n)); [| lra | subst M; lra].
  cbn [fopp fadd]. apply fl_nonneg; [lra | subst M; lra].
Qed.

Ltac closed_Qle := apply Qle_bool_iff; vm_compute; reflexivity.

(** X13. For a PM2.5 baseline of [0, 200] the engine returns, and its
    columns are the two-decimal scientific notation of finite positive
    numbers: NO2 within [1.0e15, 3.88e15], O3 within [1.8e16, 7.0e16] and,
    for "TEMPO", HCHO within [2.0e15, 3.8e16]. *)
Theorem derive_column_data_columns (sensor_name : string) (base : pyval)
  (pm25 : Q) (w : world) :
  pm25_baseline base = Ok (Finite pm25) ->
  (0 <= pm25)%Q -> (pm25 <= 200)%Q ->
  exists r w' pollutants no2 o3 hcho,
    derive_column_data sensor_name base w = (Ok r, w')
    /\ field "pollutants" r = Some (PDict pollutants)
    /\ Dict.lookup "NO2 (Coluna Total)" pollutants
       = Some (entry (PStr (format_2e (Finite no2))) (PStr "molec/cm²"))
    /\ (1.0e15 <= no2 /\ no2 <= 3.88e15)%Q
    /\ Dict.lookup "O3 (Coluna Total)" pollutants
       = Some (entry (PStr (format_2e (Finite o3))) (PStr "molec/cm²"))
    /\ (1.8e16 <= o3 /\ o3 <= 7.0e16)%Q
    /\ Dict.lookup "HCHO (Coluna Total)" pollutants
       = (if String.eqb sensor_name "TEMPO"
          then Some (entry (PStr (format_2e (Finite hcho))) (PStr "molec/cm²"))
          else None)
    /\ (2.0e15 <= hcho /\ hcho <= 3.8e16)%Q.
Proof.
  intros Hb Hlo Hhi.
  assert (Habs : (Qabs pm25 <= inject_Z moderate_bound)%Q).
  { rewrite (Qabs_pos pm25 Hlo).
    apply Qle_trans with 200%Q; [exact Hhi | closed_Qle]. }
  destruct (derive_column_data_run sensor_name base pm25 w Hb Habs)
    as (noise & dp & w' & E & _).
  destruct (derive_column_data_inv sensor_name base w w' _ E)
    as (pm & n1 & n2 & n3 & n4 & z & Hb' & [L1 U1] & [L2 U2] & [L3 U3]
        & _ & _ & _ & Hr).
  rewrite Hb in Hb'. inversion Hb'; subst pm. clear Hb'.
  destruct (column_plus pm25 1.2e13 n1 1.0e15 200 1.2 1.0e15 3.88e15)
    as (no2 & Eno2 & Bno2); try assumption; try lra; try closed_Qle.
  destruct (column_minus pm25 2.0e14 n2 7.0e16 200 1.3 1.8e16)
    as (o3 & Eo3 & Bo3); try assumption; try lra; try closed_Qle.
  destruct (column_plus pm25 1.5e14 n3 2.0e15 200 1.2 2.0e15 3.8e16)
    as (hcho & Ehcho & Bhcho); try assumption; try lra; try closed_Qle.
  eexists _, w', _, no2, o3, hcho.
  split; [exact E |]. rewrite Hr, Eno2, Eo3, Ehcho. split; [reflexivity |].
  split; [reflexivity |]. split; [exact Bno2 |].
  split; [reflexivity |]. split; [exact Bo3 |].
  split; [now destruct (String.eqb sensor_name "TEMPO") | exact Bhcho].
Qed.

Lemma derive_column_data_columns_witness :
  exists r w' pollutants no2,
    derive_column_data "PANDORA" (PDict [])
      (mk_world None zero_tape (answers NoResponse)) = (Ok r, w')
    /\ field "pollutants" r = Some (PDict pollutants)
    /\ Dict.lookup "NO2 (Coluna Total)" pollutants
       = Some (entry (PStr (format_2e (Finite no2))) (PStr "molec/cm²"))
    /\ (1.0e15 <= no2 /\ no2 <= 3.88e15)%Q.
Proof.
  destruct (derive_column_data_columns "PANDORA" (PDict []) 40
              (mk_world None zero_tape (answers NoResponse)) eq_refl)
    as (r & w' & p & no2 & o3 & hcho & E & Hp & Hno2 & Bno2 & _).
  - unfold Qle; simpl; lia.
  - unfold Qle; simpl; lia.
  - exists r, w', p, no2. repeat split; try assumption; apply Bno2.
Defined.

(** ** The dashboard on a synthesized reading *)

Lemma trunc_range (x : Q) (lo hi : Z) :
  0 <= lo -> (inject_Z lo <= x)%Q -> (x <= inject_Z hi)%Q ->
  lo <= trunc x <= hi.
Proof.
  intros H0 Hlo Hhi.
  assert (Hx : (0 <= x)%Q).
  { apply Qle_trans with (inject_Z lo); [| exact Hlo].
    change 0%Q with (inject_Z 0). now rewrite <- Zle_Qle. }
  destruct (trunc_bounds x Hx) as [Hl Hu].
  change 1%Q with (inject_Z 1) in Hu. rewrite <- inject_Z_plus in Hu.
  assert (H1 : (inject_Z lo < inject_Z (trunc x + 1))%Q)
    by (eapply Qle_lt_trans; eassumption).
  assert (H2 : (inject_Z (trunc x) <= inject_Z hi)%Q)
    by (eapply Qle_trans; eassumption).
  rewrite <- Zlt_Qlt in H1. rewrite <- Zle_Qle in H2. lia.
Qed.

(** Line 89 on the synthesizer's mapping: its PM2.5 integer as a float. *)
Lemma fallback_baseline (pm25 : Z) (u : pyval) (rest : dict) :
  25 <= pm25 <= 80 ->
  pm25_baseline (PDict (("PM25", entry (PInt pm25) u) :: rest))
  = Ok (Finite (inject_Z pm25))
  /\ (Qabs (inject_Z pm25) <= inject_Z moderate_bound)%Q.
Proof.
  intros Hpm.
  assert (H0 : (0 <= inject_Z pm25)%Q).
  { change 0%Q with (inject_Z 0). rewrite <- Zle_Qle. lia. }
  assert (H80 : (inject_Z pm25 <= inject_Z 80)%Q) by (rewrite <- Zle_Qle; lia).
  split.
  - change (pm25_baseline (PDict (("PM25", entry (PInt pm25) u) :: rest)))
      with (float_of_int pm25).
    unfold float_of_int.
    assert (Hle : Qle_bool (Qabs (inject_Z pm25)) max_float = true).
    { apply Qle_bool_iff. rewrite (Qabs_pos _ H0).
      apply Qle_trans with (inject_Z 80); [exact H80 | closed_Qle]. }
    now rewrite Hle.
  - rewrite (Qabs_pos _ H0).
    apply Qle_trans with (inject_Z 80); [exact H80 | closed_Qle].
Qed.

(** The engine on the synthesizer's mapping. *)
Lemma derive_column_data_on_fallback (sensor_name : string) (pm25 : Z)
  (u : pyval) (rest : dict) (w : world) :
  25 <= pm25 <= 80 ->
  exists derived_iqa derived_pollutants w',
    derive_column_data sensor_name
      (PDict (("PM25", entry (PInt pm25) u) :: rest)) w
    = (Ok (PDict [("iqa", PInt derived_iqa);
                  ("pollutants", PDict derived_pollutants);
                  ("source", PStr (sensor_name ++ " (Derivado)"))]), w')
    /\ 22 <= derived_iqa <= 88.
Proof.
  intros Hpm.
  destruct (fallback_baseline pm25 u rest Hpm) as [Hb Hmod].
  destruct (derive_column_data_run sensor_name _ (inject_Z pm25) w Hb Hmod)
    as (noise & dp & w' & E & [Hlo Hhi] & _).
  exists (trunc (inject_Z pm25 * noise)), dp, w'. split; [exact E |].
  assert (H25 : (inject_Z 25 <= inject_Z pm25)%Q) by (rewrite <- Zle_Qle; lia).
  assert (H80 : (inject_Z pm25 <= inject_Z 80)%Q) by (rewrite <- Zle_Qle; lia).
  change (inject_Z 25) with 25%Q in H25. change (inject_Z 80) with 80%Q in H80.
  apply trunc_range; [lia | |].
  - change (inject_Z 22) with 22%Q. nra.
  - change (inject_Z 88) with 88%Q. nra.
Qed.

(** X14. With both coordinates given and no parsed body (no credential, no
    response, a 4xx or 5xx status, a body that is not JSON) the dashboard
    answers 200 with a synthesized openaq entry whose index is within
    [25, 80]; the location name is "Erro de Configuração" without a
    credential and "Sua Localização" otherwise; there is no alert; both
    derived indexes are within [22, 88]; the forecast is within [10, 100];
    eleven random draws are taken. *)
Theorem dashboard_on_synthesized_reading (lat lon : option string) (w : world) :
  falsy lat = false -> falsy lon = false ->
  parsed_body (text lat) (text lon) w = None ->
  exists body w' openaq tempo pandora iqa tempo_iqa pandora_iqa predicted,
    get_dashboard_data lat lon w = (Ok (200, body), w')
    /\ field "sensors" body
       = Some (PDict [("openaq", openaq); ("tempo", tempo); ("pandora", pandora)])
    /\ field "source" openaq
       = Some (PStr "OpenAQ (Dados Indisponíveis na Região)")
    /\ field "iqa" openaq = Some (PInt iqa) /\ 25 <= iqa <= 80
    /\ field "location_name" body
       = Some (PStr (if falsy (OPENAQ_API_KEY w) then "Erro de Configuração"
                     else "Sua Localização"))
    /\ field "alerts" body = Some (PList [])
    /\ field "iqa" tempo = Some (PInt tempo_iqa) /\ 22 <= tempo_iqa <= 88
    /\ field "iqa" pandora = Some (PInt pandora_iqa) /\ 22 <= pandora_iqa <= 88
    /\ field "forecast" body
       = Some (PDict [("predicted_iqa_24h", PInt predicted);
                      ("message",
                       PStr "As condições devem permanecer estáveis nas próximas 24 horas.")])
    /\ 10 <= predicted <= 100
    /\ draws w' = (draws w + 11)%nat.
Proof.
  intros Hlat Hlon Hbody.
  pose (loc := if falsy (OPENAQ_API_KEY w) then config_error_location
               else default_location).
  pose (w0 := if falsy (OPENAQ_API_KEY w) then w
              else log_request
                     (openaq_request (text (OPENAQ_API_KEY w)) (text lat)
                        (text lon)) w).
  assert (Hclient : get_openaq_data (text lat) (text lon) w
                    = generate_fallback_data (PStr loc) w0).
  { rewrite (get_openaq_data_unparsed _ _ w Hbody). subst loc w0.
    now destruct (falsy (OPENAQ_API_KEY w)). }
  assert (Hd0 : draws w0 = draws w).
  { subst w0. now destruct (falsy (OPENAQ_API_KEY w)). }
  destruct (generate_fallback_data_run (PStr loc) w0)
    as (pm25 & o3 & no2 & E & Hpm & _ & _).
  rewrite <- Hclient in E.
  set (w1 := advance (advance (advance w0))) in *.
  destruct (derive_column_data_on_fallback "TEMPO" pm25 (PStr "µg/m³")
              [("O3", entry (PFloat (Finite (round2 o3))) (PStr "µg/m³"));
               ("NO2", entry (PFloat (Finite (round2 no2))) (PStr "µg/m³"))]
              w1 Hpm)
    as (t & dt & w2 & E1 & Ht).
  destruct (derive_column_data_on_fallback "PANDORA" pm25 (PStr "µg/m³")
              [("O3", entry (PFloat (Finite (round2 o3))) (PStr "µg/m³"));
               ("NO2", entry (PFloat (Finite (round2 no2))) (PStr "µg/m³"))]
              w2 Hpm)
    as (p & dp & w3 & E2 & Hp).
  destruct (derive_column_data_inv _ _ _ _ _ E1)
    as (? & ? & ? & ? & ? & ? & _ & _ & _ & _ & _ & _ & Hw2 & _).
  destruct (derive_column_data_inv _ _ _ _ _ E2)
    as (? & ? & ? & ? & ? & ? & _ & _ & _ & _ & _ & _ & Hw3 & _).
  destruct (predicted_iqa_24h_int pm25 w3) as (delta & Epred & Hdelta).
  assert (Hrun : get_dashboard_data lat lon w
                 = (Ok (200,
                        PDict [("location_name", PStr loc);
                               ("alerts", PList []);
                               ("sensors",
                                PDict [("openaq",
                                        PDict [("iqa", PInt pm25);
                                               ("pollutants",
                                                PDict [("PM25", entry (PInt pm25) (PStr "µg/m³"));
                                                       ("O3", entry (PFloat (Finite (round2 o3))) (PStr "µg/m³"));
                                                       ("NO2", entry (PFloat (Finite (round2 no2))) (PStr "µg/m³"))]);
                                               ("location", PStr loc);
                                               ("source", PStr fallback_source)]);
                                       ("tempo",
                                        PDict [("iqa", PInt t);
                                               ("pollutants", PDict dt);
                                               ("source", PStr ("TEMPO" ++ " (Derivado)"))]);
                                       ("pandora",
                                        PDict [("iqa", PInt p);
                                               ("pollutants", PDict dp);
                                               ("source", PStr ("PANDORA" ++ " (Derivado)"))])]);
                               ("forecast",
                                PDict [("predicted_iqa_24h", PInt (Z.max 10 (pm25 + delta)));
                                       ("message", PStr stable_message)]);
                               ("map_info", PDict [("search_radius_km", PInt 100)])]),
                    advance w3)).
  { unfold get_dashboard_data. rewrite Hlat, Hlon.
    cbv beta iota delta [orb]. unfold bind, lift.
    rewrite E; cbv beta iota.
    match goal with
    | |- context [py_get ?r "pollutants" (PDict [])] =>
        change (py_get r "pollutants" (PDict []))
          with (@Ok pyval
                  (PDict [("PM25", entry (PInt pm25) (PStr "µg/m³"));
                          ("O3", entry (PFloat (Finite (round2 o3))) (PStr "µg/m³"));
                          ("NO2", entry (PFloat (Finite (round2 no2))) (PStr "µg/m³"))]))
    end.
    cbv beta iota. rewrite E1; cbv beta iota. rewrite E2; cbv beta iota.
    match goal with
    | |- context [py_get ?r "iqa" PNone] =>
        change (py_get r "iqa" PNone) with (@Ok pyval (PInt pm25))
    end.
    cbv beta iota. rewrite Epred; cbv beta iota.
    match goal with
    | |- context [py_get ?r "location" PNone] =>
        change (py_get r "location" PNone) with (@Ok pyval (PStr loc))
    end.
    cbv beta iota. rewrite generate_alerts_int.
    assert (H150 : (pm25 >? 150) = false) by lia.
    assert (H100 : (pm25 >? 100) = false) by lia.
    rewrite H150, H100. reflexivity. }
  eexists _, (advance w3), _, _, _, pm25, t, p, (Z.max 10 (pm25 + delta)).
  split; [exact Hrun |].
  split; [reflexivity |]. split; [reflexivity |]. split; [reflexivity |].
  split; [exact Hpm |].
  split; [subst loc; now destruct (falsy (OPENAQ_API_KEY w)) |].
  split; [reflexivity |]. split; [reflexivity |]. split; [exact Ht |].
  split; [reflexivity |]. split; [exact Hp |].
  split; [reflexivity |]. split; [lia |].
  rewrite Hw3, Hw2. subst w1. cbn. rewrite Hd0. lia.
Qed.

Lemma dashboard_on_synthesized_reading_witness :
  exists body w' predicted message,
    get_dashboard_data (Some "-23.55") (Some "-46.63")
      (mk_world (Some "key") zero_tape (answers (Response 503 None)))
    = (Ok (200, body), w')
    /\ field "location_name" body = Some (PStr "Sua Localização")
    /\ field "alerts" body = Some (PList [])
    /\ field "forecast" body
       = Some (PDict [("predicted_iqa_24h", PInt predicted);
                      ("message", PStr message)])
    /\ 10 <= predicted <= 100.
Proof.
  destruct (dashboard_on_synthesized_reading (Some "-23.55") (Some "-46.63")
              (mk_world (Some "key") zero_tape (answers (Response 503 None)))
              eq_refl eq_refl eq_refl)
    as (body & w' & openaq & tempo & pandora & iqa & t & p & predicted
        & E & _ & _ & _ & _ & Hloc & Hal & _ & _ & _ & _ & Hf & Hp & _).
  exists body, w', predicted, stable_message.
  repeat split; try assumption; apply Hp.
Defined.

(** ** Status and random draws of the dashboard *)




(** ** The peripheral endpoints *)

Lemma community_image_run (color : string) (lo hi i : Z) (w : world) :
  lo <= hi ->
  exists e,
    community_image color lo hi i w
    = (Ok (PDict [("url",
                   PStr ("https://placehold.co/600x400/" ++ color
                           ++ "/FFFFFF?text=Imagem+Verificada+%23"
                           ++ decimal i));
                  ("estimated_iqa", PInt e)]), advance w)
    /\ lo <= e <= hi.
Proof.
  intros Hle. unfold community_image, bind.
  destruct (randint_spec lo hi w Hle) as (e & E & B).
  rewrite E. exists e. split; [reflexivity | exact B].
Qed.

Lemma for_each_run {A B} (f : A -> M B) (P : A -> B -> Prop) (l : list A) :
  (forall x w, exists y, f x w = (Ok y, advance w) /\ P x y) ->
  forall w,
    exists ys,
      for_each f l w = (Ok ys, advance_by (length l) w)
      /\ Forall2 P l ys.
Proof.
  intros Hf. induction l as [| x l IH]; intros w.
  - exists []. split; [reflexivity | constructor].
  - destruct (Hf x w) as (y & Ey & Hy).
    destruct (IH (advance w)) as (ys & Eys & Hys).
    exists (y :: ys). split.
    + cbn [for_each]. unfold bind. rewrite Ey; cbv beta iota.
      rewrite Eys; cbv beta iota. reflexivity.
    + now constructor.
Qed.

(** X16. The community endpoint always answers 200 with exactly six images
    numbered 1 to 6 in their URLs: the first three on the green
    placeholder with an estimated index within [25, 50], the last three on
    the amber placeholder with an estimated index within [51, 100], so
    every green index is below every amber one.  It takes six random draws
    and sends no request. *)
Theorem get_community_data_images (w : world) :
  exists e1 e2 e3 e4 e5 e6 w',
    get_community_data w
    = (Ok (200,
           PDict [("images",
                   PList [PDict [("url", PStr "https://placehold.co/600x400/22c55e/FFFFFF?text=Imagem+Verificada+%231");
                                 ("estimated_iqa", PInt e1)];
                          PDict [("url", PStr "https://placehold.co/600x400/22c55e/FFFFFF?text=Imagem+Verificada+%232");
                                 ("estimated_iqa", PInt e2)];
                          PDict [("url", PStr "https://placehold.co/600x400/22c55e/FFFFFF?text=Imagem+Verificada+%233");
                                 ("estimated_iqa", PInt e3)];
                          PDict [("url", PStr "https://placehold.co/600x400/f59e0b/FFFFFF?text=Imagem+Verificada+%234");
                                 ("estimated_iqa", PInt e4)];
                          PDict [("url", PStr "https://placehold.co/600x400/f59e0b/FFFFFF?text=Imagem+Verificada+%235");
                                 ("estimated_iqa", PInt e5)];
                          PDict [("url", PStr "https://placehold.co/600x400/f59e0b/FFFFFF?text=Imagem+Verificada+%236");
                                 ("estimated_iqa", PInt e6)]])]), w')
    /\ 25 <= e1 <= 50 /\ 25 <= e2 <= 50 /\ 25 <= e3 <= 50
    /\ 51 <= e4 <= 100 /\ 51 <= e5 <= 100 /\ 51 <= e6 <= 100
    /\ Z.max e1 (Z.max e2 e3) < Z.min e4 (Z.min e5 e6)
    /\ draws w' = (draws w + 6)%nat
    /\ sent w' = sent w.
Proof.
  pose (image := fun color lo hi (i : Z) (y : pyval) =>
          exists e,
            y = PDict [("url",
                        PStr ("https://placehold.co/600x400/" ++ color
                                ++ "/FFFFFF?text=Imagem+Verificada+%23"
                                ++ decimal i));
                       ("estimated_iqa", PInt e)]
            /\ lo <= e <= hi).
  assert (Hrun : forall color lo hi, lo <= hi ->
            forall x w0, exists y,
              community_image color lo hi x w0 = (Ok y, advance w0)
              /\ image color lo hi x y).
  { intros color lo hi Hle x w0.
    destruct (community_image_run color lo hi x w0 Hle) as (e & E & B).
    eexists. split; [exact E |]. exists e. split; [reflexivity | exact B]. }
  destruct (for_each_run (community_image "22c55e" 25 50)
              (image "22c55e" 25 50) [1; 2; 3]
              (Hrun "22c55e" 25 50 ltac:(lia)) w)
    as (images & E1 & H1).
  destruct (for_each_run (community_image "f59e0b" 51 100)
              (image "f59e0b" 51 100) [4; 5; 6]
              (Hrun "f59e0b" 51 100 ltac:(lia))
              (advance_by (length [1; 2; 3]) w))
    as (more & E2 & H2).
  inversion H1 as [| ? y1 ? l1 (e1 & -> & B1) H1']; subst.
  inversion H1' as [| ? y2 ? l2 (e2 & -> & B2) H1'']; subst.
  inversion H1'' as [| ? y3 ? l3 (e3 & -> & B3) H1''']; subst.
  inversion H1'''; subst.
  inversion H2 as [| ? y4 ? l4 (e4 & -> & B4) H2']; subst.
  inversion H2' as [| ? y5 ? l5 (e5 & -> & B5) H2'']; subst.
  inversion H2'' as [| ? y6 ? l6 (e6 & -> & B6) H2''']; subst.
  inversion H2'''; subst.
  exists e1, e2, e3, e4, e5, e6, (advance_by 3 (advance_by 3 w)).
  split.
  - unfold get_community_data, bind. rewrite E1; cbv beta iota.
    rewrite E2; cbv beta iota. reflexivity.
  - repeat split; try lia; cbn; lia.
Qed.

(** X17. The night endpoint always answers 200 after one random draw, and
    its message agrees with its flag: the ideal-conditions message when
    the flag is true and the other message when it is false.  Both answers
    occur: the flag is true exactly when the draw is even. *)
Theorem get_night_conditions_agree (w : world) :
  exists is_ideal : bool,
    get_night_conditions w
    = (Ok (200,
           PDict [("ideal", PBool is_ideal);
                  ("message",
                   PStr (if is_ideal
                         then "Condições ideais! A lua está clara. Você pode fazer uma medição."
                         else "Condições não ideais (nublado ou lua nova). Tente outra noite."))]),
       advance w)
    /\ (is_ideal = true <-> tape w (draws w) mod 2 = 0).
Proof.
  unfold get_night_conditions, choice, bind, next_raw, ret.
  cbn [length Z.of_nat Pos.of_succ_nat Pos.succ].
  pose proof (Z.mod_pos_bound (tape w (draws w)) 2 eq_refl) as Hr.
  assert (Hcase : tape w (draws w) mod 2 = 0 \/ tape w (draws w) mod 2 = 1)
    by lia.
  destruct Hcase as [H | H]; rewrite H.
  - exists true. split; [reflexivity |]. split; [reflexivity | reflexivity].
  - exists false. split; [reflexivity |]. split; [discriminate | discriminate].
Qed.

(** X18. The image endpoint always answers 200 after one random draw and
    without a request, with an index within [30, 200] and the source
    "Sua Medição (Análise via IA)"; the two-second delay is not part of
    the model. *)
Theorem analyze_image_range (w : world) :
  exists estimated_iqa,
    analyze_image w
    = (Ok (200, PDict [("iqa", PInt estimated_iqa);
                       ("source", PStr "Sua Medição (Análise via IA)")]),
       advance w)
    /\ 30 <= estimated_iqa <= 200.
Proof.
  unfold analyze_image, bind.
  draw_randint 30 200 w e. exists e. split; [reflexivity | exact Be].
Qed.

(** ** A measurement without a name *)

Lemma scan_measurement_unnamed (m : pyval) (st : scan_state) :
  named m = false -> exists e, scan_measurement m st = Raise e.
Proof.
  unfold named, scan_measurement. destruct st as [found main].
  destruct m as [| | | | | | d]; cbn [py_get rbind];
    try (intros _; eexists; reflexivity).
  destruct (Dict.get_default "parameter" PNone d) as [| b | z | x | s | l | d'];
    try discriminate; intros _; cbn [py_in rbind];
    try (eexists; reflexivity);
    destruct (py_round2 (Dict.get_default "value" (PInt 0) d));
    cbn [rbind py_upper]; eexists; reflexivity.
Qed.

Lemma scan_measurements_unnamed (pre post : list pyval) (m : pyval)
  (st : scan_state) :
  named m = false ->
  exists e, scan_measurements (pre ++ m :: post) st = Raise e.
Proof.
  intros Hm. rewrite scan_measurements_app.
  destruct (scan_measurements pre st) as [st1 | e]; cbn [rbind];
    [| eexists; reflexivity].
  cbn [scan_measurements].
  destruct (scan_measurement_unnamed m st1 Hm) as (e & ->).
  eexists; reflexivity.
Qed.

(** X19. One measurement whose parameter is missing or not a string
    discards the whole response: wherever it stands among the measurements
    of the parsed body, and whatever the others hold, the client returns
    the synthesizer's reading tagged "Sua Localização". *)
Theorem unnamed_measurement_discards_response
  (lat lon : string) (w : world) (data : pyval) (rs pre post : list pyval)
  (m : pyval) :
  parsed_body lat lon w = Some data ->
  py_get data "results" PNone = Ok (PList rs) ->
  all_measurements rs = Ok (pre ++ m :: post)%list ->
  named m = false ->
  get_openaq_data lat lon w
  = generate_fallback_data (PStr "Sua Localização")
      (log_request (openaq_request (text (OPENAQ_API_KEY w)) lat lon) w).
Proof.
  intros Hbody Hres Hall Hm.
  rewrite (get_openaq_data_parsed lat lon w data Hbody).
  destruct (parse_payload data) as [p | e] eqn:Eparse; [| reflexivity].
  exfalso. unfold parse_payload in Eparse. rewrite Hres in Eparse.
  cbn [rbind] in Eparse.
  destruct rs as [| r rs'].
  { cbn in Hall. inversion Hall as [H0].
    destruct pre; discriminate H0. }
  cbn [truthy first_item rbind py_iter] in Eparse.
  destruct (py_get r "location" (PStr unknown_location)); cbn [rbind] in Eparse;
    [| discriminate].
  destruct (scan_results (r :: rs') ([], None)) as [st |] eqn:Escan;
    cbn [rbind] in Eparse; [| discriminate].
  destruct (scan_results_flat _ _ _ Escan) as (ms & Hms & Hscan).
  rewrite Hall in Hms. inversion Hms; subst ms.
  destruct (scan_measurements_unnamed pre post m ([], None) Hm) as (e & He).
  rewrite He in Hscan. discriminate.
Qed.

Lemma unnamed_measurement_discards_response_witness :
  let ms := [reading_json "pm25" (PInt 12);
             PDict [("value", PInt 7); ("unit", PStr "ppm")]] in
  let w := mk_world (Some "key") zero_tape
             (answers (Response 200 (Some (payload "Centro" ms)))) in
  exists r w',
    get_openaq_data "-23.55" "-46.63" w = (Ok r, w')
    /\ field "source" r = Some (PStr "OpenAQ (Dados Indisponíveis na Região)")
    /\ field "location" r = Some (PStr "Sua Localização").
Proof.
  intros ms w.
  rewrite (unnamed_measurement_discards_response "-23.55" "-46.63" w
             (payload "Centro" ms)
             [PDict [("location", PStr "Centro"); ("measurements", PList ms)]]
             [reading_json "pm25" (PInt 12)] []
             (PDict [("value", PInt 7); ("unit", PStr "ppm")])
             eq_refl eq_refl eq_refl eq_refl).
  eexists _, _. split; [vm_compute; reflexivity |].
  split; reflexivity.
Defined.

(** ** The derived indexes in the dashboard document *)

Lemma engine_index_bounds (pm25 noise : Q) (z : Z) :
  int_of_float (fmul (Finite pm25) (Finite noise)) = Ok z ->
  (0 <= pm25)%Q -> (0.9 <= noise)%Q -> (noise <= 1.1)%Q ->
  ((0.9 - rounding_margin) * pm25 - 1 < inject_Z z
   /\ inject_Z z <= (1.1 + rounding_margin) * pm25)%Q.
Proof.
  cbn [fmul]. unfold fl.
  destruct (Qle_bool (Qabs (pm25 * noise)) max_float); cbn [int_of_float];
    [| discriminate].
  intros H Hpm Hlo Hhi. inversion H; subst z.
  assert (Hprod : (0 <= pm25 * noise)%Q) by nra.
  destruct (trunc_bounds (pm25 * noise) Hprod) as [Hl Hu].
  assert (Hwithin : (0.9 * pm25 <= pm25 * noise /\ pm25 * noise <= 1.1 * pm25)%Q)
    by (split; nra).
  assert (Hroom : (0 <= rounding_margin * pm25)%Q)
    by (unfold rounding_margin; nra).
  split; lra.
Qed.

(** Line 104 on the default baseline of 40. *)
Lemma engine_index_default (noise : Q) (z : Z) :
  int_of_float (fmul (Finite 40) (Finite noise)) = Ok z ->
  (0.9 <= noise)%Q -> (noise <= 1.1)%Q ->
  36 <= z <= 44.
Proof.
  cbn [fmul]. unfold fl.
  destruct (Qle_bool (Qabs (40 * noise)) max_float); cbn [int_of_float];
    [| discriminate].
  intros H Hlo Hhi. inversion H; subst z.
  apply trunc_range; [lia | |].
  - change (inject_Z 36) with 36%Q. lra.
  - change (inject_Z 44) with 44%Q. lra.
Qed.

(** X20. In every document the dashboard returns for given coordinates,
    both derived indexes follow the PM2.5 value of the openaq entry's
    pollutant mapping, not its index: for a non-negative value [pm25] they
    lie above [(0.9 - margin) * pm25 - 1] and at most at
    [(1.1 + margin) * pm25], for the [rounding_margin] of [10^-15] that
    covers the rounding of doubles; when the mapping has no PM25 key they
    lie in [36, 44] whatever the openaq index is. *)
Theorem derived_indexes_follow_pm25 (lat lon : option string) (w w' : world)
  (answer : reply) :
  falsy lat = false -> falsy lon = false ->
  get_dashboard_data lat lon w = (Ok answer, w') ->
  exists sensors openaq pollutants tempo pandora tempo_iqa pandora_iqa,
    field "sensors" (snd answer) = Some sensors
    /\ field "openaq" sensors = Some openaq
    /\ field "pollutants" openaq = Some (PDict pollutants)
    /\ field "tempo" sensors = Some tempo
    /\ field "iqa" tempo = Some (PInt tempo_iqa)
    /\ field "pandora" sensors = Some pandora
    /\ field "iqa" pandora = Some (PInt pandora_iqa)
    /\ (forall pm25,
           pm25_baseline (PDict pollutants) = Ok (Finite pm25) ->
           (0 <= pm25)%Q ->
           ((0.9 - rounding_margin) * pm25 - 1 < inject_Z tempo_iqa
            /\ inject_Z tempo_iqa <= (1.1 + rounding_margin) * pm25
            /\ (0.9 - rounding_margin) * pm25 - 1 < inject_Z pandora_iqa
            /\ inject_Z pandora_iqa <= (1.1 + rounding_margin) * pm25)%Q)
    /\ (Dict.lookup "PM25" pollutants = None ->
        36 <= tempo_iqa <= 44 /\ 36 <= pandora_iqa <= 44).
Proof.
  intros Hlat Hlon E.
  destruct (get_dashboard_data_document lat lon w w' answer Hlat Hlon E)
    as (z & d & loc & src & tempo & pandora & delta & w1 & w2 & w3
        & _ & E1 & E2 & _ & _ & ->).
  destruct (derive_column_data_inv _ _ _ _ _ E1)
    as (pm1 & ? & ? & ? & n1 & t & Hb1 & _ & _ & _ & [L1 U1] & Ht & _ & ->).
  destruct (derive_column_data_inv _ _ _ _ _ E2)
    as (pm2 & ? & ? & ? & n2 & p & Hb2 & _ & _ & _ & [L2 U2] & Hp & _ & ->).
  assert (Hall : forall pm25,
             pm25_baseline (PDict d) = Ok (Finite pm25) ->
             (0 <= pm25)%Q ->
             ((0.9 - rounding_margin) * pm25 - 1 < inject_Z t
              /\ inject_Z t <= (1.1 + rounding_margin) * pm25
              /\ (0.9 - rounding_margin) * pm25 - 1 < inject_Z p
              /\ inject_Z p <= (1.1 + rounding_margin) * pm25)%Q).
  { intros pm25 Hb Hpm.
    rewrite Hb in Hb1, Hb2. inversion Hb1; subst pm1. inversion Hb2; subst pm2.
    destruct (engine_index_bounds pm25 n1 t Ht Hpm L1 U1).
    destruct (engine_index_bounds pm25 n2 p Hp Hpm L2 U2).
    repeat split; assumption. }
  eexists _, _, d, _, _, t, p.
  split; [reflexivity |]. split; [reflexivity |]. split; [reflexivity |].
  split; [reflexivity |]. split; [reflexivity |]. split; [reflexivity |].
  split; [reflexivity |]. split; [exact Hall |].
  intros Hnone.
  assert (H40 : pm25_baseline (PDict d) = Ok (Finite 40)).
  { unfold pm25_baseline. cbn [py_get rbind]. unfold Dict.get_default.
    rewrite Hnone. reflexivity. }
  rewrite H40 in Hb1, Hb2. inversion Hb1; subst pm1. inversion Hb2; subst pm2.
  split; [exact (engine_index_default n1 t Ht L1 U1)
         | exact (engine_index_default n2 p Hp L2 U2)].
Qed.

Lemma derived_indexes_follow_pm25_witness :
  exists answer w' sensors openaq tempo tempo_iqa,
    get_dashboard_data (Some "-23.55") (Some "-46.63")
      (mk_world (Some "key") zero_tape
         (answers (Response 200
            (Some (payload "Centro" [reading_json "o3" (PInt 300)])))))
    = (Ok answer, w')
    /\ field "sensors" (snd answer) = Some sensors
    /\ field "openaq" sensors = Some openaq
    /\ field "iqa" openaq = Some (PInt 300)
    /\ field "tempo" sensors = Some tempo
    /\ field "iqa" tempo = Some (PInt tempo_iqa)
    /\ 36 <= tempo_iqa <= 44.
Proof.
  pose (w := mk_world (Some "key") zero_tape
               (answers (Response 200
                  (Some (payload "Centro" [reading_json "o3" (PInt 300)]))))).
  destruct (get_dashboard_data (Some "-23.55") (Some "-46.63") w)
    as [[answer | e] w'] eqn:E; [| vm_compute in E; discriminate E].
  destruct (derived_indexes_follow_pm25 (Some "-23.55") (Some "-46.63")
              w w' answer eq_refl eq_refl E)
    as (sensors & openaq & d & tempo & pandora & t & p
        & Hs & Ho & Hd & Ht & Hti & _ & _ & _ & Hnone).
  exists answer, w', sensors, openaq, tempo, t.
  split; [exact E |]. split; [exact Hs |]. split; [exact Ho |].
  assert (Hfacts : field "iqa" openaq = Some (PInt 300)
                   /\ Dict.lookup "PM25" d = None).
  { vm_compute in E. inversion E; subst.
    vm_compute in Hs. inversion Hs; subst.
    vm_compute in Ho. inversion Ho; subst.
    vm_compute in Hd. inversion Hd; subst. split; reflexivity. }
  destruct Hfacts as [Hi Hn].
  split; [exact Hi |]. split; [exact Ht |]. split; [exact Hti |].
  apply (Hnone Hn).
Defined.

(** ** The sign of a formatted number *)

Lemma usize_nb_digits (d : Decimal.uint) :
  DecimalPos.Unsigned.usize d = N.of_nat (Decimal.nb_digits d).
Proof.
  induction d; cbn [DecimalPos.Unsigned.usize Decimal.nb_digits];
    rewrite ?IHd, ?Nat2N.inj_succ; reflexivity.
Qed.

Lemma of_lu_bound (d : Decimal.uint) :
  (DecimalPos.Unsigned.of_lu d < 10 ^ DecimalPos.Unsigned.usize d)%N.
Proof.
  induction d; cbn [DecimalPos.Unsigned.of_lu DecimalPos.Unsigned.usize];
    rewrite ?N.pow_succ_r'; lia.
Qed.


(** A positive number written with [k] decimal digits lies in
    [10^(k-1), 10^k). *)
Lemma to_uint_bounds (p : positive) :
  (10 ^ (N.of_nat (Decimal.nb_digits (Pos.to_uint p)) - 1) <= N.pos p
   < 10 ^ N.of_nat (Decimal.nb_digits (Pos.to_uint p)))%N.
Proof.
  pose proof (DecimalPos.Unsigned.of_to p) as Hof.
  pose proof (DecimalPos.Unsigned.to_of (Pos.to_uint p)) as Hto.
  rewrite Hof in Hto. cbn [N.to_uint] in Hto.
  pose proof (DecimalPos.Unsigned.to_uint_nonzero p) as Hnz.
  assert (Hhead : Pos.to_uint p = Decimal.nzhead (Pos.to_uint p)).
  { unfold Decimal.unorm in Hto.
    destruct (Decimal.nzhead (Pos.to_uint p)) eqn:E; try exact Hto.
    now elim Hnz. }
  assert (Hacc : forall d acc,
            (10 ^ N.of_nat (Decimal.nb_digits d)
             <= N.pos (Pos.of_uint_acc d acc)
             < (N.pos acc + 1) * 10 ^ N.of_nat (Decimal.nb_digits d))%N).
  { intros d acc. rewrite DecimalPos.Unsigned.of_uint_acc_rev.
    rewrite <- usize_nb_digits.
    pose proof (of_lu_bound (Decimal.rev d)) as Hb.
    assert (Hsz : DecimalPos.Unsigned.usize (Decimal.rev d)
                  = DecimalPos.Unsigned.usize d).
    { now rewrite !usize_nb_digits, DecimalFacts.nb_digits_rev. }
    rewrite Hsz in Hb. nia. }
  destruct (Pos.to_uint p) as [| d | d | d | d | d | d | d | d | d | d] eqn:E.
  - now elim (DecimalPos.Unsigned.to_uint_nonnil p).
  - exfalso. symmetry in Hhead. now apply DecimalFacts.nzhead_nonzero in Hhead.
  - cbn [Pos.of_uint] in Hof. injection Hof as <-.
    cbn [Decimal.nb_digits]. rewrite Nat2N.inj_succ, N.sub_1_r, N.pred_succ,
      N.pow_succ_r'. specialize (Hacc d 1%positive). lia.
  - cbn [Pos.of_uint] in Hof. injection Hof as <-.
    cbn [Decimal.nb_digits]. rewrite Nat2N.inj_succ, N.sub_1_r, N.pred_succ,
      N.pow_succ_r'. specialize (Hacc d 2%positive). lia.
  - cbn [Pos.of_uint] in Hof. injection Hof as <-.
    cbn [Decimal.nb_digits]. rewrite Nat2N.inj_succ, N.sub_1_r, N.pred_succ,
      N.pow_succ_r'. specialize (Hacc d 3%positive). lia.
  - cbn [Pos.of_uint] in Hof. injection Hof as <-.
    cbn [Decimal.nb_digits]. rewrite Nat2N.inj_succ, N.sub_1_r, N.pred_succ,
      N.pow_succ_r'. specialize (Hacc d 4%positive). lia.
  - cbn [Pos.of_uint] in Hof. injection Hof as <-.
    cbn [Decimal.nb_digits]. rewrite Nat2N.inj_succ, N.sub_1_r, N.pred_succ,
      N.pow_succ_r'. specialize (Hacc d 5%positive). lia.
  - cbn [Pos.of_uint] in Hof. injection Hof as <-.
    cbn [Decimal.nb_digits]. rewrite Nat2N.inj_succ, N.sub_1_r, N.pred_succ,
      N.pow_succ_r'. specialize (Hacc d 6%positive). lia.
  - cbn [Pos.of_uint] in Hof. injection Hof as <-.
    cbn [Decimal.nb_digits]. rewrite Nat2N.inj_succ, N.sub_1_r, N.pred_succ,
      N.pow_succ_r'. specialize (Hacc d 7%positive). lia.
  - cbn [Pos.of_uint] in Hof. injection Hof as <-.
    cbn [Decimal.nb_digits]. rewrite Nat2N.inj_succ, N.sub_1_r, N.pred_succ,
      N.pow_succ_r'. specialize (Hacc d 8%positive). lia.
  - cbn [Pos.of_uint] in Hof. injection Hof as <-.
    cbn [Decimal.nb_digits]. rewrite Nat2N.inj_succ, N.sub_1_r, N.pred_succ,
      N.pow_succ_r'. specialize (Hacc d 9%positive). lia.
Qed.

Lemma ndigits_bounds (p : positive) :
  1 <= ndigits p /\ 10 ^ (ndigits p - 1) <= Z.pos p < 10 ^ ndigits p.
Proof.
  unfold ndigits. pose proof (to_uint_bounds p) as [Hl Hu].
  set (k := Decimal.nb_digits (Pos.to_uint p)) in *.
  assert (Hk : (k <> 0)%nat).
  { subst k. intros H. apply DecimalFacts.nb_digits_0 in H.
    now apply (DecimalPos.Unsigned.to_uint_nonnil p). }
  split; [lia |].
  apply N2Z.inj_le in Hl. apply N2Z.inj_lt in Hu.
  rewrite N2Z.inj_pow in Hl, Hu. rewrite N2Z.inj_sub in Hl by lia.
  rewrite nat_N_Z in Hl, Hu. cbn in Hl, Hu. exact (conj Hl Hu).
Qed.

(** [10^(x - y)] as a fraction of integer powers. *)
Lemma Qpower10_sub (x y : Z) :
  0 <= x -> 0 <= y ->
  (Qpower 10 (x - y) == inject_Z (10 ^ x) / inject_Z (10 ^ y))%Q.
Proof.
  intros Hx Hy.
  assert (H10 : ~ (10 == 0)%Q) by discriminate.
  unfold Z.sub. rewrite (Qpower_plus 10 x (- y) H10), Qpower_opp.
  change 10%Q with (inject_Z 10).
  rewrite <- !Zpower_Qpower by assumption. reflexivity.
Qed.

Lemma Qdiv_le_cross (a b c d : Z) :
  0 < b -> 0 < d -> a * d <= c * b ->
  (inject_Z a / inject_Z b <= inject_Z c / inject_Z d)%Q.
Proof.
  intros Hb Hd H.
  assert (Hb' : (0 < inject_Z b)%Q) by (change 0%Q with (inject_Z 0); now rewrite <- Zlt_Qlt).
  assert (Hd' : (0 < inject_Z d)%Q) by (change 0%Q with (inject_Z 0); now rewrite <- Zlt_Qlt).
  apply Qle_shift_div_l; [exact Hd' |].
  setoid_replace (inject_Z a / inject_Z b * inject_Z d)%Q
    with (inject_Z a * inject_Z d / inject_Z b)%Q by (field; lra).
  apply Qle_shift_div_r; [exact Hb' |].
  rewrite <- !inject_Z_mult, <- Zle_Qle. exact H.
Qed.

Lemma Qdiv_lt_cross (a b c d : Z) :
  0 < b -> 0 < d -> a * d < c * b ->
  (inject_Z a / inject_Z b < inject_Z c / inject_Z d)%Q.
Proof.
  intros Hb Hd H.
  assert (Hb' : (0 < inject_Z b)%Q) by (change 0%Q with (inject_Z 0); now rewrite <- Zlt_Qlt).
  assert (Hd' : (0 < inject_Z d)%Q) by (change 0%Q with (inject_Z 0); now rewrite <- Zlt_Qlt).
  apply Qlt_shift_div_l; [exact Hd' |].
  setoid_replace (inject_Z a / inject_Z b * inject_Z d)%Q
    with (inject_Z a * inject_Z d / inject_Z b)%Q by (field; lra).
  apply Qlt_shift_div_r; [exact Hb' |].
  rewrite <- !inject_Z_mult, <- Zlt_Qlt. exact H.
Qed.

(** The decimal exponent brackets its argument. *)
Lemma exponent10_spec (a : Q) :
  (0 < a)%Q ->
  (Qpower 10 (exponent10 a) <= a /\ a < Qpower 10 (exponent10 a + 1))%Q.
Proof.
  intros Ha. unfold exponent10.
  destruct a as [n d]. cbn [Qnum Qden].
  destruct n as [| n | n]; try (unfold Qlt in Ha; cbn in Ha; lia).
  destruct (ndigits_bounds n) as (Hkn & Hnl & Hnu).
  destruct (ndigits_bounds d) as (Hkd & Hdl & Hdu).
  set (kn := ndigits n) in *. set (kd := ndigits d) in *.
  assert (Ea : (Z.pos n # d == inject_Z (Z.pos n) / inject_Z (Z.pos d))%Q).
  { rewrite (Qmake_Qdiv (Z.pos n) d). reflexivity. }
  assert (P1 : 0 < 10 ^ kd) by (apply Z.pow_pos_nonneg; lia).
  assert (P2 : 0 < 10 ^ (kd - 1)) by (apply Z.pow_pos_nonneg; lia).
  assert (S1 : 10 ^ kn = 10 * 10 ^ (kn - 1)).
  { rewrite <- Z.pow_succ_r by lia. f_equal. lia. }
  assert (S2 : 10 ^ kd = 10 * 10 ^ (kd - 1)).
  { rewrite <- Z.pow_succ_r by lia. f_equal. lia. }
  assert (Low : (Qpower 10 (kn - kd - 1) <= Z.pos n # d)%Q).
  { replace (kn - kd - 1) with ((kn - 1) - kd) by lia.
    rewrite (Qpower10_sub (kn - 1) kd) by lia. rewrite Ea.
    apply Qdiv_le_cross; [lia | lia | nia]. }
  assert (High : (Z.pos n # d < Qpower 10 (kn - kd + 1))%Q).
  { replace (kn - kd + 1) with (kn - (kd - 1)) by lia.
    rewrite (Qpower10_sub kn (kd - 1)) by lia. rewrite Ea.
    apply Qdiv_lt_cross; [lia | lia | nia]. }
  destruct (Qle_bool (Qpower 10 (kn - kd)) (Z.pos n # d)) eqn:Et.
  - apply Qle_bool_iff in Et. split; assumption.
  - split; [exact Low |].
    replace (kn - kd - 1 + 1) with (kn - kd) by lia.
    apply Qnot_le_lt. intros H. apply Qle_bool_iff in H. congruence.
Qed.

Lemma Qabs_eq (x : Q) : (0 <= x)%Q -> Qabs x = x.
Proof.
  destruct x as [n d]. unfold Qle, Qabs. cbn. intros H.
  f_equal. apply Z.abs_eq. lia.
Qed.

(** The text of a finite number that is not negative has no minus sign. *)
Lemma format_2e_finite_nonneg (x : Q) :
  (0 <= x)%Q -> nonneg (PStr (format_2e_finite x)) = true.
Proof.
  intros Hx. unfold format_2e_finite.
  destruct (Qeq_bool x 0) eqn:E0; [reflexivity |].
  assert (Hpos : (0 < x)%Q).
  { apply Qeq_bool_neq in E0. apply Qle_lteq in Hx.
    destruct Hx as [H | H]; [exact H | now elim E0; symmetry]. }
  rewrite (Qabs_eq x Hx).
  apply Qle_bool_iff in Hx. rewrite Hx.
  destruct (exponent10_spec x Hpos) as [Hlo Hhi].
  set (e := exponent10 x) in *.
  assert (Hp : (0 < Qpower 10 e)%Q) by (apply Qpower_0_lt; reflexivity).
  assert (Hs : (Qpower 10 (e + 1) == Qpower 10 e * 10)%Q).
  { rewrite Qpower_plus by discriminate. reflexivity. }
  rewrite Hs in Hhi.
  assert (B : 100 <= round_half_even (x / Qpower 10 e * 100) <= 1000).
  { apply round_half_even_bounds.
    - change (inject_Z 100) with (1 * 100)%Q.
      apply Qmult_le_compat_r; [| discriminate].
      apply Qle_shift_div_l; [exact Hp | lra].
    - change (inject_Z 1000) with (10 * 100)%Q.
      apply Qmult_le_compat_r; [| discriminate].
      apply Qle_shift_div_r; [exact Hp | lra]. }
  set (m0 := round_half_even (x / Qpower 10 e * 100)) in *.
  assert (D : forall m e', 100 <= m <= 999 ->
            nonneg
              (PStr
                 ("" ++ digit (m / 100) ++ "." ++ digit ((m / 10) mod 10)
                 ++ digit (m mod 10) ++ "e" ++ (if Z.ltb e' 0 then "-" else "+")
                 ++ (if Z.ltb (Z.abs e') 10 then "0" else "")
                 ++ decimal (Z.abs e'))) = true).
  { intros m e' Hm.
    assert (Hd : 1 <= m / 100 <= 9).
    { split; [apply Z.div_le_lower_bound; lia
             | apply Z.lt_succ_r, Z.div_lt_upper_bound; lia]. }
    assert (Hc : m / 100 = 1 \/ m / 100 = 2 \/ m / 100 = 3 \/ m / 100 = 4
                 \/ m / 100 = 5 \/ m / 100 = 6 \/ m / 100 = 7 \/ m / 100 = 8
                 \/ m / 100 = 9) by lia.
    destruct Hc as [-> | [-> | [-> | [-> | [-> | [-> | [-> | [-> | ->]]]]]]]];
      reflexivity. }
  destruct (m0 =? 1000) eqn:Em.
  - apply D. lia.
  - apply D. apply Z.eqb_neq in Em. lia.
Qed.

Lemma column_nonneg (x : Q) :
  (0 <= x)%Q -> entry_nonneg (column (Finite x)) = true.
Proof.
  intros Hx. exact (format_2e_finite_nonneg x Hx).
Qed.

(** ** The data-model invariant on every reading *)

Lemma reading_invariant_intro (z : Z) (d rest : dict) :
  0 <= z ->
  forallb (fun kv => entry_nonneg (snd kv)) d = true ->
  reading_invariant (PDict (("iqa", PInt z) :: ("pollutants", PDict d) :: rest))
  = true.
Proof.
  intros Hz Hd. unfold reading_invariant.
  change (field "pollutants"
            (PDict (("iqa", PInt z) :: ("pollutants", PDict d) :: rest)))
    with (Some (PDict d)).
  change (field "iqa"
            (PDict (("iqa", PInt z) :: ("pollutants", PDict d) :: rest)))
    with (Some (PInt z)).
  cbv beta iota. rewrite Hd. cbn [andb iqa_nonneg_int]. now apply Z.leb_le.
Qed.

(** C8, as the code has it.  The synthesizer's readings keep the
    invariant.  The client's reading keeps it when every measurement value
    of the body the parsing code gets to see that is a number is
    non-negative.  The engine's index is a non-negative integer when the
    PM2.5 baseline is non-negative and moderate; its pollutant values are
    the text of numbers, and they show no negative number when the
    baseline is moreover at most 269: above that the O3 column
    [7.0e16 - pm25 * 2.0e14 * noise] can fall below zero. *)
Theorem readings_keep_invariant
  (location_name : pyval) (lat lon sensor_name : string) (base : pyval)
  (pm25 : Q) (w : world) :
  (exists r w',
      generate_fallback_data location_name w = (Ok r, w')
      /\ reading_invariant r = true)
  /\ ((forall data,
          parsed_body lat lon w = Some data ->
          payload_ok nonneg_number data = true) ->
      exists r w',
        get_openaq_data lat lon w = (Ok r, w')
        /\ reading_invariant r = true)
  /\ (pm25_baseline base = Ok (Finite pm25) ->
      (0 <= pm25)%Q -> (pm25 <= inject_Z moderate_bound)%Q ->
      exists r w' derived_iqa,
        derive_column_data sensor_name base w = (Ok r, w')
        /\ field "iqa" r = Some (PInt derived_iqa)
        /\ 0 <= derived_iqa
        /\ derived_reading sensor_name r
        /\ ((pm25 <= 269)%Q -> reading_invariant r = true)).
Proof.
  split; [| split].
  - destruct (generate_fallback_data_reading location_name w) as (r & E & Hr).
    exists r, (advance (advance (advance w))).
    split; [exact E | now apply fallback_reading_invariant].
  - intros Hbody.
    destruct (get_openaq_data_returns nonneg_number (fun v => nonneg v = true)
                (fun z => 0 <= z) nonneg_round nonneg_int lat lon w Hbody)
      as (r & w' & E & [Hr | Hr] & _); exists r, w'; split; try exact E.
    + now apply fallback_reading_invariant.
    + now apply real_reading_invariant.
  - intros Hb Hpm Hmod.
    assert (Habs : (Qabs pm25 <= inject_Z moderate_bound)%Q).
    { now rewrite (Qabs_pos pm25 Hpm). }
    destruct (derive_column_data_run sensor_name base pm25 w Hb Habs)
      as (noise & dp & w' & E & [Hlo Hhi] & Hdp & _).
    assert (Hz : 0 <= trunc (pm25 * noise)) by (apply trunc_nonneg; nra).
    eexists _, w', _. split; [exact E |]. split; [reflexivity |].
    split; [exact Hz |].
    split; [eexists _, dp; split; [reflexivity | exact Hdp] |].
    intros H269.
    destruct (derive_column_data_inv sensor_name base w w' _ E)
      as (pm & n1 & n2 & n3 & n4 & z & Hb' & [L1 U1] & [L2 U2] & [L3 U3]
          & _ & _ & _ & Hr).
    rewrite Hb in Hb'. inversion Hb'; subst pm. clear Hb'.
    destruct (column_plus pm25 1.2e13 n1 1.0e15 269 1.2 0 5.0e15)
      as (no2 & Eno2 & Bno2 & _); try assumption; try lra; try closed_Qle.
    destruct (column_minus pm25 2.0e14 n2 7.0e16 269 1.3 0)
      as (o3 & Eo3 & Bo3 & _); try assumption; try lra; try closed_Qle.
    destruct (column_plus pm25 1.5e14 n3 2.0e15 269 1.2 0 6.0e16)
      as (hcho & Ehcho & Bhcho & _); try assumption; try lra; try closed_Qle.
    rewrite Eno2, Eo3, Ehcho in Hr. inversion Hr as [[Hiqa Hpol]].
    apply reading_invariant_intro; [exact Hz |].
    destruct (String.eqb sensor_name "TEMPO"); cbn [app forallb snd];
      rewrite ?(column_nonneg no2 Bno2), ?(column_nonneg o3 Bo3),
        ?(column_nonneg hcho Bhcho); reflexivity.
Qed.

Lemma readings_keep_invariant_witness :
  let body := payload "Centro" [reading_json "pm25" (PFloat (Finite 12.5))] in
  let w := mk_world (Some "key") zero_tape (answers (Response 200 (Some body))) in
  payload_ok nonneg_number body = true
  /\ (exists r w',
         get_openaq_data "-23.55" "-46.63" w = (Ok r, w')
         /\ reading_invariant r = true)
  /\ (exists r w' derived_iqa,
         derive_column_data "TEMPO" (PDict []) w = (Ok r, w')
         /\ field "iqa" r = Some (PInt derived_iqa)
         /\ 0 <= derived_iqa
         /\ reading_invariant r = true).
Proof.
  split; [reflexivity |].
  destruct (readings_keep_invariant (PStr "Centro") "-23.55" "-46.63" "TEMPO"
              (PDict []) 40
              (mk_world (Some "key") zero_tape
                 (answers (Response 200
                    (Some (payload "Centro"
                             [reading_json "pm25" (PFloat (Finite 12.5))]))))))
    as (_ & Hclient & Hengine).
  split.
  - apply Hclient. intros data H. vm_compute in H. inversion H; subst.
    reflexivity.
  - destruct (Hengine eq_refl ltac:(unfold Qle; simpl; lia)
                ltac:(apply Qle_bool_iff; vm_compute; reflexivity))
      as (r & w' & i & E & Hi & Hpos & _ & Hinv).
    exists r, w', i. repeat split; try assumption.
    apply Hinv. unfold Qle; simpl; lia.
Defined.

(** C8 as the specification words it fails.  A negative measurement of
    the provider goes into the real reading as it is, value and index,
    and the engine derives a negative index from it.  And a measurement
    that is not negative can still break the invariant downstream: for a
    PM2.5 of 600 the real reading keeps the invariant, but the engine's
    O3 column is [7.0e16 - 600 * 2.0e14 * 0.7], shown as "-1.40e+16". *)
Lemma provider_values_break_invariant :
  (let body := payload "Centro" [reading_json "pm25" (PFloat (Finite (-5.5)))] in
   let w := mk_world (Some "key") zero_tape (answers (Response 200 (Some body))) in
   exists r w',
     get_openaq_data "-23.55" "-46.63" w = (Ok r, w')
     /\ field "source" r = Some (PStr "OpenAQ (Real)")
     /\ field "iqa" r = Some (PInt (-5))
     /\ field "pollutants" r
        = Some (PDict [("PM25", entry (PFloat (Finite (-550 # 100))) (PStr "µg/m³"))])
     /\ reading_invariant r = false
     /\ exists d w'',
          derive_column_data "PANDORA"
            (PDict [("PM25", entry (PFloat (Finite (-550 # 100))) (PStr "µg/m³"))]) w'
          = (Ok d, w'')
          /\ field "iqa" d = Some (PInt (-4))
          /\ reading_invariant d = false)
  /\ (let body := payload "Centro" [reading_json "pm25" (PInt 600)] in
      let w := mk_world (Some "key") zero_tape (answers (Response 200 (Some body))) in
      payload_ok nonneg_number body = true
      /\ exists r w',
           get_openaq_data "-23.55" "-46.63" w = (Ok r, w')
           /\ field "source" r = Some (PStr "OpenAQ (Real)")
           /\ field "pollutants" r
              = Some (PDict [("PM25", entry (PInt 600) (PStr "µg/m³"))])
           /\ reading_invariant r = true
           /\ exists d w'' columns,
                derive_column_data "PANDORA"
                  (PDict [("PM25", entry (PInt 600) (PStr "µg/m³"))]) w'
                = (Ok d, w'')
                /\ field "iqa" d = Some (PInt 540)
                /\ field "pollutants" d = Some (PDict columns)
                /\ Dict.lookup "O3 (Coluna Total)" columns
                   = Some (entry (PStr "-1.40e+16") (PStr "molec/cm²"))
                /\ reading_invariant d = false).
Proof.
  split.
  - eexists _, _. split; [vm_compute; reflexivity |].
    repeat split.
    eexists _, _. split; [vm_compute; reflexivity |].
    split; reflexivity.
  - split; [reflexivity |].
    eexists _, _. split; [vm_compute; reflexivity |].
    repeat split.
    eexists _, _, _. split; [vm_compute; reflexivity |].
    repeat split.
Qed.
